(** * signal-bot: the D-Bus client, its health check and its message decoding

    A shallow embedding of [src/client/Client.js], [src/structures/MessageV2.js]
    and [src/structures/UserConversation.js], with the properties the
    specification states about them and further properties of the code.

    The JavaScript values that flow through the client are embedded as a small
    datatype ([Js.JsVal]); a function that may throw returns a completion
    ([Js.Normal] or [Js.Throw]); the client object, its conversation cache and
    the effects it performs on the bus are threaded explicitly as a state. *)

From Stdlib Require Import ZArith List String Ascii Bool Lia DecimalString.
From Stdlib.Strings Require Import Byte.
From stdpp Require Import base option gmap strings.
Import ListNotations.

Local Open Scope string_scope.
Local Open Scope Z_scope.

Set Warnings "-register-all".

(* ===================================================================== *)
(** ** JavaScript values *)
(* ===================================================================== *)

Module Js.

(** The values of the [number] type that matter here: the integers a double
    holds exactly, the two infinities and NaN. *)
Inductive number : Type :=
| NaN
| Infinity (negative : bool)
| Int (z : Z).

(** The objects with an identity: the Client, and the conversations its
    manager has created, numbered in the order of their creation. *)
Inductive object_ref : Type :=
| ClientObject
| ConversationObject (n : nat).

(** Values. [JRef r] is a reference to one of the client's own objects, which
    live in the client state; [JArr] and [JObj] are plain data (a D-Bus reply
    body, a settings object, the argument of a constructor). *)
Inductive JsVal : Type :=
| JUndefined
| JNull
| JBool (b : bool)
| JNum (n : number)
| JBigInt (z : Z)
| JStr (s : string)
| JArr (elems : list JsVal)
| JObj (fields : list (string * JsVal))
| JRef (r : object_ref).

(** What a function body completes with: a value, or a thrown exception. *)
Inductive completion (E A : Type) : Type :=
| Normal (a : A)
| Throw (e : E).
Arguments Normal {E A} a.
Arguments Throw {E A} e.

Definition bind {E A B} (c : completion E A) (k : A -> completion E B)
  : completion E B :=
  match c with
  | Normal a => k a
  | Throw e => Throw e
  end.

#[global] Instance completion_ret {E} : MRet (completion E) :=
  fun _ a => Normal a.
#[global] Instance completion_bind {E} : MBind (completion E) :=
  fun _ _ k c => bind c k.

(** [typeof v]. *)
Definition typeof (v : JsVal) : string :=
  match v with
  | JUndefined => "undefined"
  | JBool _ => "boolean"
  | JNum _ => "number"
  | JBigInt _ => "bigint"
  | JStr _ => "string"
  | JNull | JArr _ | JObj _ | JRef _ => "object"
  end.

(** ToBoolean: the falsy values are undefined, null, false, 0, NaN, 0n and
    the empty string. *)
Definition truthy (v : JsVal) : bool :=
  match v with
  | JUndefined | JNull => false
  | JBool b => b
  | JNum NaN => false
  | JNum (Int z) => negb (z =? 0)
  | JNum (Infinity _) => true
  | JBigInt z => negb (z =? 0)
  | JStr s => negb (String.eqb s "")
  | JArr _ | JObj _ | JRef _ => true
  end.

(** [v == null], also the test behind [?.]. *)
Definition nullish (v : JsVal) : bool :=
  match v with
  | JUndefined | JNull => true
  | _ => false
  end.

(** [a || b] *)
Definition or_else (a b : JsVal) : JsVal := if truthy a then a else b.

(** A parameter with a default value: the default replaces [undefined] only. *)
Definition default_param (arg dflt : JsVal) : JsVal :=
  match arg with
  | JUndefined => dflt
  | _ => arg
  end.

Fixpoint assoc (k : string) (fs : list (string * JsVal)) : option JsVal :=
  match fs with
  | [] => None
  | (k', v) :: rest => if String.eqb k k' then Some v else assoc k rest
  end.

Definition index_name (i : nat) : string :=
  NilEmpty.string_of_uint (Nat.to_uint i).

(** [v.name] for a [v] that is neither null nor undefined and a [name] written
    in the program text (an identifier, so never an array index). Methods
    inherited from a prototype are modelled where they are called. *)
Definition lookup_named (v : JsVal) (name : string) : JsVal :=
  match v with
  | JObj fs => match assoc name fs with Some x => x | None => JUndefined end
  | JArr l =>
      if String.eqb name "length" then JNum (Int (Z.of_nat (List.length l)))
      else JUndefined
  | JStr s =>
      if String.eqb name "length" then JNum (Int (Z.of_nat (String.length s)))
      else JUndefined
  | _ => JUndefined
  end.

(** [v[i]] for a [v] that is neither null nor undefined. *)
Definition lookup_index (v : JsVal) (i : nat) : JsVal :=
  match v with
  | JArr l => nth i l JUndefined
  | JStr s =>
      match String.get i s with
      | Some c => JStr (String c EmptyString)
      | None => JUndefined
      end
  | JObj fs =>
      match assoc (index_name i) fs with Some x => x | None => JUndefined end
  | _ => JUndefined
  end.

(** What the runtime itself throws. *)
Inductive native_error : Type :=
| CannotReadProperty   (* a property of undefined or null was read *)
| NotAFunction.        (* something that is not a function was called *)

(** [v.name]: reading a property of null or undefined is a TypeError. *)
Definition get_named (v : JsVal) (name : string)
  : completion native_error JsVal :=
  if nullish v then Throw CannotReadProperty else Normal (lookup_named v name).

Definition get_index (v : JsVal) (i : nat) : completion native_error JsVal :=
  if nullish v then Throw CannotReadProperty else Normal (lookup_index v i).

(** [v?.name]: short-circuits to undefined on null and undefined. *)
Definition opt_named (v : JsVal) (name : string) : JsVal :=
  if nullish v then JUndefined else lookup_named v name.

(** [String.prototype.includes]: [needle] occurs somewhere in [hay]. *)
Fixpoint includes (hay needle : string) : bool :=
  String.prefix needle hay
  || match hay with
     | EmptyString => false
     | String _ rest => includes rest needle
     end.

(** [String.prototype.startsWith] *)
Definition startsWith (s p : string) : bool := String.prefix p s.

Definition is_str (needle : string) (v : JsVal) : bool :=
  match v with
  | JStr s => String.eqb s needle
  | _ => false
  end.

(** [v.includes(needle)] for a string literal [needle] and a [v] that is
    neither null nor undefined: the substring test on a string, the membership
    test on an array; nothing else this program handles has an [includes]
    method, and calling what is not there is a TypeError. *)
Definition call_includes (v : JsVal) (needle : string)
  : completion native_error JsVal :=
  match v with
  | JStr s => Normal (JBool (includes s needle))
  | JArr l => Normal (JBool (existsb (is_str needle) l))
  | _ => Throw NotAFunction
  end.

(** [Number(b)] for a BigInt [b]: the nearest double, ties to the even
    significand; beyond the largest finite double the result is an infinity. *)
Definition round_to_double (a : Z) : Z :=
  if a <? 2 ^ 53 then a
  else
    let e := Z.log2 a - 52 in
    let q := Z.shiftr a e in
    let r := Z.land a (Z.ones e) in
    let half := Z.shiftl 1 (e - 1) in
    let q' := if r <? half then q
              else if half <? r then q + 1
              else if Z.even q then q else q + 1 in
    Z.shiftl q' e.

Definition Number_of_BigInt (b : Z) : number :=
  let m := round_to_double (Z.abs b) in
  if 2 ^ 1024 <=? m then Infinity (b <? 0)
  else Int (Z.sgn b * m).

End Js.

(* ===================================================================== *)
(** ** Buffer.toString("base64") *)
(* ===================================================================== *)

Module Buffer.

(** A Buffer is a sequence of bytes. *)
Definition t : Type := list byte.

Definition alphabet : string :=
  "ABCDEFGHIJKLMNOPQRSTUVWXYZabcdefghijklmnopqrstuvwxyz0123456789+/".

Definition digit (n : Z) : ascii :=
  match String.get (Z.to_nat n) alphabet with
  | Some c => c
  | None => "="%char
  end.

Definition octet (b : byte) : Z := Z.of_N (Byte.to_N b).

(** Three octets make four digits; a last group of one or two octets is
    padded with [=]. *)
Fixpoint toBase64 (bs : list byte) : string :=
  match bs with
  | [] => EmptyString
  | [a] =>
      let x := octet a in
      String (digit (Z.shiftr x 2))
        (String (digit (Z.shiftl (Z.land x 3) 4)) "==")
  | [a; b] =>
      let x := octet a in
      let y := octet b in
      String (digit (Z.shiftr x 2))
        (String (digit (Z.lor (Z.shiftl (Z.land x 3) 4) (Z.shiftr y 4)))
           (String (digit (Z.shiftl (Z.land y 15) 2)) "="))
  | a :: b :: c :: rest =>
      let x := octet a in
      let y := octet b in
      let z := octet c in
      String (digit (Z.shiftr x 2))
        (String (digit (Z.lor (Z.shiftl (Z.land x 3) 4) (Z.shiftr y 4)))
           (String (digit (Z.lor (Z.shiftl (Z.land y 15) 2) (Z.shiftr z 6)))
              (String (digit (Z.land z 63)) (toBase64 rest))))
  end.

End Buffer.

(* ===================================================================== *)
(** ** src/structures/MessageV2.js *)
(* ===================================================================== *)

Module MessageV2.
Import Js.

Record t : Type := {
  _client : JsVal;
  _timestamp : JsVal;
  _sender : JsVal;
  _extras : JsVal;
  _conversation : JsVal;
  _message : JsVal
}.

(** [constructor(data = {})] *)
Definition constructor (data : JsVal) : completion native_error t :=
  let data := default_param data (JObj []) in
  client ← get_named data "client";
  timestamp ← get_named data "timestamp";
  sender ← get_named data "sender";
  extras ← get_named data "extras";
  conversation ← get_named data "conversation";
  message ← get_named data "message";
  mret {| _client := client;
          _timestamp := timestamp;
          _sender := sender;
          _extras := or_else extras (JArr []);
          _conversation := conversation;
          _message := or_else message (JStr "") |}.

Definition client (m : t) : JsVal := _client m.
Definition timestamp (m : t) : JsVal := _timestamp m.
Definition sender (m : t) : JsVal := _sender m.
Definition conversation (m : t) : JsVal := _conversation m.
Definition extras (m : t) : JsVal := _extras m.
Definition message (m : t) : JsVal := _message m.

(** The property [name] of the constructor's argument, as the constructor
    reads it: a missing argument is the empty object. *)
Definition supplied (data : JsVal) (name : string) : JsVal :=
  lookup_named (default_param data (JObj [])) name.

End MessageV2.

(* ===================================================================== *)
(** ** The legacy Message and the conversations *)
(* ===================================================================== *)

Module Message.
Import Js.

(** Modelled from the spec: structures/Message.js is not among the sources.
    The spec's data model gives a legacy message a timestamp, a sender
    identifier, a conversation, a content that defaults to the empty string
    when absent, and an attachments list; the record keeps what the handler
    in Client.js passes to the constructor. *)
Record t : Type := {
  client : JsVal;
  timestamp : JsVal;
  authorID : JsVal;
  conversation : JsVal;
  attachments : JsVal;
  content : JsVal
}.

Definition constructor (data : JsVal) : t :=
  {| client := lookup_named data "client";
     timestamp := lookup_named data "timestamp";
     authorID := lookup_named data "authorID";
     conversation := lookup_named data "conversation";
     attachments := lookup_named data "attachments";
     content := or_else (lookup_named data "content") (JStr "") |}.

End Message.

Module BaseConversation.

(** The type tag of a conversation: [UserConversation.type] is ["user"]; the
    other variant is the group conversation. *)
Inductive ConversationType : Type := user | group.

(** Modelled from the spec: structures/BaseConversation.js is not among the
    sources. The spec's data model gives a conversation an identifier, a
    type tag and a reference to the client that owns it; the methods of
    UserConversation read [this.id] and [this.client]. *)
Record t : Type := {
  id : string;
  type : ConversationType;
  client : Js.object_ref
}.

End BaseConversation.

(* ===================================================================== *)
(** ** src/structures/UserConversation.js *)
(* ===================================================================== *)

Module UserConversation.
Import Js.

(** The calls the client makes on the daemon's interface proxy, with the
    arguments in the order they are passed. *)
Inductive DaemonCall : Type :=
| sendMessage_call (content attachments recipients : JsVal)
| sendTyping_call (recipient stop : JsVal)
| sendEndSessionMessage_call (recipients : JsVal)
| getRegistrationStatus_call.

(** The daemon behind the proxy: how it settles each call. A timestamp comes
    back as a D-Bus int64, which the transport hands over as a BigInt; a
    rejection carries the transport's error object. *)
Record BusInterface : Type := {
  sendMessage_reply : JsVal -> JsVal -> JsVal -> completion JsVal Z;
  sendTyping_reply : JsVal -> JsVal -> completion JsVal unit;
  sendEndSessionMessage_reply : JsVal -> completion JsVal unit
}.

(** What a method of the conversation can throw: a TypeError of the runtime
    ([this.client._busInterface] is undefined until [connect] has run), or
    the daemon's rejection, passed on unchanged. *)
Inductive thrown : Type :=
| Native (e : native_error)
| Rejected (reason : JsVal).

Definition awaited {A} (r : completion JsVal A) : completion thrown A :=
  match r with
  | Normal a => Normal a
  | Throw reason => Throw (Rejected reason)
  end.

(** Each method returns the calls it made on the proxy, in order, and its
    completion. *)
Definition sendMessage (this : BaseConversation.t) (iface : option BusInterface)
    (content attachments : JsVal)
  : list DaemonCall * completion thrown JsVal :=
  let attachments := default_param attachments (JArr []) in
  let conversation := JArr [JStr (BaseConversation.id this)] in
  match iface with
  | None => ([], Throw (Native CannotReadProperty))
  | Some d =>
      ([sendMessage_call content attachments conversation],
       timestamp ← awaited (sendMessage_reply d content attachments conversation);
       mret (JNum (Number_of_BigInt timestamp)))
  end.

Definition sendTyping (this : BaseConversation.t) (iface : option BusInterface)
    (stop : JsVal)
  : list DaemonCall * completion thrown JsVal :=
  let stop := default_param stop (JBool false) in
  match iface with
  | None => ([], Throw (Native CannotReadProperty))
  | Some d =>
      ([sendTyping_call (JStr (BaseConversation.id this)) stop],
       _ ← awaited (sendTyping_reply d (JStr (BaseConversation.id this)) stop);
       mret JUndefined)
  end.

Definition resetSession (this : BaseConversation.t) (iface : option BusInterface)
  : list DaemonCall * completion thrown JsVal :=
  let conversation := JArr [JStr (BaseConversation.id this)] in
  match iface with
  | None => ([], Throw (Native CannotReadProperty))
  | Some d =>
      ([sendEndSessionMessage_call conversation],
       _ ← awaited (sendEndSessionMessage_reply d conversation);
       mret JUndefined)
  end.

(** The argument of a call that says whom it is for. *)
Definition recipient_argument (c : DaemonCall) : option JsVal :=
  match c with
  | sendMessage_call _ _ recipients => Some recipients
  | sendTyping_call recipient _ => Some recipient
  | sendEndSessionMessage_call recipients => Some recipients
  | getRegistrationStatus_call => None
  end.

(** Every call in [calls] names its recipient as the one-element list of the
    conversation's identifier. *)
Definition wraps_identifier (this : BaseConversation.t)
    (calls : list DaemonCall) : Prop :=
  Forall (fun c => recipient_argument c
                   = Some (JArr [JStr (BaseConversation.id this)])) calls.

End UserConversation.

(* ===================================================================== *)
(** ** src/client/Client.js *)
(* ===================================================================== *)

Module Client.
Import Js.

(** The TypeErrors the constructor throws, with the value each message
    shows. The message for a bad [dbus.type] shows the destination, as the
    one for a bad destination does. *)
Inductive bad_setting : Type :=
| Bad_connectionCheckInterval (shown : JsVal)
| Bad_destination (shown : JsVal)
| Bad_type (shown_destination : JsVal)
| Bad_phoneNumber_missing (shown : JsVal)
| Bad_phoneNumber_plus.

(** What the client's own code can throw or reject with: a TypeError of the
    runtime, a TypeError of the constructor, or a rejection of the transport
    passed on by an [await]. *)
Inductive thrown : Type :=
| Native (e : native_error)
| TypeError (e : bad_setting)
| Rejected (reason : JsVal).

Inductive log_line : Type :=
| Ignoring_UnauthenticatedQuoteException
| Disconnect_line
| Error_line (e : JsVal)
| MessageReceived_line (timestamp : Z) (authorID : string)
    (groupID : Buffer.t) (content attachments : JsVal).

Inductive payload : Type :=
| no_payload
| error_payload (e : JsVal)
| message_payload (m : Message.t)
| messagev2_payload (m : MessageV2.t).

(** What the client does to the world, in the order it does it: the calls on
    dbus-next and on the interface proxy, the timer, the events it emits to
    the application, and its log lines. The object path of
    [getProxyObject] is [/org/asamk/Signal/_] followed by the phone number,
    which is kept as the value it is. *)
Inductive effect : Type :=
| sessionBus
| systemBus
| getProxyObject (destination phoneNumber : JsVal)
| getInterface (name : string)
| setInterval (ms : JsVal)
| getRegistrationStatus
| clearInterval
| bus_disconnect
| removeAllListeners
| on (event : string)
| set_inSignature (method signature : string)
| emit (event : string) (p : payload)
| debugLog (l : log_line)
| console_log (s : string).

(** The client object. [cache] and [objects] are its ConversationManager:
    the conversations created so far, each with the identity its position
    gives it, and the map from identifier to conversation.

    [bus_connected], [interval_running] and [listening] are about what the
    client refers to: the bus in [this._bus] is open, the timer whose handle
    is in [this._connectionCheckInterval] runs, the interface in
    [this._busInterface] has the client's listeners. Each [connect] assigns
    these three fields anew. What a field referred to before stays as it
    was, and the client has no way left to reach it: [lost_buses],
    [lost_intervals] and [lost_interfaces] count the buses still open, the
    timers still running and the interfaces still listened on that were
    assigned over. *)
Record t : Type := {
  settings : JsVal;
  cache : gmap string nat;
  objects : list BaseConversation.t;
  bus_connected : bool;
  interval_running : bool;
  listening : bool;
  lost_buses : nat;
  lost_intervals : nat;
  lost_interfaces : nat;
  in_flight : nat;
  trace : list effect
}.

Definition with_trace (f : list effect -> list effect) (st : t) : t :=
  {| settings := settings st; cache := cache st; objects := objects st;
     bus_connected := bus_connected st;
     interval_running := interval_running st; listening := listening st;
     lost_buses := lost_buses st; lost_intervals := lost_intervals st;
     lost_interfaces := lost_interfaces st;
     in_flight := in_flight st; trace := f (trace st) |}.

Definition with_manager (c : gmap string nat) (o : list BaseConversation.t)
    (st : t) : t :=
  {| settings := settings st; cache := c; objects := o;
     bus_connected := bus_connected st;
     interval_running := interval_running st; listening := listening st;
     lost_buses := lost_buses st; lost_intervals := lost_intervals st;
     lost_interfaces := lost_interfaces st;
     in_flight := in_flight st; trace := trace st |}.

Definition with_session (bus interval listen : bool) (st : t) : t :=
  {| settings := settings st; cache := cache st; objects := objects st;
     bus_connected := bus; interval_running := interval; listening := listen;
     lost_buses := lost_buses st; lost_intervals := lost_intervals st;
     lost_interfaces := lost_interfaces st;
     in_flight := in_flight st; trace := trace st |}.

Definition with_lost (buses intervals interfaces : nat) (st : t) : t :=
  {| settings := settings st; cache := cache st; objects := objects st;
     bus_connected := bus_connected st;
     interval_running := interval_running st; listening := listening st;
     lost_buses := buses; lost_intervals := intervals;
     lost_interfaces := interfaces;
     in_flight := in_flight st; trace := trace st |}.

Definition with_in_flight (n : nat) (st : t) : t :=
  {| settings := settings st; cache := cache st; objects := objects st;
     bus_connected := bus_connected st;
     interval_running := interval_running st; listening := listening st;
     lost_buses := lost_buses st; lost_intervals := lost_intervals st;
     lost_interfaces := lost_interfaces st;
     in_flight := n; trace := trace st |}.

(** A timer of this client runs, the one it holds or one it lost. *)
Definition ticking (st : t) : bool :=
  interval_running st || negb (Nat.eqb (lost_intervals st) 0).

(** An interface has this client's listeners, the one it holds or one it
    lost. *)
Definition heard (st : t) : bool :=
  listening st || negb (Nat.eqb (lost_interfaces st) 0).

(** A piece of the client's code: it runs on the client object, changes it,
    and completes. What it did before it threw stays done. *)
Definition action (A : Type) : Type := t -> t * completion thrown A.

#[global] Instance action_ret : MRet action :=
  fun _ a st => (st, Normal a).
#[global] Instance action_bind : MBind action :=
  fun _ _ k m st =>
    match m st with
    | (st', Normal a) => k a st'
    | (st', Throw e) => (st', Throw e)
    end.

Definition native {A} (c : completion native_error A) : action A :=
  fun st => (st, match c with
                 | Normal a => Normal a
                 | Throw e => Throw (Native e)
                 end).

Definition throw {A} (e : thrown) : action A := fun st => (st, Throw e).

Definition perform (e : effect) : action unit :=
  fun st => (with_trace (fun tr => (tr ++ [e])%list) st, Normal tt).

Definition update (f : t -> t) : action unit := fun st => (f st, Normal tt).

Definition this_settings : action JsVal := fun st => (st, Normal (settings st)).

Definition when (b : bool) (m : action unit) : action unit :=
  if b then m else mret tt.

(** [this.settings.debug], as the test of an [if] *)
Definition debug : action bool :=
  s ← this_settings;
  d ← native (get_named s "debug");
  mret (truthy d).

Definition UnauthenticatedQuoteException : string :=
  "org.whispersystems.signalservice.internal.contacts.crypto.UnauthenticatedQuoteException".

(** [e.reply?.body[0]?.includes("org...UnauthenticatedQuoteException")] *)
Definition allowlisted (e : JsVal) : completion native_error JsVal :=
  reply ← get_named e "reply";
  if nullish reply then mret JUndefined
  else
    first ← get_index (lookup_named reply "body") 0;
    if nullish first then mret JUndefined
    else call_includes first UnauthenticatedQuoteException.

(** [groupID.length ? groupID.toString("base64") : sender] *)
Definition conversationID (groupID : Buffer.t) (sender : string) : string :=
  match List.length groupID with
  | O => sender
  | S _ => Buffer.toBase64 groupID
  end.

Section Collaborators.

(** [deepMerge] of util and [defaultClientSettings] of constants are not
    among the sources: every property below holds whatever they are. *)
Variable deepMerge : JsVal -> JsVal -> JsVal.
Variable defaultClientSettings : JsVal.

(** ConversationManager.from receives the identifier and nothing else: the
    variant it builds is a function of that string. *)
Variable classify : string -> BaseConversation.ConversationType.

(** [this.settings]: the settings given to the constructor ([{}] when none
    are) merged with the defaults. *)
Definition merged (settings : JsVal) : JsVal :=
  deepMerge (default_param settings (JObj [])) defaultClientSettings.

(** [constructor(settings = {})] *)
Definition constructor (settings : JsVal) : completion thrown t :=
  let settings := merged settings in
  match get_named settings "dbus" with
  | Throw e => Throw (Native e)
  | Normal dbus =>
      let connectionCheckInterval := opt_named dbus "connectionCheckInterval" in
      let destination := opt_named dbus "destination" in
      let type := opt_named dbus "type" in
      let phoneNumber := lookup_named settings "phoneNumber" in
      if negb (String.eqb (typeof connectionCheckInterval) "number") then
        Throw (TypeError (Bad_connectionCheckInterval connectionCheckInterval))
      else if negb (String.eqb (typeof destination) "string") then
        Throw (TypeError (Bad_destination destination))
      else if negb (existsb (fun known => is_str known type)
                      ["system"; "session"]) then
        Throw (TypeError (Bad_type destination))
      else if nullish phoneNumber then
        Throw (TypeError (Bad_phoneNumber_missing phoneNumber))
      else if String.eqb (typeof phoneNumber) "string"
              && match phoneNumber with
                 | JStr s => startsWith s "+"
                 | _ => false
                 end then
        Throw (TypeError Bad_phoneNumber_plus)
      else
        Normal {| settings := settings; cache := ∅; objects := [];
                  bus_connected := false; interval_running := false;
                  listening := false;
                  lost_buses := 0%nat; lost_intervals := 0%nat;
                  lost_interfaces := 0%nat;
                  in_flight := 0%nat; trace := [] |}
  end.

(** [this._bus = b], for a bus [b] just opened. *)
Definition assign_bus : action unit :=
  update (fun st =>
            with_session true (interval_running st) (listening st)
              (with_lost (Nat.b2n (bus_connected st) + lost_buses st)
                 (lost_intervals st) (lost_interfaces st) st)).

(** [this._busInterface = i], for an interface [i] just made: nothing
    listens on it yet. *)
Definition assign_busInterface : action unit :=
  update (fun st =>
            with_session (bus_connected st) (interval_running st) false
              (with_lost (lost_buses st) (lost_intervals st)
                 (Nat.b2n (listening st) + lost_interfaces st) st)).

(** [this._connectionCheckInterval = h], for the handle [h] of a timer just
    started. *)
Definition assign_connectionCheckInterval : action unit :=
  update (fun st =>
            with_session (bus_connected st) true (listening st)
              (with_lost (lost_buses st)
                 (Nat.b2n (interval_running st) + lost_intervals st)
                 (lost_interfaces st) st)).

(** [async connect()]; [proxy] is how the transport settles
    [getProxyObject]. *)
Definition connect (proxy : completion JsVal unit) : action unit :=
  s ← this_settings;
  dbus ← native (get_named s "dbus");
  type ← native (get_named dbus "type");
  perform (if is_str "session" type then sessionBus else systemBus);;
  assign_bus;;
  destination ← native (get_named dbus "destination");
  phoneNumber ← native (get_named s "phoneNumber");
  perform (getProxyObject destination phoneNumber);;
  match proxy with
  | Throw reason => throw (Rejected reason)
  | Normal _ =>
      perform (getInterface "org.asamk.Signal");;
      assign_busInterface;;
      connectionCheckInterval ←
        native (get_named dbus "connectionCheckInterval");
      perform (setInterval connectionCheckInterval);;
      assign_connectionCheckInterval;;
      perform (on "error");;
      perform (on "MessageReceivedV2");;
      perform (on "MessageReceived");;
      update (fun st =>
                with_session (bus_connected st) (interval_running st) true st);;
      perform (set_inSignature "sendMessage" "sasas")
  end.

(** [new Client(settings)] followed by [connect()]: what was done to the
    world, and how it completed. *)
Definition launch (settings : JsVal) (proxy : completion JsVal unit)
  : list effect * completion thrown unit :=
  match constructor settings with
  | Throw e => ([], Throw e)
  | Normal this => let (st, r) := connect proxy this in (trace st, r)
  end.

(** The body of the interval's callback from the point where the awaited
    [getRegistrationStatus] settles with [r]. The timer it clears, the bus
    it closes and the interface it detaches are the ones the client refers
    to when it runs. *)
Definition connectionCheck (r : completion JsVal JsVal) : action unit :=
  match r with
  | Normal _ => mret tt
  | Throw e =>
      benign ← native (allowlisted e);
      if truthy benign then
        d ← debug;
        when d (perform (debugLog Ignoring_UnauthenticatedQuoteException))
      else
        d ← debug;
        when d (perform (debugLog Disconnect_line));;
        perform clearInterval;;
        update (fun st => with_session (bus_connected st) false (listening st) st);;
        perform bus_disconnect;;
        update (fun st =>
                  with_session false (interval_running st) (listening st) st);;
        perform removeAllListeners;;
        update (fun st =>
                  with_session (bus_connected st) (interval_running st) false st);;
        perform (emit "disconnect" no_payload)
  end.

(** Modelled from the spec: managers/ConversationManager.js is not among
    the sources. The spec's Conversation Cache maps a conversation identifier
    to a conversation; this is its [get]. *)
Definition cache_get (id : string) : action (option nat) :=
  fun st => (st, Normal (cache st !! id)).

(** Modelled from the spec: [from] of the ConversationManager, which the
    handlers call with the identifier only; it makes a new conversation
    object, whose identity is its position among the manager's objects. *)
Definition from (id : string) : action nat :=
  fun st =>
    (with_manager (cache st)
       (objects st ++ [{| BaseConversation.id := id;
                          BaseConversation.type := classify id;
                          BaseConversation.client := ClientObject |}])%list st,
     Normal (List.length (objects st))).

(** Modelled from the spec: [_addToCache] of the ConversationManager, the
    cache's insert under the conversation's own identifier. *)
Definition _addToCache (conversation : nat) : action unit :=
  fun st =>
    match objects st !! conversation with
    | Some c =>
        (with_manager (<[BaseConversation.id c := conversation]> (cache st))
           (objects st) st,
         Normal tt)
    | None => (st, Normal tt)
    end.

(** [let conversation = cache.get(id); if (!conversation) { ... }] of both
    message handlers. *)
Definition get_or_create (id : string) : action nat :=
  cached ← cache_get id;
  match cached with
  | Some conversation => mret conversation
  | None =>
      conversation ← from id;
      _addToCache conversation;;
      mret conversation
  end.

(** The listener for [MessageReceivedV2]. *)
Definition on_MessageReceivedV2 (timestamp : Z) (sender : string)
    (groupID : Buffer.t) (message extras : JsVal) : action unit :=
  let conversationID := conversationID groupID sender in
  perform (console_log conversationID);;
  conversation ← get_or_create conversationID;
  messageV2 ← native (MessageV2.constructor (JObj [
    ("client", JRef ClientObject);
    ("timestamp", JNum (Number_of_BigInt timestamp));
    ("sender", JStr sender);
    ("conversation", JRef (ConversationObject conversation));
    ("extras", extras);
    ("message", message)
  ]));
  perform (emit "messagev2" (messagev2_payload messageV2)).

(** The listener for [MessageReceived]. *)
Definition on_MessageReceived (timestamp : Z) (authorID : string)
    (groupID : Buffer.t) (content attachments : JsVal) : action unit :=
  d ← debug;
  when d (perform (debugLog
    (MessageReceived_line timestamp authorID groupID content attachments)));;
  let conversationID := conversationID groupID authorID in
  conversation ← get_or_create conversationID;
  let message := Message.constructor (JObj [
    ("client", JRef ClientObject);
    ("timestamp", JNum (Number_of_BigInt timestamp));
    ("authorID", JStr authorID);
    ("conversation", JRef (ConversationObject conversation));
    ("attachments", attachments);
    ("content", content)
  ]) in
  perform (emit "message" (message_payload message)).

(** The listener for [error]. *)
Definition on_error (e : JsVal) : action unit :=
  d ← debug;
  when d (perform (debugLog (Error_line e)));;
  perform (emit "error" (error_payload e)).

(** What reaches a connected client: the timer fires, a health check
    settles, the bus delivers a signal. *)
Inductive input : Type :=
| tick
| settled (r : completion JsVal JsVal)
| MessageReceived (timestamp : Z) (authorID : string) (groupID : Buffer.t)
    (content attachments : JsVal)
| MessageReceivedV2 (timestamp : Z) (sender : string) (groupID : Buffer.t)
    (message extras : JsVal)
| error (e : JsVal).

(** One turn of the event loop. A timer calls back only while it runs, and
    every timer of the client calls the same code back; a signal reaches a
    listener only while listeners are attached, and every interface of the
    client has the same listeners; a callback that throws leaves what it had
    done. *)
Definition step (st : t) (i : input) : t :=
  match i with
  | tick =>
      if ticking st then
        fst ((perform getRegistrationStatus;;
              update (fun st => with_in_flight (S (in_flight st)) st)) st)
      else st
  | settled r =>
      match in_flight st with
      | O => st
      | S n => fst (connectionCheck r (with_in_flight n st))
      end
  | MessageReceived timestamp authorID groupID content attachments =>
      if heard st then
        fst (on_MessageReceived timestamp authorID groupID content attachments st)
      else st
  | MessageReceivedV2 timestamp sender groupID message extras =>
      if heard st then
        fst (on_MessageReceivedV2 timestamp sender groupID message extras st)
      else st
  | error e =>
      if heard st then fst (on_error e st) else st
  end.

Definition run (st : t) (inputs : list input) : t := fold_left step inputs st.

(** [new Client(settings)] and [connect()] both completing: the session. *)
Definition session (settings : JsVal) (proxy : completion JsVal unit)
  : option t :=
  match constructor settings with
  | Normal this =>
      match connect proxy this with
      | (st, Normal _) => Some st
      | (_, Throw _) => None
      end
  | Throw _ => None
  end.

(** What handling the input [i] in [st] adds to the trace, and what the
    application receives from it: the payload of the event emitted last. *)
Definition performed (st : t) (i : input) : list effect :=
  drop (List.length (trace st)) (trace (step st i)).

Definition delivered (st : t) (i : input) : option payload :=
  match last (performed st i) with
  | Some (emit _ p) => Some p
  | _ => None
  end.

(** The lookup-or-create of the message handlers in closed form: the
    conversation it yields for an identifier, and the client it leaves. *)
Definition fresh (id : string) : BaseConversation.t :=
  {| BaseConversation.id := id;
     BaseConversation.type := classify id;
     BaseConversation.client := ClientObject |}.

Definition resolved (id : string) (st : t) : nat :=
  match cache st !! id with
  | Some conversation => conversation
  | None => List.length (objects st)
  end.

Definition remembered (id : string) (st : t) : t :=
  match cache st !! id with
  | Some _ => st
  | None =>
      with_manager (<[id := List.length (objects st)]> (cache st))
        (objects st ++ [fresh id])%list st
  end.

End Collaborators.

(** *** Observations on traces, payloads and signals *)

Definition is_disconnect (e : effect) : bool :=
  match e with
  | emit event _ => String.eqb event "disconnect"
  | _ => false
  end.

Definition is_probe (e : effect) : bool :=
  match e with
  | getRegistrationStatus => true
  | _ => false
  end.

Definition disconnects (tr : list effect) : nat :=
  List.length (List.filter is_disconnect tr).

Definition probes (tr : list effect) : nat :=
  List.length (List.filter is_probe tr).

Definition conversation_of (p : payload) : option JsVal :=
  match p with
  | message_payload m => Some (Message.conversation m)
  | messagev2_payload m => Some (MessageV2.conversation m)
  | _ => None
  end.

Definition timestamp_of (p : payload) : option JsVal :=
  match p with
  | message_payload m => Some (Message.timestamp m)
  | messagev2_payload m => Some (MessageV2.timestamp m)
  | _ => None
  end.

(** The conversation object a value refers to. *)
Definition referent (st : t) (v : JsVal) : option BaseConversation.t :=
  match v with
  | JRef (ConversationObject n) => objects st !! n
  | _ => None
  end.

(** The conversation object the application is handed when [i] is handled
    in [st]. *)
Definition conversation_delivered
    (classify : string -> BaseConversation.ConversationType)
    (st : t) (i : input) : option BaseConversation.t :=
  p ← delivered classify st i;
  v ← conversation_of p;
  referent (step classify st i) v.

(** The group identifier bytes and the sender (or author) of a message
    signal, and its raw timestamp. *)
Definition addressing (i : input) : option (Buffer.t * string) :=
  match i with
  | MessageReceived _ authorID groupID _ _ => Some (groupID, authorID)
  | MessageReceivedV2 _ sender groupID _ _ => Some (groupID, sender)
  | _ => None
  end.

Definition raw_timestamp (i : input) : option Z :=
  match i with
  | MessageReceived timestamp _ _ _ _ => Some timestamp
  | MessageReceivedV2 timestamp _ _ _ _ => Some timestamp
  | _ => None
  end.

(** The cache and the conversations agree: an identifier is mapped to a
    conversation that exists and bears it, and every conversation is the one
    its identifier is mapped to. *)
Definition cache_consistent (st : t) : Prop :=
  (forall k n, cache st !! k = Some n ->
     exists c, objects st !! n = Some c /\ BaseConversation.id c = k)
  /\ (forall n c, objects st !! n = Some c ->
        cache st !! BaseConversation.id c = Some n).

(** *** The errors a health check fails with

    dbus-next rejects a call with a DBusError that carries the error reply
    (a message whose body is the list of its arguments, the first one being
    the error text when there is one), or with an error that has no reply at
    all. *)
Definition transport_error (e : JsVal) : bool :=
  match e with
  | JObj _ =>
      match lookup_named e "reply" with
      | JUndefined | JNull => true
      | JObj _ as reply =>
          match lookup_named reply "body" with
          | JArr [] => true
          | JArr (JStr _ :: _) => true
          | _ => false
          end
      | _ => false
      end
  | _ => false
  end.

(** The error's body matches the allowlist: its text contains the name of
    the benign exception. *)
Definition body_matches_allowlist (e : JsVal) : bool :=
  match lookup_named (lookup_named e "reply") "body" with
  | JArr (JStr text :: _) => includes text UnauthenticatedQuoteException
  | _ => false
  end.

(** *** The settings, as the specification and as the constructor judge them *)

Definition setting_interval (s : JsVal) : JsVal :=
  opt_named (lookup_named s "dbus") "connectionCheckInterval".
Definition setting_destination (s : JsVal) : JsVal :=
  opt_named (lookup_named s "dbus") "destination".
Definition setting_type (s : JsVal) : JsVal :=
  opt_named (lookup_named s "dbus") "type".
Definition setting_phoneNumber (s : JsVal) : JsVal :=
  lookup_named s "phoneNumber".

Definition positive_number (v : JsVal) : Prop :=
  (exists z, v = JNum (Int z) /\ 0 < z) \/ v = JNum (Infinity false).

Definition leading_plus (v : JsVal) : Prop :=
  exists rest, v = JStr (String "+" rest).

(** The settings the specification says [connect] refuses. *)
Definition refused_by_spec (s : JsVal) : Prop :=
  ~ positive_number (setting_interval s)
  \/ typeof (setting_destination s) <> "string"
  \/ (setting_type s <> JStr "system" /\ setting_type s <> JStr "session")
  \/ nullish (setting_phoneNumber s) = true
  \/ leading_plus (setting_phoneNumber s).

(** The settings the constructor refuses. *)
Definition refused_by_constructor (s : JsVal) : Prop :=
  typeof (setting_interval s) <> "number"
  \/ typeof (setting_destination s) <> "string"
  \/ (setting_type s <> JStr "system" /\ setting_type s <> JStr "session")
  \/ nullish (setting_phoneNumber s) = true
  \/ leading_plus (setting_phoneNumber s).

(** The variant the specification expects for a conversation created for a
    signal: a group when there are group identifier bytes, a direct
    conversation when there are none. *)
Definition variant_by_spec (groupID : Buffer.t) : BaseConversation.ConversationType :=
  match groupID with
  | [] => BaseConversation.user
  | _ :: _ => BaseConversation.group
  end.


End Client.

(* ===================================================================== *)
(** ** The collaborators that are not among the sources *)
(* ===================================================================== *)

Module Util.
Import Js.

Definition has_key (k : string) (fs : list (string * JsVal)) : bool :=
  match assoc k fs with
  | Some _ => true
  | None => false
  end.

(** Modelled from the spec: util's deepMerge is not among the sources. The
    settings given to the constructor are merged over the defaults: a value
    the caller gives is kept, objects are merged key by key, and a key only
    the defaults have is taken from them. Used to run the constructor on
    concrete settings; the properties of the constructor hold for any merge. *)
Fixpoint deepMerge (a b : JsVal) {struct a} : JsVal :=
  match a with
  | JObj fa =>
      match b with
      | JObj fb =>
          JObj
            ((fix merged (l : list (string * JsVal)) : list (string * JsVal) :=
                match l with
                | [] => []
                | (k, va) :: rest =>
                    (k, match assoc k fb with
                        | Some vb => deepMerge va vb
                        | None => va
                        end) :: merged rest
                end) fa
             ++ List.filter (fun kv => negb (has_key (fst kv) fa)) fb)%list
      | _ => a
      end
  | JUndefined => b
  | _ => a
  end.

End Util.

Module Constants.
Import Js.

(** Modelled from the JSDoc of the Client constructor, which documents the
    defaults: a check every 5000 ms, the destination [org.asamk.Signal], the
    system bus. *)
Definition defaultClientSettings : JsVal :=
  JObj [("dbus", JObj [("connectionCheckInterval", JNum (Int 5000));
                       ("destination", JStr "org.asamk.Signal");
                       ("type", JStr "system")])].

End Constants.

(* ===================================================================== *)
(** ** Concrete settings, errors and signals *)
(* ===================================================================== *)

Module Sample.
Import Js.

Definition settings_of (interval phoneNumber : JsVal) : JsVal :=
  JObj [("dbus", JObj [("connectionCheckInterval", interval)]);
        ("phoneNumber", phoneNumber)].

Definition settings : JsVal := settings_of (JNum (Int 5000)) (JStr "15550001111").

(** A factory that tells the variants apart by a leading [+]. *)
Definition by_plus (id : string) : BaseConversation.ConversationType :=
  if startsWith id "+" then BaseConversation.user else BaseConversation.group.

(** A connected client with nothing cached and one health check under way. *)
Definition connected : Client.t :=
  {| Client.settings := Util.deepMerge settings Constants.defaultClientSettings;
     Client.cache := ∅;
     Client.objects := [];
     Client.bus_connected := true;
     Client.interval_running := true;
     Client.listening := true;
     Client.lost_buses := 0%nat;
     Client.lost_intervals := 0%nat;
     Client.lost_interfaces := 0%nat;
     Client.in_flight := 1%nat;
     Client.trace := [] |}.

(** The rejection of a call on a bus that has gone away: no reply. *)
Definition no_reply : JsVal :=
  JObj [("message", JStr "Bus disconnected"); ("reply", JNull)].

(** A DBusError whose reply carries the text [text]. *)
Definition dbus_error (text : string) : JsVal :=
  JObj [("type", JStr "org.freedesktop.DBus.Error.Failed");
        ("text", JStr text);
        ("reply", JObj [("errorName", JStr "org.freedesktop.DBus.Error.Failed");
                        ("body", JArr [JStr text])])].

Definition benign_error : JsVal :=
  dbus_error ("org.whispersystems.signalservice.internal.contacts.crypto."
              ++ "UnauthenticatedQuoteException: quote").

(** A DBusError whose reply carries a number where the text is expected. *)
Definition numeric_error : JsVal :=
  JObj [("type", JStr "org.freedesktop.DBus.Error.Failed");
        ("reply", JObj [("errorName", JStr "org.freedesktop.DBus.Error.Failed");
                        ("body", JArr [JNum (Int 42)])])].

(** The connected client after [connect] has been called on it once more,
    its trace started afresh. *)
Definition reconnected : Client.t :=
  Client.with_trace (fun _ => [])
    (fst (Client.connect (Normal tt) connected)).

(** The nine bytes whose base64 text reads like a phone number. *)
Definition phone_like_group : Buffer.t :=
  [xfb; x5e; x79; xe7; x5d; xb7; xe3; x9e; xbb]%byte.

Definition direct_signal : Client.input :=
  Client.MessageReceivedV2 1700000000000 "+15551234567" [] (JStr "hello")
    JUndefined.

Definition group_signal : Client.input :=
  Client.MessageReceivedV2 1700000000001 "+15557654321" phone_like_group
    (JStr "hello") JUndefined.

Definition direct : BaseConversation.t :=
  {| BaseConversation.id := "+15551234567";
     BaseConversation.type := BaseConversation.user;
     BaseConversation.client := ClientObject |}.

(** A daemon that accepts every call and stamps a message with [timestamp]. *)
Definition daemon (timestamp : Z) : UserConversation.BusInterface :=
  {| UserConversation.sendMessage_reply := fun _ _ _ => Normal timestamp;
     UserConversation.sendTyping_reply := fun _ _ => Normal tt;
     UserConversation.sendEndSessionMessage_reply := fun _ => Normal tt |}.

End Sample.

(* ===================================================================== *)
(** ** What the application sees *)
(* ===================================================================== *)

Module Events.
Import Js Client.

(** The events a trace hands to the application, in order, each with its
    payload. *)
Definition emitted (tr : list effect) : list (string * payload) :=
  omap (fun e => match e with
                 | emit event p => Some (event, p)
                 | _ => None
                 end) tr.

(** The signals of the bus, as opposed to the timer and its checks. *)
Definition is_signal (i : input) : bool :=
  match i with
  | MessageReceived _ _ _ _ _ | MessageReceivedV2 _ _ _ _ _ | error _ => true
  | tick | settled _ => false
  end.

(** The event the listener of a signal emits. *)
Definition event_of (i : input) : option string :=
  match i with
  | MessageReceived _ _ _ _ _ => Some "message"
  | MessageReceivedV2 _ _ _ _ _ => Some "messagev2"
  | error _ => Some "error"
  | tick | settled _ => None
  end.

(** The conversation identifiers of the message signals among the inputs. *)
Definition identifiers (inputs : list input) : list string :=
  omap (fun i => match addressing i with
                 | Some (groupID, sender) => Some (conversationID groupID sender)
                 | None => None
                 end) inputs.

(** The client the constructor returns for the merged settings [s]. *)
Definition created (s : JsVal) : t :=
  {| settings := s; cache := ∅; objects := [];
     bus_connected := false; interval_running := false; listening := false;
     lost_buses := 0%nat; lost_intervals := 0%nat; lost_interfaces := 0%nat;
     in_flight := 0%nat; trace := [] |}.

(** What [connect] does to the world when the proxy is resolved, and what
    it has done by the time the proxy is refused. *)
Definition connecting (s : JsVal) : list effect :=
  [if is_str "session" (setting_type s) then sessionBus else systemBus;
   getProxyObject (setting_destination s) (setting_phoneNumber s)].

Definition attaching (s : JsVal) : list effect :=
  [getInterface "org.asamk.Signal";
   setInterval (setting_interval s);
   on "error"; on "MessageReceivedV2"; on "MessageReceived";
   set_inSignature "sendMessage" "sasas"].

(** The session of a client: the bus, the timer and the interface it
    refers to, those it has lost, and the health checks under way. *)
Definition session_state (st : t) : bool * bool * bool * (nat * nat * nat) * nat :=
  (bus_connected st, interval_running st, listening st,
   (lost_buses st, lost_intervals st, lost_interfaces st), in_flight st).

(** The conversations are all as the factory makes them, and as many as
    there are cached identifiers. *)
Definition made_by_factory
    (classify : string -> BaseConversation.ConversationType) (st : t) : Prop :=
  (forall n c, objects st !! n = Some c ->
     c = fresh classify (BaseConversation.id c))
  /\ size (cache st) = List.length (objects st).

End Events.

Module Base64.

(** The sixty-four digits of base64, in the order of their values. *)
Definition chars : list ascii := list_ascii_of_string Buffer.alphabet.

End Base64.

(* ===================================================================== *)
(** ** Proof automation *)
(* ===================================================================== *)

(** Runs the client's code symbolically: unfolds the sequencing of actions
    down to the state they are applied to. *)
Ltac exec :=
  cbv beta delta [mbind mret Js.get_named
                  Client.action_bind Client.action_ret
                  Client.this_settings Client.native Client.perform
                  Client.update Client.throw Client.when Client.debug
                  Client.assign_bus Client.assign_busInterface
                  Client.assign_connectionCheckInterval];
  cbn.

(** Reads the fields of a client through the updates made to it. *)
Ltac fields :=
  cbn [Client.settings Client.cache Client.objects Client.bus_connected
       Client.interval_running Client.listening Client.lost_buses
       Client.lost_intervals Client.lost_interfaces Client.in_flight
       Client.trace Client.with_trace Client.with_session Client.with_lost
       Client.with_manager Client.with_in_flight fst snd].

(* ===================================================================== *)
(** ** Properties *)
(* ===================================================================== *)

(** *** Base64 and the narrowing of timestamps, on concrete values *)

Example toBase64_Man : Buffer.toBase64 [x4d; x61; x6e]%byte = "TWFu".
Proof. reflexivity. Qed.

Example toBase64_Ma : Buffer.toBase64 [x4d; x61]%byte = "TWE=".
Proof. reflexivity. Qed.

Example toBase64_M : Buffer.toBase64 [x4d]%byte = "TQ==".
Proof. reflexivity. Qed.

Example toBase64_phone_like :
  Buffer.toBase64 Sample.phone_like_group = "+15551234567".
Proof. reflexivity. Qed.

Example Number_small :
  Js.Number_of_BigInt 1700000000000 = Js.Int 1700000000000.
Proof. reflexivity. Qed.

Example Number_tie_to_even :
  Js.Number_of_BigInt (2 ^ 53 + 1) = Js.Int (2 ^ 53).
Proof. reflexivity. Qed.

Example Number_tie_up :
  Js.Number_of_BigInt (2 ^ 53 + 3) = Js.Int (2 ^ 53 + 4).
Proof. reflexivity. Qed.

Example Number_int64_max :
  Js.Number_of_BigInt (2 ^ 63 - 1) = Js.Int (2 ^ 63).
Proof. reflexivity. Qed.

Example Number_negative :
  Js.Number_of_BigInt (- (2 ^ 53) - 1) = Js.Int (- (2 ^ 53)).
Proof. reflexivity. Qed.

Section Narrowing.
Import Js.

Lemma round_to_double_exact (a : Z) : a < 2 ^ 53 -> round_to_double a = a.
Proof.
  intros Ha. unfold round_to_double.
  destruct (Z.ltb_spec a (2 ^ 53)); [reflexivity | lia].
Qed.

Lemma round_to_double_nonneg (a : Z) : 0 <= a -> 0 <= round_to_double a.
Proof.
  intros Ha. unfold round_to_double.
  destruct (Z.ltb_spec a (2 ^ 53)) as [_ | _]; [exact Ha |].
  apply Z.shiftl_nonneg.
  assert (0 <= Z.shiftr a (Z.log2 a - 52)) by (apply Z.shiftr_nonneg; exact Ha).
  repeat match goal with |- context [if ?b then _ else _] => destruct b end; lia.
Qed.

Lemma round_to_double_bound (a : Z) :
  2 ^ 53 <= a -> round_to_double a <= 2 ^ (Z.log2 a + 1).
Proof.
  intros Ha. unfold round_to_double.
  destruct (Z.ltb_spec a (2 ^ 53)) as [Hlt | _]; [lia |].
  assert (Hpos : 0 < a) by lia.
  assert (Hlog : 53 <= Z.log2 a).
  { rewrite <- (Z.log2_pow2 53) by lia. apply Z.log2_le_mono. exact Ha. }
  destruct (Z.log2_spec a Hpos) as [_ Hup].
  set (e := Z.log2 a - 52) in *.
  assert (He : 0 <= e) by lia.
  assert (Hsplit : 2 ^ (Z.log2 a + 1) = 2 ^ 53 * 2 ^ e).
  { rewrite <- Z.pow_add_r by lia. f_equal. lia. }
  assert (H2e : 0 < 2 ^ e) by (apply Z.pow_pos_nonneg; lia).
  assert (Hq : Z.shiftr a e < 2 ^ 53).
  { rewrite Z.shiftr_div_pow2 by exact He.
    apply Z.div_lt_upper_bound; [exact H2e |].
    rewrite Z.mul_comm, <- Hsplit. replace (Z.log2 a + 1) with (Z.succ (Z.log2 a)) by lia.
    exact Hup. }
  rewrite Z.shiftl_mul_pow2 by exact He. rewrite Hsplit.
  apply Z.mul_le_mono_nonneg_r; [lia |].
  repeat match goal with |- context [if ?b then _ else _] => destruct b end; lia.
Qed.

(** A BigInt below 2^53 in magnitude is narrowed to the number of the same
    value. *)
Lemma Number_of_BigInt_exact (b : Z) :
  Z.abs b < 2 ^ 53 -> Number_of_BigInt b = Int b.
Proof.
  intros Hb. unfold Number_of_BigInt.
  rewrite round_to_double_exact by exact Hb.
  assert (Hbig : 2 ^ 53 < 2 ^ 1024) by (apply Z.pow_lt_mono_r; lia).
  destruct (Z.leb_spec (2 ^ 1024) (Z.abs b)) as [Hge | _]; [lia |].
  f_equal. destruct (Z.sgn_spec b) as [[? ->] | [[? ->] | [? ->]]]; lia.
Qed.

(** A D-Bus int64 is narrowed to an integer of at most 2^63 in magnitude:
    never to an infinity. *)
Lemma Number_of_BigInt_int64 (b : Z) :
  - 2 ^ 63 <= b < 2 ^ 63 ->
  exists z, Number_of_BigInt b = Int z /\ - 2 ^ 63 <= z <= 2 ^ 63.
Proof.
  intros Hb. unfold Number_of_BigInt.
  assert (Hm : 0 <= round_to_double (Z.abs b) <= 2 ^ 63).
  { split; [apply round_to_double_nonneg; lia |].
    destruct (Z.lt_ge_cases (Z.abs b) (2 ^ 53)) as [Hs | Hl].
    - rewrite round_to_double_exact by exact Hs. lia.
    - destruct (Z.eq_dec (Z.abs b) (2 ^ 63)) as [-> | Hne]; [vm_compute; discriminate |].
      etransitivity; [apply round_to_double_bound; exact Hl |].
      apply Z.pow_le_mono_r; [lia |].
      assert (Z.log2 (Z.abs b) < 63); [| lia].
      apply Z.log2_lt_pow2; lia. }
  assert (Hbig : 2 ^ 63 < 2 ^ 1024) by (apply Z.pow_lt_mono_r; lia).
  destruct (Z.leb_spec (2 ^ 1024) (round_to_double (Z.abs b))) as [Hge | _]; [lia |].
  eexists; split; [reflexivity |].
  destruct (Z.sgn_spec b) as [[_ ->] | [[_ ->] | [_ ->]]]; lia.
Qed.

End Narrowing.

(* --------------------------------------------------------------------- *)
(** *** MessageV2 *)
(* --------------------------------------------------------------------- *)

Section MessageV2_properties.
Import Js.

Lemma or_else_falsy (a b : JsVal) : truthy a = false -> or_else a b = b.
Proof. intros H. unfold or_else. now rewrite H. Qed.

Lemma or_else_truthy (a b : JsVal) : truthy a = true -> or_else a b = a.
Proof. intros H. unfold or_else. now rewrite H. Qed.

Lemma MessageV2_constructor_total (data : JsVal) :
  data <> JNull ->
  MessageV2.constructor data
  = Normal {| MessageV2._client := MessageV2.supplied data "client";
              MessageV2._timestamp := MessageV2.supplied data "timestamp";
              MessageV2._sender := MessageV2.supplied data "sender";
              MessageV2._extras :=
                or_else (MessageV2.supplied data "extras") (JArr []);
              MessageV2._conversation :=
                MessageV2.supplied data "conversation";
              MessageV2._message :=
                or_else (MessageV2.supplied data "message") (JStr "") |}.
Proof.
  intros Hdata. destruct data; try reflexivity. congruence.
Qed.

(** C10. A MessageV2 can be constructed from anything but [null]; when the
    [extras] of its argument are absent or falsy the [extras] getter returns
    the empty list, when the [message] is absent or falsy the [message]
    getter returns the empty string, and the getters [client], [timestamp],
    [sender] and [conversation] return what was supplied, unchanged. *)
Theorem MessageV2_defaults (data : JsVal) :
  data <> JNull ->
  exists m,
    MessageV2.constructor data = Normal m
    /\ (truthy (MessageV2.supplied data "extras") = false ->
        MessageV2.extras m = JArr [])
    /\ (truthy (MessageV2.supplied data "message") = false ->
        MessageV2.message m = JStr "")
    /\ (truthy (MessageV2.supplied data "extras") = true ->
        MessageV2.extras m = MessageV2.supplied data "extras")
    /\ (truthy (MessageV2.supplied data "message") = true ->
        MessageV2.message m = MessageV2.supplied data "message")
    /\ MessageV2.client m = MessageV2.supplied data "client"
    /\ MessageV2.timestamp m = MessageV2.supplied data "timestamp"
    /\ MessageV2.sender m = MessageV2.supplied data "sender"
    /\ MessageV2.conversation m = MessageV2.supplied data "conversation".
Proof.
  intros Hdata. eexists. split; [apply MessageV2_constructor_total, Hdata |].
  cbn [MessageV2.extras MessageV2.message MessageV2.client MessageV2.timestamp
       MessageV2.sender MessageV2.conversation MessageV2._extras
       MessageV2._message MessageV2._client MessageV2._timestamp
       MessageV2._sender MessageV2._conversation].
  repeat split; auto using or_else_falsy, or_else_truthy.
Qed.

Lemma MessageV2_defaults_witness :
  exists m,
    MessageV2.constructor
      (JObj [("client", JRef ClientObject); ("timestamp", JNum (Int 7));
             ("sender", JStr "+15551234567");
             ("conversation", JRef (ConversationObject 0));
             ("extras", JNull); ("message", JStr "")]) = Normal m
    /\ MessageV2.extras m = JArr []
    /\ MessageV2.message m = JStr ""
    /\ MessageV2.timestamp m = JNum (Int 7)
    /\ MessageV2.conversation m = JRef (ConversationObject 0).
Proof.
  destruct (MessageV2_defaults
              (JObj [("client", JRef ClientObject); ("timestamp", JNum (Int 7));
                     ("sender", JStr "+15551234567");
                     ("conversation", JRef (ConversationObject 0));
                     ("extras", JNull); ("message", JStr "")]))
    as (m & Hm & Hextras & Hmessage & _ & _ & _ & Htimestamp & _ & Hconv).
  - discriminate.
  - exists m. split; [exact Hm |]. split; [apply Hextras; reflexivity |].
    split; [apply Hmessage; reflexivity |]. split; assumption.
Defined.

End MessageV2_properties.

(* --------------------------------------------------------------------- *)
(** *** UserConversation *)
(* --------------------------------------------------------------------- *)

Section UserConversation_properties.
Import Js UserConversation.

(** C5, as stated, fails: [sendTyping] hands the daemon the identifier
    itself, not a list holding it. *)
Lemma sendTyping_does_not_wrap :
  ~ wraps_identifier Sample.direct
      (fst (sendTyping Sample.direct (Some (Sample.daemon 0)) (JBool false))).
Proof.
  intros H. inversion H as [| c calls Hc _]. discriminate Hc.
Qed.

(** C5, amended. [sendMessage] and [resetSession] pass the identifier wrapped
    in a one-element list as the recipients; [sendTyping] passes the
    identifier itself, with the stop flag (false when none is given). *)
Theorem send_operations_recipient (this : BaseConversation.t)
    (d : BusInterface) (content attachments stop : JsVal) :
  fst (sendMessage this (Some d) content attachments)
  = [sendMessage_call content (default_param attachments (JArr []))
       (JArr [JStr (BaseConversation.id this)])]
  /\ fst (resetSession this (Some d))
     = [sendEndSessionMessage_call (JArr [JStr (BaseConversation.id this)])]
  /\ fst (sendTyping this (Some d) stop)
     = [sendTyping_call (JStr (BaseConversation.id this))
          (default_param stop (JBool false))]
  /\ wraps_identifier this (fst (sendMessage this (Some d) content attachments))
  /\ wraps_identifier this (fst (resetSession this (Some d))).
Proof.
  repeat split; repeat constructor.
Qed.

(** C7. [sendMessage(content, attachments)] on a direct conversation makes
    exactly one call on the daemon, [sendMessage] with that content, those
    attachments and the one-element list of the identifier; when the daemon
    answers with a timestamp, the method returns it narrowed to a number: the
    same value below 2^53, and for any int64 an integer. *)
Theorem sendMessage_one_call (this : BaseConversation.t) (d : BusInterface)
    (content attachments : JsVal) :
  BaseConversation.type this = BaseConversation.user ->
  attachments <> JUndefined ->
  fst (sendMessage this (Some d) content attachments)
  = [sendMessage_call content attachments
       (JArr [JStr (BaseConversation.id this)])]
  /\ forall timestamp,
       sendMessage_reply d content attachments
         (JArr [JStr (BaseConversation.id this)]) = Normal timestamp ->
       snd (sendMessage this (Some d) content attachments)
       = Normal (JNum (Number_of_BigInt timestamp))
       /\ typeof (JNum (Number_of_BigInt timestamp)) = "number"
       /\ (Z.abs timestamp < 2 ^ 53 ->
           Number_of_BigInt timestamp = Int timestamp)
       /\ (- 2 ^ 63 <= timestamp < 2 ^ 63 ->
           exists z, Number_of_BigInt timestamp = Int z
                     /\ - 2 ^ 63 <= z <= 2 ^ 63).
Proof.
  intros _ Hatt.
  assert (Hdef : default_param attachments (JArr []) = attachments)
    by (destruct attachments; cbn; congruence).
  unfold sendMessage. rewrite Hdef. cbn [fst snd]. split; [reflexivity |].
  intros timestamp Hreply. rewrite Hreply. split; [reflexivity |].
  split; [reflexivity |].
  split; [apply Number_of_BigInt_exact | apply Number_of_BigInt_int64].
Qed.

Lemma sendMessage_one_call_witness :
  fst (sendMessage Sample.direct (Some (Sample.daemon 1700000000000))
         (JStr "hello") (JArr []))
  = [sendMessage_call (JStr "hello") (JArr []) (JArr [JStr "+15551234567"])]
  /\ snd (sendMessage Sample.direct (Some (Sample.daemon 1700000000000))
            (JStr "hello") (JArr []))
     = Normal (JNum (Int 1700000000000)).
Proof.
  destruct (sendMessage_one_call Sample.direct (Sample.daemon 1700000000000)
              (JStr "hello") (JArr [])) as [Hcalls Hreturn].
  - reflexivity.
  - discriminate.
  - split; [exact Hcalls |].
    destruct (Hreturn 1700000000000) as (Hsnd & _ & Hexact & _);
      [reflexivity |].
    rewrite Hsnd, Hexact; [reflexivity | reflexivity].
Defined.

End UserConversation_properties.

(* --------------------------------------------------------------------- *)
(** *** The constructor's checks *)
(* --------------------------------------------------------------------- *)

Section Constructor_properties.
Import Js Client.

Variable deepMerge : JsVal -> JsVal -> JsVal.
Variable defaultClientSettings : JsVal.

Local Abbreviation merged := (Client.merged deepMerge defaultClientSettings).

Lemma typeof_test (v : JsVal) (name : string) :
  negb (String.eqb (typeof v) name) = true <-> typeof v <> name.
Proof.
  rewrite negb_true_iff. split.
  - intros H Heq. apply String.eqb_eq in Heq. congruence.
  - intros H. apply String.eqb_neq. exact H.
Qed.

Lemma is_str_spec (known : string) (v : JsVal) :
  is_str known v = true <-> v = JStr known.
Proof.
  destruct v; cbn; try (split; [discriminate | intros [=]]).
  rewrite String.eqb_eq. split; [now intros -> | now intros [= ->]].
Qed.

Lemma known_type_test (v : JsVal) :
  negb (existsb (fun known => is_str known v) ["system"; "session"]) = true
  <-> v <> JStr "system" /\ v <> JStr "session".
Proof.
  cbn [existsb]. rewrite orb_false_r, negb_true_iff, orb_false_iff.
  split.
  - intros [H1 H2]. split; intros Heq; apply is_str_spec in Heq; congruence.
  - intros [H1 H2]. split; apply not_true_is_false; intros Heq;
      apply is_str_spec in Heq; contradiction.
Qed.

Lemma leading_plus_test (p : JsVal) :
  String.eqb (typeof p) "string"
  && match p with
     | JStr s => startsWith s "+"
     | _ => false
     end = true
  <-> leading_plus p.
Proof.
  unfold leading_plus. destruct p;
    try (split; [cbn; rewrite ?andb_false_r; discriminate
                | intros [rest [=]]]).
  cbn [typeof]. rewrite andb_true_l. unfold startsWith.
  destruct s as [| a rest].
  - split; [discriminate | intros [rest' [=]]].
  - change (String.prefix "+" (String a rest))
      with (if ascii_dec "+" a then String.prefix "" rest else false).
    destruct (ascii_dec "+" a) as [<- | Hne].
    + split; [intros _; now exists rest | intros _; now destruct rest].
    + split; [discriminate | intros [rest' [= Ha _]]; congruence].
Qed.

Lemma connect_throws_no_TypeError (proxy : completion JsVal unit) (st : t)
    (e : bad_setting) :
  snd (connect proxy st) <> Throw (TypeError e).
Proof.
  unfold connect. exec.
  destruct (nullish (settings st)); cbn; [discriminate |].
  destruct (nullish (lookup_named (settings st) "dbus")); cbn; [discriminate |].
  destruct proxy; cbn; discriminate.
Qed.

(** A client whose settings passed the constructor's checks opens the bus
    as the first thing [connect] does. *)
Lemma connect_opens_bus (proxy : completion JsVal unit) (st : t) :
  nullish (settings st) = false ->
  typeof (setting_interval (settings st)) = "number" ->
  trace st = [] ->
  exists rest,
    trace (fst (connect proxy st)) = sessionBus :: rest
    \/ trace (fst (connect proxy st)) = systemBus :: rest.
Proof.
  intros Hs Hinterval Htrace.
  assert (Hdbus : nullish (lookup_named (settings st) "dbus") = false).
  { unfold setting_interval, opt_named in Hinterval.
    destruct (nullish (lookup_named (settings st) "dbus")); [discriminate | reflexivity]. }
  unfold connect. destruct proxy; exec; rewrite Hs; cbn; rewrite Hdbus; cbn;
    rewrite Htrace;
    destruct (is_str "session"
                (lookup_named (lookup_named (settings st) "dbus") "type"));
    cbn; eauto.
Qed.

(** What the constructor does, check by check. *)
Lemma constructor_unfold (settings : JsVal) :
  nullish (merged settings) = false ->
  constructor deepMerge defaultClientSettings settings
  = let s := merged settings in
    if negb (String.eqb (typeof (setting_interval s)) "number") then
      Throw (TypeError (Bad_connectionCheckInterval (setting_interval s)))
    else if negb (String.eqb (typeof (setting_destination s)) "string") then
      Throw (TypeError (Bad_destination (setting_destination s)))
    else if negb (existsb (fun known => is_str known (setting_type s))
                    ["system"; "session"]) then
      Throw (TypeError (Bad_type (setting_destination s)))
    else if nullish (setting_phoneNumber s) then
      Throw (TypeError (Bad_phoneNumber_missing (setting_phoneNumber s)))
    else if String.eqb (typeof (setting_phoneNumber s)) "string"
            && match setting_phoneNumber s with
               | JStr p => startsWith p "+"
               | _ => false
               end then
      Throw (TypeError Bad_phoneNumber_plus)
    else
      Normal {| settings := s; cache := ∅; objects := [];
                bus_connected := false; interval_running := false;
                listening := false;
                lost_buses := 0%nat; lost_intervals := 0%nat;
                lost_interfaces := 0%nat;
                in_flight := 0%nat; trace := [] |}.
Proof.
  intros Hs. unfold constructor, get_named. rewrite Hs. reflexivity.
Qed.

Lemma constructor_nullish (settings : JsVal) :
  nullish (merged settings) = true ->
  constructor deepMerge defaultClientSettings settings
  = Throw (Native CannotReadProperty).
Proof.
  intros Hs. unfold constructor, get_named. rewrite Hs. reflexivity.
Qed.

Lemma launch_snd (settings : JsVal) (proxy : completion JsVal unit) :
  snd (launch deepMerge defaultClientSettings settings proxy)
  = match constructor deepMerge defaultClientSettings settings with
    | Throw e => Throw e
    | Normal this => snd (connect proxy this)
    end.
Proof.
  unfold launch. destruct (constructor _ _ _); [| reflexivity].
  destruct (connect proxy a). reflexivity.
Qed.

Lemma launch_fst (settings : JsVal) (proxy : completion JsVal unit) :
  fst (launch deepMerge defaultClientSettings settings proxy)
  = match constructor deepMerge defaultClientSettings settings with
    | Throw e => []
    | Normal this => trace (fst (connect proxy this))
    end.
Proof.
  unfold launch. destruct (constructor _ _ _); [| reflexivity].
  destruct (connect proxy a). reflexivity.
Qed.

(** C4, amended. Creating the client and connecting fails with a TypeError
    of the constructor exactly when, in the merged settings, the check
    interval is not of type number, or the destination is not of type
    string, or the bus type is neither ["system"] nor ["session"], or the
    phone number is null or undefined, or it is a string that starts with
    [+]. The failure comes before anything is done on the transport, and
    settings that pass make [connect] open the bus. Any number passes as an
    interval. *)
Theorem constructor_refuses_iff (settings : JsVal)
    (proxy : completion JsVal unit) :
  ((exists e, snd (launch deepMerge defaultClientSettings settings proxy)
              = Throw (TypeError e))
   <-> nullish (merged settings) = false
       /\ refused_by_constructor (merged settings))
  /\ (forall e, snd (launch deepMerge defaultClientSettings settings proxy)
                = Throw (TypeError e) ->
                fst (launch deepMerge defaultClientSettings settings proxy) = [])
  /\ (nullish (merged settings) = false ->
      ~ refused_by_constructor (merged settings) ->
      exists rest,
        fst (launch deepMerge defaultClientSettings settings proxy)
        = sessionBus :: rest
        \/ fst (launch deepMerge defaultClientSettings settings proxy)
           = systemBus :: rest).
Proof.
  rewrite launch_snd, launch_fst.
  destruct (nullish (merged settings)) eqn:Hs.
  { rewrite constructor_nullish by exact Hs.
    split; [split; [intros [e [=]] | intros [[=] _]] |].
    split; [intros e [=] | intros [=]]. }
  rewrite constructor_unfold by exact Hs. cbv zeta.
  unfold refused_by_constructor.
  destruct (negb (String.eqb (typeof (setting_interval (merged settings))) "number"))
    eqn:H1.
  { apply typeof_test in H1.
    split; [split; [intros _; split; [reflexivity | auto] | intros _; eauto] |].
    split; [reflexivity | intros _ Hno; exfalso; apply Hno; auto]. }
  destruct (negb (String.eqb (typeof (setting_destination (merged settings))) "string"))
    eqn:H2.
  { apply typeof_test in H2.
    split; [split; [intros _; split; [reflexivity | auto] | intros _; eauto] |].
    split; [reflexivity | intros _ Hno; exfalso; apply Hno; auto]. }
  destruct (negb (existsb (fun known => is_str known (setting_type (merged settings)))
                    ["system"; "session"])) eqn:H3.
  { apply known_type_test in H3.
    split; [split; [intros _; split; [reflexivity | auto] | intros _; eauto] |].
    split; [reflexivity | intros _ Hno; exfalso; apply Hno; auto]. }
  destruct (nullish (setting_phoneNumber (merged settings))) eqn:H4.
  { split; [split; [intros _; split; [reflexivity | auto 6] | intros _; eauto] |].
    split; [reflexivity | intros _ Hno; exfalso; apply Hno; auto 6]. }
  match goal with
  | |- context [if ?b then _ else _] => destruct b eqn:H5
  end.
  { apply leading_plus_test in H5.
    split; [split; [intros _; split; [reflexivity | auto 6] | intros _; eauto] |].
    split; [reflexivity | intros _ Hno; exfalso; apply Hno; auto 6]. }
  assert (Hnum : typeof (setting_interval (merged settings)) = "number").
  { apply negb_false_iff in H1. now apply String.eqb_eq. }
  split; [split |].
  - intros [e He]. exfalso. exact (connect_throws_no_TypeError _ _ _ He).
  - intros [_ [H | [H | [H | [H | H]]]]].
    + apply typeof_test in H. congruence.
    + apply typeof_test in H. congruence.
    + apply known_type_test in H. congruence.
    + congruence.
    + apply leading_plus_test in H. congruence.
  - split.
    + intros e He. exfalso. exact (connect_throws_no_TypeError _ _ _ He).
    + intros _ _. apply connect_opens_bus; [exact Hs | exact Hnum | reflexivity].
Qed.

(** C9. When the merged settings hold a phone number that is neither null
    nor undefined and is not a string, the constructor does not throw the
    error about a leading [+]; with the bus settings in order it returns the
    client. *)
Theorem nonstring_phoneNumber_passes (settings : JsVal) :
  nullish (setting_phoneNumber (merged settings)) = false ->
  typeof (setting_phoneNumber (merged settings)) <> "string" ->
  constructor deepMerge defaultClientSettings settings
  <> Throw (TypeError Bad_phoneNumber_plus)
  /\ (nullish (merged settings) = false ->
      typeof (setting_interval (merged settings)) = "number" ->
      typeof (setting_destination (merged settings)) = "string" ->
      setting_type (merged settings) = JStr "system"
      \/ setting_type (merged settings) = JStr "session" ->
      exists this,
        constructor deepMerge defaultClientSettings settings = Normal this
        /\ Client.settings this = merged settings).
Proof.
  intros Hnn Hty.
  assert (Hplus : String.eqb (typeof (setting_phoneNumber (merged settings))) "string"
                  && match setting_phoneNumber (merged settings) with
                     | JStr p => startsWith p "+"
                     | _ => false
                     end = false).
  { apply not_true_is_false. intros H. apply leading_plus_test in H.
    destruct H as [rest Hrest]. rewrite Hrest in Hty. now apply Hty. }
  split.
  - destruct (nullish (merged settings)) eqn:Hs.
    + rewrite constructor_nullish by exact Hs. discriminate.
    + rewrite constructor_unfold by exact Hs. cbv zeta.
      rewrite Hnn, Hplus.
      repeat match goal with
             | |- context [if ?b then _ else _] => destruct b
             end; discriminate.
  - intros Hs Hinterval Hdest Htype.
    rewrite constructor_unfold by exact Hs. cbv zeta.
    rewrite Hnn, Hplus, Hinterval, Hdest. cbn [String.eqb negb].
    assert (Hknown : negb (existsb (fun known => is_str known (setting_type (merged settings)))
                             ["system"; "session"]) = false).
    { apply not_true_is_false. intros H. apply known_type_test in H.
      destruct H, Htype; contradiction. }
    rewrite Hknown.
    match goal with
    | |- context [if ?b then _ else _] =>
        replace b with false by (symmetry; reflexivity)
    end.
    eexists. split; reflexivity.
Qed.

End Constructor_properties.

Section Constructor_on_concrete_settings.
Import Js Client.

Example string_interval_refused :
  launch Util.deepMerge Constants.defaultClientSettings
    (Sample.settings_of (JStr "5000") (JStr "15550001111")) (Normal tt)
  = ([], Throw (TypeError (Bad_connectionCheckInterval (JStr "5000")))).
Proof. reflexivity. Qed.

Example plus_phoneNumber_refused :
  launch Util.deepMerge Constants.defaultClientSettings
    (Sample.settings_of (JNum (Int 5000)) (JStr "+15550001111")) (Normal tt)
  = ([], Throw (TypeError Bad_phoneNumber_plus)).
Proof. reflexivity. Qed.

Example missing_phoneNumber_refused :
  launch Util.deepMerge Constants.defaultClientSettings (JObj []) (Normal tt)
  = ([], Throw (TypeError (Bad_phoneNumber_missing JUndefined))).
Proof. reflexivity. Qed.

(** C4, as stated, fails: an interval of -5 is not a positive number, yet
    the client is created and [connect] runs to its end on the transport. *)
Lemma negative_interval_accepted :
  refused_by_spec
    (Client.merged Util.deepMerge Constants.defaultClientSettings
       (Sample.settings_of (JNum (Int (-5))) (JStr "15550001111")))
  /\ launch Util.deepMerge Constants.defaultClientSettings
       (Sample.settings_of (JNum (Int (-5))) (JStr "15550001111")) (Normal tt)
     = ([systemBus;
         getProxyObject (JStr "org.asamk.Signal") (JStr "15550001111");
         getInterface "org.asamk.Signal";
         setInterval (JNum (Int (-5)));
         on "error"; on "MessageReceivedV2"; on "MessageReceived";
         set_inSignature "sendMessage" "sasas"],
        Normal tt).
Proof.
  split; [| reflexivity].
  left. intros [[z [Hz Hpos]] | Hinf].
  - injection Hz as <-. lia.
  - discriminate Hinf.
Qed.

Lemma constructor_refuses_iff_witness :
  (exists e,
     snd (launch Util.deepMerge Constants.defaultClientSettings
            (Sample.settings_of (JStr "5000") (JStr "15550001111")) (Normal tt))
     = Throw (TypeError e))
  /\ fst (launch Util.deepMerge Constants.defaultClientSettings
            (Sample.settings_of (JStr "5000") (JStr "15550001111")) (Normal tt))
     = [].
Proof.
  destruct (constructor_refuses_iff Util.deepMerge
              Constants.defaultClientSettings
              (Sample.settings_of (JStr "5000") (JStr "15550001111"))
              (Normal tt)) as (Hiff & Hbefore & _).
  assert (Hthrows : exists e,
             snd (launch Util.deepMerge Constants.defaultClientSettings
                    (Sample.settings_of (JStr "5000") (JStr "15550001111"))
                    (Normal tt)) = Throw (TypeError e)).
  { apply Hiff. split; [reflexivity |]. left. discriminate. }
  split; [exact Hthrows |].
  destruct Hthrows as [e He]. exact (Hbefore e He).
Defined.

Lemma nonstring_phoneNumber_passes_witness :
  constructor Util.deepMerge Constants.defaultClientSettings
    (Sample.settings_of (JNum (Int 5000)) (JNum (Int 15550001111)))
  <> Throw (TypeError Bad_phoneNumber_plus)
  /\ exists this,
       constructor Util.deepMerge Constants.defaultClientSettings
         (Sample.settings_of (JNum (Int 5000)) (JNum (Int 15550001111)))
       = Normal this
       /\ setting_phoneNumber (Client.settings this) = JNum (Int 15550001111).
Proof.
  destruct (nonstring_phoneNumber_passes Util.deepMerge
              Constants.defaultClientSettings
              (Sample.settings_of (JNum (Int 5000)) (JNum (Int 15550001111))))
    as [Hno Hthis].
  - reflexivity.
  - discriminate.
  - split; [exact Hno |].
    destruct Hthis as (this & Hthis & Hsettings);
      [reflexivity | reflexivity | reflexivity | left; reflexivity |].
    exists this. split; [exact Hthis |]. rewrite Hsettings. reflexivity.
Defined.

End Constructor_on_concrete_settings.

(* --------------------------------------------------------------------- *)
(** *** The health check and the message handlers *)
(* --------------------------------------------------------------------- *)

Section Handlers.
Import Js Client.
Variable classify : string -> BaseConversation.ConversationType.

(** Two clients with the same fields are the same client. *)
Lemma t_eq (st st' : t) :
  settings st = settings st' -> cache st = cache st' ->
  objects st = objects st' -> bus_connected st = bus_connected st' ->
  interval_running st = interval_running st' -> listening st = listening st' ->
  lost_buses st = lost_buses st' -> lost_intervals st = lost_intervals st' ->
  lost_interfaces st = lost_interfaces st' ->
  in_flight st = in_flight st' -> trace st = trace st' ->
  st = st'.
Proof. destruct st, st'; cbn; intros; subst; reflexivity. Qed.


Lemma ticking_with_trace (f : list effect -> list effect) (st : t) :
  ticking (with_trace f st) = ticking st.
Proof. reflexivity. Qed.

Lemma heard_with_trace (f : list effect -> list effect) (st : t) :
  heard (with_trace f st) = heard st.
Proof. reflexivity. Qed.

Lemma allowlisted_no_match (e : JsVal) :
  transport_error e = true -> body_matches_allowlist e = false ->
  exists v, allowlisted e = Normal v /\ truthy v = false.
Proof.
  unfold transport_error, body_matches_allowlist, allowlisted, get_named, get_index.
  destruct e as [| | | | | | | fields |]; try discriminate. cbn [nullish].
  destruct (lookup_named (JObj fields) "reply") as [| | | | | | | rf |] eqn:Hr;
    try discriminate; cbn -[lookup_named].
  1,2: intros _ _; eexists; split; reflexivity.
  destruct (lookup_named (JObj rf) "body") as [| | | | | | l | |] eqn:Hb;
    try discriminate.
  destruct l as [| x l]; cbn.
  - intros _ _; eexists; split; reflexivity.
  - destruct x; try discriminate. cbn. intros _ ->. eexists; split; reflexivity.
Qed.

Lemma allowlisted_match (e : JsVal) :
  body_matches_allowlist e = true -> allowlisted e = Normal (JBool true).
Proof.
  unfold body_matches_allowlist, allowlisted, get_named, get_index.
  destruct e as [| | | | | | | fields |]; try discriminate. cbn [nullish].
  destruct (lookup_named (JObj fields) "reply") as [| | | | | | | rf |] eqn:Hr;
    try discriminate; cbn -[lookup_named].
  destruct (lookup_named (JObj rf) "body") as [| | | | | | l | |] eqn:Hb;
    try discriminate.
  destruct l as [| x l]; try discriminate.
  destruct x; try discriminate. cbn. now intros ->.
Qed.

Lemma connectionCheck_disconnects (st : t) (e v : JsVal) :
  nullish (settings st) = false ->
  allowlisted e = Normal v ->
  truthy v = false ->
  connectionCheck (Throw e) st
  = (with_trace
       (fun tr => (tr ++ (if truthy (lookup_named (settings st) "debug")
                          then [debugLog Disconnect_line] else [])
                      ++ [clearInterval; bus_disconnect; removeAllListeners;
                          emit "disconnect" no_payload])%list)
       (with_session false false false st),
     Normal tt).
Proof.
  intros Hs Hv Hfalsy.
  unfold connectionCheck. exec. rewrite Hv. cbn. rewrite Hfalsy, Hs. cbn.
  destruct (truthy (lookup_named (settings st) "debug")); cbn;
    f_equal; apply t_eq; fields; rewrite <- ?app_assoc; reflexivity.
Qed.

Lemma connectionCheck_ignores (st : t) (e v : JsVal) :
  nullish (settings st) = false ->
  allowlisted e = Normal v ->
  truthy v = true ->
  connectionCheck (Throw e) st
  = (with_trace
       (fun tr => (tr ++ (if truthy (lookup_named (settings st) "debug")
                          then [debugLog Ignoring_UnauthenticatedQuoteException]
                          else []))%list) st,
     Normal tt).
Proof.
  intros Hs Hv Htruthy.
  unfold connectionCheck. exec. rewrite Hv. cbn. rewrite Htruthy, Hs. cbn.
  destruct (truthy (lookup_named (settings st) "debug")); cbn;
    f_equal; apply t_eq; fields; rewrite <- ?app_assoc, ?app_nil_r; reflexivity.
Qed.

Lemma get_or_create_run (k : string) (st : t) :
  get_or_create classify k st
  = (remembered classify k st, Normal (resolved k st)).
Proof.
  unfold get_or_create, cache_get, from, _addToCache, remembered, resolved, fresh.
  exec. destruct (cache st !! k) as [n |]; [reflexivity |].
  rewrite list_lookup_middle by reflexivity. reflexivity.
Qed.

Lemma on_MessageReceivedV2_run (timestamp : Z) (sender : string)
    (groupID : Buffer.t) (message extras : JsVal) (st : t) :
  on_MessageReceivedV2 classify timestamp sender groupID message extras st
  = (with_trace
       (fun tr =>
          (tr ++ [emit "messagev2"
                    (messagev2_payload
                       {| MessageV2._client := JRef ClientObject;
                          MessageV2._timestamp :=
                            JNum (Number_of_BigInt timestamp);
                          MessageV2._sender := JStr sender;
                          MessageV2._extras := or_else extras (JArr []);
                          MessageV2._conversation :=
                            JRef (ConversationObject
                                    (resolved (conversationID groupID sender) st));
                          MessageV2._message := or_else message (JStr "") |})])%list)
       (remembered classify (conversationID groupID sender)
          (with_trace
             (fun tr => (tr ++ [console_log (conversationID groupID sender)])%list)
             st)),
     Normal tt).
Proof.
  unfold on_MessageReceivedV2.
  cbv beta delta [mbind action_bind perform]. cbv beta iota zeta.
  rewrite get_or_create_run. reflexivity.
Qed.

Lemma on_MessageReceived_run (timestamp : Z) (authorID : string)
    (groupID : Buffer.t) (content attachments : JsVal) (st : t) :
  nullish (settings st) = false ->
  on_MessageReceived classify timestamp authorID groupID content attachments st
  = (with_trace
       (fun tr =>
          (tr ++ [emit "message"
                    (message_payload
                       {| Message.client := JRef ClientObject;
                          Message.timestamp := JNum (Number_of_BigInt timestamp);
                          Message.authorID := JStr authorID;
                          Message.conversation :=
                            JRef (ConversationObject
                                    (resolved (conversationID groupID authorID) st));
                          Message.attachments := attachments;
                          Message.content := or_else content (JStr "") |})])%list)
       (remembered classify (conversationID groupID authorID)
          (with_trace
             (fun tr =>
                (tr ++ (if truthy (lookup_named (settings st) "debug")
                        then [debugLog (MessageReceived_line timestamp authorID
                                          groupID content attachments)]
                        else []))%list)
             st)),
     Normal tt).
Proof.
  intros Hs. unfold on_MessageReceived.
  cbv beta delta [mbind mret action_bind action_ret perform debug this_settings
                  native when get_named].
  cbv beta iota zeta. rewrite Hs. cbv beta iota zeta.
  destruct (truthy (lookup_named (settings st) "debug")).
  - rewrite get_or_create_run. reflexivity.
  - rewrite get_or_create_run.
    replace (with_trace (fun tr => (tr ++ [])%list) st) with st
      by (destruct st; unfold with_trace; cbn; now rewrite app_nil_r).
    reflexivity.
Qed.

Lemma on_MessageReceived_throws (timestamp : Z) (authorID : string)
    (groupID : Buffer.t) (content attachments : JsVal) (st : t) :
  nullish (settings st) = true ->
  fst (on_MessageReceived classify timestamp authorID groupID content
         attachments st) = st.
Proof.
  intros Hs. unfold on_MessageReceived.
  cbv beta delta [mbind mret action_bind action_ret perform debug this_settings
                  native when get_named].
  cbv beta iota zeta. rewrite Hs. reflexivity.
Qed.

(** What one turn of the loop leaves alone. *)
Lemma connectionCheck_frame (r : completion JsVal JsVal) (st : t) :
  settings (fst (connectionCheck r st)) = settings st
  /\ cache (fst (connectionCheck r st)) = cache st
  /\ objects (fst (connectionCheck r st)) = objects st
  /\ (interval_running st = false ->
      interval_running (fst (connectionCheck r st)) = false)
  /\ lost_intervals (fst (connectionCheck r st)) = lost_intervals st
  /\ exists added,
       trace (fst (connectionCheck r st)) = (trace st ++ added)%list
       /\ probes added = 0%nat.
Proof.
  destruct r as [v | e]; [cbn; repeat split; auto; exists []; now rewrite app_nil_r |].
  unfold connectionCheck. exec.
  destruct (allowlisted e) as [v | err]; cbn;
    [| repeat split; auto; exists []; now rewrite app_nil_r].
  destruct (truthy v); destruct (nullish (settings st)); cbn;
    try (repeat split; auto; exists []; now rewrite app_nil_r);
    destruct (truthy (lookup_named (settings st) "debug")); cbn;
    repeat split; auto;
    try (exists []; now rewrite app_nil_r);
    rewrite <- ?app_assoc; eexists; split; reflexivity.
Qed.

Lemma on_error_frame (e : JsVal) (st : t) :
  settings (fst (on_error e st)) = settings st
  /\ cache (fst (on_error e st)) = cache st
  /\ objects (fst (on_error e st)) = objects st
  /\ ticking (fst (on_error e st)) = ticking st
  /\ exists added,
       trace (fst (on_error e st)) = (trace st ++ added)%list
       /\ probes added = 0%nat.
Proof.
  unfold on_error. exec.
  destruct (nullish (settings st)); cbn;
    [repeat split; auto; exists []; now rewrite app_nil_r |].
  destruct (truthy (lookup_named (settings st) "debug")); cbn;
    repeat split; auto; rewrite <- ?app_assoc; eexists; split; reflexivity.
Qed.

Lemma remembered_frame (k : string) (st : t) :
  settings (remembered classify k st) = settings st
  /\ ticking (remembered classify k st) = ticking st
  /\ heard (remembered classify k st) = heard st
  /\ trace (remembered classify k st) = trace st.
Proof.
  unfold remembered. destruct (cache st !! k); repeat split; reflexivity.
Qed.

Lemma remembered_lookup (k : string) (st : t) :
  cache (remembered classify k st) !! k = Some (resolved k st).
Proof.
  unfold remembered, resolved. destruct (cache st !! k) eqn:Hk; [exact Hk |].
  cbn. apply lookup_insert_eq.
Qed.

Lemma remembered_keeps (k k' : string) (n : nat) (st : t) :
  cache st !! k' = Some n -> cache (remembered classify k st) !! k' = Some n.
Proof.
  intros Hk'. unfold remembered. destruct (cache st !! k) eqn:Hk; [exact Hk' |].
  cbn. rewrite lookup_insert_ne; [exact Hk' | congruence].
Qed.

Lemma remembered_consistent (k : string) (st : t) :
  cache_consistent st -> cache_consistent (remembered classify k st).
Proof.
  intros [Hcache Hobjects]. unfold remembered.
  destruct (cache st !! k) eqn:Hk; [split; assumption |].
  split; cbn.
  - intros k' n Hn. destruct (decide (k = k')) as [<- | Hne].
    + rewrite lookup_insert_eq in Hn. injection Hn as <-.
      exists (fresh classify k). split; [| reflexivity].
      now apply list_lookup_middle.
    + rewrite lookup_insert_ne in Hn by exact Hne.
      destruct (Hcache k' n Hn) as (c & Hc & Hid).
      exists c. split; [| exact Hid]. now apply lookup_app_l_Some.
  - intros n c Hc. apply lookup_app_Some in Hc as [Hc | [Hlen Hc]].
    + pose proof (Hobjects n c Hc) as Hn.
      rewrite lookup_insert_ne; [exact Hn | congruence].
    + destruct (n - length (objects st))%nat as [| m] eqn:Hm; [| discriminate Hc].
      injection Hc as <-. cbn.
      rewrite lookup_insert_eq. f_equal. lia.
Qed.

Lemma step_settings (st : t) (i : input) :
  settings (step classify st i) = settings st.
Proof.
  destruct i as [| r | ts a g c att | ts s g m x | e]; cbn [step].
  - destruct (ticking st); reflexivity.
  - destruct (in_flight st); [reflexivity |].
    now destruct (connectionCheck_frame r (with_in_flight n st)) as [-> _].
  - destruct (heard st); [| reflexivity].
    destruct (nullish (settings st)) eqn:Hs.
    + now rewrite on_MessageReceived_throws.
    + rewrite on_MessageReceived_run by exact Hs. cbn.
      now destruct (remembered_frame (conversationID g a)
        (with_trace (fun tr => (tr ++ (if truthy (lookup_named (settings st) "debug")
                        then [debugLog (MessageReceived_line ts a g c att)]
                        else []))%list) st)) as [-> _].
  - destruct (heard st); [| reflexivity].
    rewrite on_MessageReceivedV2_run. cbn.
    now destruct (remembered_frame (conversationID g s)
        (with_trace (fun tr => (tr ++ [console_log (conversationID g s)])%list) st))
      as [-> _].
  - destruct (heard st); [| reflexivity].
    now destruct (on_error_frame e st) as [-> _].
Qed.

Lemma probes_app (a b : list effect) :
  probes (a ++ b) = (probes a + probes b)%nat.
Proof. unfold probes. now rewrite List.filter_app, length_app. Qed.

Lemma disconnects_app (a b : list effect) :
  disconnects (a ++ b) = (disconnects a + disconnects b)%nat.
Proof. unfold disconnects. now rewrite List.filter_app, length_app. Qed.

Lemma step_cache_keeps (st : t) (i : input) (k : string) (n : nat) :
  cache st !! k = Some n -> cache (step classify st i) !! k = Some n.
Proof.
  intros Hk.
  destruct i as [| r | ts a g c att | ts s g m x | e]; cbn [step].
  - now destruct (ticking st).
  - destruct (in_flight st) as [| m]; [exact Hk |].
    destruct (connectionCheck_frame r (with_in_flight m st)) as (_ & -> & _).
    exact Hk.
  - destruct (heard st); [| exact Hk].
    destruct (nullish (settings st)) eqn:Hs.
    + now rewrite on_MessageReceived_throws.
    + rewrite on_MessageReceived_run by exact Hs. cbn.
      apply remembered_keeps. exact Hk.
  - destruct (heard st); [| exact Hk].
    rewrite on_MessageReceivedV2_run. cbn. apply remembered_keeps. exact Hk.
  - destruct (heard st); [| exact Hk].
    destruct (on_error_frame e st) as (_ & -> & _). exact Hk.
Qed.

Lemma run_cache_keeps (inputs : list input) (st : t) (k : string) (n : nat) :
  cache st !! k = Some n -> cache (run classify st inputs) !! k = Some n.
Proof.
  revert st. induction inputs as [| i inputs IH]; intros st Hk; [exact Hk |].
  cbn. apply IH. apply step_cache_keeps. exact Hk.
Qed.

Lemma consistent_frame (st st' : t) :
  cache st' = cache st -> objects st' = objects st ->
  cache_consistent st -> cache_consistent st'.
Proof. unfold cache_consistent. now intros -> ->. Qed.

Lemma step_consistent (st : t) (i : input) :
  cache_consistent st -> cache_consistent (step classify st i).
Proof.
  intros Hst.
  destruct i as [| r | ts a g c att | ts s g m x | e]; cbn [step].
  - now destruct (ticking st).
  - destruct (in_flight st) as [| m]; [exact Hst |].
    destruct (connectionCheck_frame r (with_in_flight m st)) as (_ & Hc & Ho & _).
    exact (consistent_frame _ _ Hc Ho Hst).
  - destruct (heard st); [| exact Hst].
    destruct (nullish (settings st)) eqn:Hs.
    + now rewrite on_MessageReceived_throws.
    + rewrite on_MessageReceived_run by exact Hs. cbn.
      eapply consistent_frame; [reflexivity | reflexivity |].
      apply remembered_consistent. exact Hst.
  - destruct (heard st); [| exact Hst].
    rewrite on_MessageReceivedV2_run. cbn.
    eapply consistent_frame; [reflexivity | reflexivity |].
    apply remembered_consistent. exact Hst.
  - destruct (heard st); [| exact Hst].
    destruct (on_error_frame e st) as (_ & Hc & Ho & _).
    exact (consistent_frame _ _ Hc Ho Hst).
Qed.

Lemma run_consistent (inputs : list input) (st : t) :
  cache_consistent st -> cache_consistent (run classify st inputs).
Proof.
  revert st. induction inputs as [| i inputs IH]; intros st Hst; [exact Hst |].
  cbn. apply IH. apply step_consistent. exact Hst.
Qed.

(** Once no timer runs, none ever does, and no health check is started. *)
Lemma step_stopped (st : t) (i : input) :
  ticking st = false ->
  ticking (step classify st i) = false
  /\ probes (trace (step classify st i)) = probes (trace st).
Proof.
  intros Hoff.
  destruct i as [| r | ts a g c att | ts s g m x | e]; cbn [step].
  - rewrite Hoff. split; [exact Hoff | reflexivity].
  - destruct (in_flight st) as [| m]; [split; [exact Hoff | reflexivity] |].
    destruct (connectionCheck_frame r (with_in_flight m st))
      as (_ & _ & _ & Hi & Hlost & added & -> & Hadded).
    split.
    + unfold ticking in *. rewrite Hlost. cbn [lost_intervals with_in_flight].
      apply orb_false_iff in Hoff as [Hrun Hnone].
      rewrite Hi by exact Hrun. exact Hnone.
    + rewrite probes_app, Hadded. cbn [trace with_in_flight]. lia.
  - destruct (heard st); [| split; [exact Hoff | reflexivity]].
    destruct (nullish (settings st)) eqn:Hs.
    + rewrite on_MessageReceived_throws by exact Hs. split; [exact Hoff | reflexivity].
    + rewrite on_MessageReceived_run by exact Hs.
      cbn [fst trace with_trace].
      match goal with
      | |- context [remembered classify ?k ?s] =>
          destruct (remembered_frame k s) as (_ & Ht & _ & ->)
      end.
      cbn [trace with_trace]. rewrite ticking_with_trace, Ht.
      split; [exact Hoff |]. rewrite !probes_app.
      destruct (truthy (lookup_named (settings st) "debug")); cbn; lia.
  - destruct (heard st); [| split; [exact Hoff | reflexivity]].
    rewrite on_MessageReceivedV2_run.
    cbn [fst trace with_trace].
    match goal with
    | |- context [remembered classify ?k ?s] =>
        destruct (remembered_frame k s) as (_ & Ht & _ & ->)
    end.
    cbn [trace with_trace]. rewrite ticking_with_trace, Ht.
    split; [exact Hoff |]. rewrite !probes_app. cbn. lia.
  - destruct (heard st); [| split; [exact Hoff | reflexivity]].
    destruct (on_error_frame e st) as (_ & _ & _ & -> & added & -> & Hadded).
    split; [exact Hoff |]. rewrite probes_app, Hadded. lia.
Qed.

Lemma run_stopped (inputs : list input) (st : t) :
  ticking st = false ->
  probes (trace (run classify st inputs)) = probes (trace st).
Proof.
  revert st. induction inputs as [| i inputs IH]; intros st Hoff; [reflexivity |].
  cbn. destruct (step_stopped st i Hoff) as [Hoff' <-]. apply IH. exact Hoff'.
Qed.

Lemma run_settings (inputs : list input) (st : t) :
  settings (run classify st inputs) = settings st.
Proof.
  revert st. induction inputs as [| i inputs IH]; intros st; [reflexivity |].
  unfold run in *. cbn [fold_left]. rewrite IH. apply step_settings.
Qed.

Lemma listening_heard (st : t) : listening st = true -> heard st = true.
Proof. unfold heard. now intros ->. Qed.

Lemma interval_running_ticking (st : t) :
  interval_running st = true -> ticking st = true.
Proof. unfold ticking. now intros ->. Qed.

(** A message signal that reaches its listener: the client it leaves and
    the event it emits. *)
Lemma step_message (st : t) (i : input) (g : Buffer.t) (s : string) :
  addressing i = Some (g, s) ->
  heard st = true ->
  nullish (settings st) = false ->
  exists logs ev p,
    step classify st i
    = with_trace (fun tr => (tr ++ [emit ev p])%list)
        (remembered classify (conversationID g s)
           (with_trace (fun tr => (tr ++ logs)%list) st))
    /\ conversation_of p
       = Some (JRef (ConversationObject (resolved (conversationID g s) st)))
    /\ timestamp_of p
       = (fun ts => JNum (Number_of_BigInt ts)) <$> raw_timestamp i.
Proof.
  intros Hi Hl Hs.
  destruct i as [| r | ts a g' c att | ts s' g' m x | e]; try discriminate Hi;
    injection Hi as -> ->; cbn [step]; rewrite Hl.
  - rewrite on_MessageReceived_run by exact Hs. cbn [fst].
    do 3 eexists. split; [reflexivity |]. split; reflexivity.
  - rewrite on_MessageReceivedV2_run. cbn [fst].
    do 3 eexists. split; [reflexivity |]. split; reflexivity.
Qed.

Lemma step_unheard (st : t) (i : input) (g : Buffer.t) (s : string) :
  addressing i = Some (g, s) -> heard st = false -> step classify st i = st.
Proof.
  intros Hi Hl.
  destruct i; try discriminate Hi; cbn [step]; now rewrite Hl.
Qed.

Lemma delivered_unchanged (st : t) (i : input) :
  step classify st i = st -> delivered classify st i = None.
Proof.
  intros Hst. unfold delivered, performed. rewrite Hst.
  now rewrite drop_all.
Qed.

Lemma delivered_message (st : t) (i : input) (logs : list effect)
    (ev : string) (p : payload) (k : string) :
  step classify st i
  = with_trace (fun tr => (tr ++ [emit ev p])%list)
      (remembered classify k (with_trace (fun tr => (tr ++ logs)%list) st)) ->
  delivered classify st i = Some p
  /\ performed classify st i = (logs ++ [emit ev p])%list
  /\ cache (step classify st i) !! k = Some (resolved k st)
  /\ objects (step classify st i) = objects (remembered classify k st).
Proof.
  intros Hstep. unfold delivered, performed. rewrite Hstep.
  cbn [trace with_trace].
  destruct (remembered_frame k (with_trace (fun tr => (tr ++ logs)%list) st))
    as (_ & _ & _ & ->).
  cbn [trace with_trace]. rewrite <- app_assoc, drop_app_length, last_snoc.
  repeat split.
  - cbn [cache with_trace]. apply (remembered_lookup k (with_trace _ st)).
  - cbn [objects with_trace]. unfold remembered. cbn [cache with_trace].
    now destruct (cache st !! k).
Qed.






(** C1, amended. A health check that succeeds changes nothing. When one
    fails with an error on which the test of the allowlist completes: if the
    test finds no match, exactly one [disconnect] event is emitted and the
    timer the client refers to is stopped, the timers it has lost staying
    as they are, so that on a client that has lost none no health check is
    started ever after; if the test finds a match, no [disconnect] event is
    emitted and the timers are left as they were, so the next tick of a
    running timer starts a check. On every error the transport rejects with
    the test completes: with a match when the body matches the allowlist,
    with none when it does not. *)
Theorem health_check_failure (st : t) (e : JsVal) (n : nat) :
  nullish (settings st) = false ->
  in_flight st = S n ->
  (forall ok,
     performed classify st (settled (Normal ok)) = []
     /\ interval_running (step classify st (settled (Normal ok)))
        = interval_running st)
  /\ (forall v,
        allowlisted e = Normal v -> truthy v = false ->
        disconnects (performed classify st (settled (Throw e))) = 1%nat
        /\ disconnects (trace (step classify st (settled (Throw e))))
           = S (disconnects (trace st))
        /\ interval_running (step classify st (settled (Throw e))) = false
        /\ lost_intervals (step classify st (settled (Throw e)))
           = lost_intervals st
        /\ (lost_intervals st = 0%nat ->
            forall inputs,
              probes (trace (run classify
                               (step classify st (settled (Throw e))) inputs))
              = probes (trace (step classify st (settled (Throw e))))))
  /\ (forall v,
        allowlisted e = Normal v -> truthy v = true ->
        disconnects (performed classify st (settled (Throw e))) = 0%nat
        /\ disconnects (trace (step classify st (settled (Throw e))))
           = disconnects (trace st)
        /\ interval_running (step classify st (settled (Throw e)))
           = interval_running st
        /\ lost_intervals (step classify st (settled (Throw e)))
           = lost_intervals st
        /\ (interval_running st = true ->
            probes (trace (step classify
                             (step classify st (settled (Throw e))) tick))
            = S (probes (trace (step classify st (settled (Throw e)))))))
  /\ (body_matches_allowlist e = true ->
      exists v, allowlisted e = Normal v /\ truthy v = true)
  /\ (transport_error e = true -> body_matches_allowlist e = false ->
      exists v, allowlisted e = Normal v /\ truthy v = false).
Proof.
  intros Hs Hin. unfold performed. cbn [step]. rewrite Hin.
  split; [| split; [| split; [| split]]].
  - intros ok. cbn. now rewrite drop_all.
  - intros v Hv Hfalsy.
    rewrite (connectionCheck_disconnects _ e v) by assumption.
    fields. rewrite drop_app_length, !disconnects_app.
    assert (Hlog : disconnects
                     (if truthy (lookup_named (settings st) "debug")
                      then [debugLog Disconnect_line] else []) = 0%nat)
      by (now destruct (truthy (lookup_named (settings st) "debug"))).
    rewrite Hlog.
    split; [reflexivity |]. split; [cbn; lia |]. split; [reflexivity |].
    split; [reflexivity |].
    intros Hnone inputs. apply run_stopped.
    unfold ticking. fields. now rewrite Hnone.
  - intros v Hv Htruthy.
    rewrite (connectionCheck_ignores _ e v) by assumption. fields.
    rewrite drop_app_length, !disconnects_app.
    assert (Hlog : disconnects
                     (if truthy (lookup_named (settings st) "debug")
                      then [debugLog Ignoring_UnauthenticatedQuoteException]
                      else []) = 0%nat)
      by (now destruct (truthy (lookup_named (settings st) "debug"))).
    rewrite Hlog.
    split; [reflexivity |]. split; [lia |]. split; [reflexivity |].
    split; [reflexivity |].
    intros Hon. unfold ticking. fields. rewrite Hon. exec.
    change (length (List.filter is_probe ?l)) with (probes l).
    rewrite (probes_app _ [getRegistrationStatus]). cbn. lia.
  - intros Hbody. exists (JBool true).
    split; [now apply allowlisted_match | reflexivity].
  - intros He Hbody. now apply allowlisted_no_match.
Qed.

(** C6. When the health check detects a disconnect (the test of the error
    it failed with is falsy), the client stops the timer, then closes the
    bus, then removes the listeners from the interface, then emits
    [disconnect]: nothing else but a debug line before them. *)
Theorem teardown_order (st : t) (e v : JsVal) (n : nat) :
  nullish (settings st) = false ->
  in_flight st = S n ->
  allowlisted e = Normal v ->
  truthy v = false ->
  performed classify st (settled (Throw e))
  = ((if truthy (lookup_named (settings st) "debug")
      then [debugLog Disconnect_line] else [])
     ++ [clearInterval; bus_disconnect; removeAllListeners;
         emit "disconnect" no_payload])%list
  /\ interval_running (step classify st (settled (Throw e))) = false
  /\ bus_connected (step classify st (settled (Throw e))) = false
  /\ listening (step classify st (settled (Throw e))) = false.
Proof.
  intros Hs Hin Hv Hfalsy. unfold performed. cbn [step]. rewrite Hin.
  rewrite (connectionCheck_disconnects _ e v) by assumption.
  fields. rewrite drop_app_length. repeat split.
Qed.

(** C8. The message handed to the application for a signal, legacy or v2,
    carries as its timestamp the number [Number(raw)] of the raw BigInt
    timestamp: the same value below 2^53, and for any int64 an integer. *)
Theorem timestamp_narrowed (st : t) (i : input) (raw : Z) :
  raw_timestamp i = Some raw ->
  listening st = true ->
  nullish (settings st) = false ->
  exists p,
    delivered classify st i = Some p
    /\ timestamp_of p = Some (JNum (Number_of_BigInt raw))
    /\ typeof (JNum (Number_of_BigInt raw)) = "number"
    /\ (Z.abs raw < 2 ^ 53 -> Number_of_BigInt raw = Int raw)
    /\ (- 2 ^ 63 <= raw < 2 ^ 63 ->
        exists z, Number_of_BigInt raw = Int z /\ - 2 ^ 63 <= z <= 2 ^ 63).
Proof.
  intros Hraw Hl Hs.
  assert (Hi : exists g s, addressing i = Some (g, s))
    by (destruct i; try discriminate Hraw; cbn; eauto).
  destruct Hi as (g & s & Hi).
  destruct (step_message st i g s Hi (listening_heard st Hl) Hs)
    as (logs & ev & p & Hstep & _ & Hts).
  destruct (delivered_message st i logs ev p _ Hstep) as (Hp & _).
  exists p. split; [exact Hp |]. rewrite Hts, Hraw.
  split; [reflexivity |]. split; [reflexivity |].
  split; [apply Number_of_BigInt_exact | apply Number_of_BigInt_int64].
Qed.

(** C2, amended. The conversation handed to the application for a signal,
    legacy or v2, bears the base64 text of the group identifier bytes when
    there are any, and the sender (or author) when there are none; when the
    cache has no conversation for that identifier, the one created is the
    one the manager's factory builds from the identifier alone, so its
    variant is a function of the identifier string. *)
Theorem conversation_resolution (st : t) (i : input) (g : Buffer.t)
    (s : string) :
  addressing i = Some (g, s) ->
  listening st = true ->
  nullish (settings st) = false ->
  cache_consistent st ->
  exists c,
    conversation_delivered classify st i = Some c
    /\ BaseConversation.id c = conversationID g s
    /\ (g <> [] -> BaseConversation.id c = Buffer.toBase64 g)
    /\ (g = [] -> BaseConversation.id c = s)
    /\ (cache st !! conversationID g s = None ->
        c = fresh classify (conversationID g s)
        /\ BaseConversation.type c = classify (BaseConversation.id c)).
Proof.
  intros Hi Hl Hs [Hcache _].
  destruct (step_message st i g s Hi (listening_heard st Hl) Hs)
    as (logs & ev & p & Hstep & Hconv & _).
  destruct (delivered_message st i logs ev p _ Hstep) as (Hp & _ & _ & Hobjects).
  unfold conversation_delivered. rewrite Hp. cbn [mbind option_bind].
  rewrite Hconv. cbn [mbind option_bind referent]. rewrite Hobjects.
  assert (Hid : forall c, BaseConversation.id c = conversationID g s ->
                  (g <> [] -> BaseConversation.id c = Buffer.toBase64 g)
                  /\ (g = [] -> BaseConversation.id c = s)).
  { intros c ->. split; intros Hg.
    - destruct g; [contradiction | reflexivity].
    - now rewrite Hg. }
  unfold remembered, resolved.
  destruct (cache st !! conversationID g s) as [n |] eqn:Hk.
  - destruct (Hcache _ _ Hk) as (c & Hc & Hidc).
    exists c. split; [exact Hc |]. split; [exact Hidc |].
    destruct (Hid c Hidc). repeat split; auto; discriminate.
  - exists (fresh classify (conversationID g s)).
    split; [cbn; now apply list_lookup_middle |]. split; [reflexivity |].
    destruct (Hid (fresh classify (conversationID g s)) eq_refl).
    repeat split; auto.
Qed.


End Handlers.

(* --------------------------------------------------------------------- *)
(** *** Sessions, and the properties on a concrete one *)
(* --------------------------------------------------------------------- *)

Section Sessions.
Import Js Client.

Lemma empty_cache_consistent (st : t) :
  cache st = ∅ -> objects st = [] -> cache_consistent st.
Proof.
  intros Hc Ho. split.
  - intros k n. rewrite Hc, lookup_empty. discriminate.
  - intros n c. rewrite Ho. discriminate.
Qed.

(** A client that has been created and connected satisfies what the
    properties of the handlers assume: its settings are an object, its cache
    agrees with its conversations, its timer runs, its listeners are
    attached, and it has lost no bus, timer or interface. *)
Lemma session_invariant (deepMerge : JsVal -> JsVal -> JsVal)
    (defaultClientSettings settings : JsVal) (proxy : completion JsVal unit)
    (st : t) :
  session deepMerge defaultClientSettings settings proxy = Some st ->
  nullish (Client.settings st) = false
  /\ cache_consistent st
  /\ listening st = true
  /\ interval_running st = true
  /\ bus_connected st = true
  /\ lost_buses st = 0%nat
  /\ lost_intervals st = 0%nat
  /\ lost_interfaces st = 0%nat.
Proof.
  unfold session.
  set (s := Client.merged deepMerge defaultClientSettings settings).
  destruct (nullish s) eqn:Hs.
  { rewrite constructor_nullish by exact Hs. discriminate. }
  rewrite constructor_unfold by exact Hs. cbv zeta. fold s.
  destruct (negb (String.eqb (typeof (setting_interval s)) "number")) eqn:Hi;
    [discriminate |].
  repeat match goal with
         | |- context [if ?b then Throw _ else _] => destruct b; [discriminate |]
         end.
  assert (Hdbus : nullish (lookup_named s "dbus") = false).
  { apply negb_false_iff, String.eqb_eq in Hi.
    unfold setting_interval, opt_named in Hi.
    destruct (nullish (lookup_named s "dbus")); [discriminate | reflexivity]. }
  unfold connect. exec. rewrite Hs. cbn. rewrite Hdbus. cbn.
  destruct proxy as [[] | reason]; cbn; [| discriminate].
  intros [= <-]. cbn.
  split; [exact Hs |]. split; [now apply empty_cache_consistent |].
  repeat split.
Qed.

Lemma connected_consistent : cache_consistent Sample.connected.
Proof. now apply empty_cache_consistent. Qed.

Example connected_is_a_session :
  with_in_flight 1 <$>
    (with_trace (fun _ => []) <$>
       session Util.deepMerge Constants.defaultClientSettings Sample.settings
         (Normal tt))
  = Some Sample.connected.
Proof. reflexivity. Qed.

(** An error that is not of the transport's making (a reply without a body,
    a body whose first argument is not a text) makes the callback itself
    throw while it tests the error: neither branch of the handler runs. *)
Example reply_without_body_throws :
  allowlisted (JObj [("reply", JObj [])]) = Throw CannotReadProperty
  /\ step Sample.by_plus Sample.connected
       (settled (Throw (JObj [("reply", JObj [])])))
     = with_in_flight 0 Sample.connected.
Proof. split; reflexivity. Qed.

Example numeric_body_throws :
  allowlisted Sample.numeric_error = Throw NotAFunction.
Proof. reflexivity. Qed.

(** A client that is connected a second time has lost the bus, the timer
    and the interface of its first connection, which stay as they were. *)
Example reconnected_has_lost :
  lost_buses Sample.reconnected = 1%nat
  /\ lost_intervals Sample.reconnected = 1%nat
  /\ lost_interfaces Sample.reconnected = 1%nat
  /\ interval_running Sample.reconnected = true.
Proof. repeat split. Qed.

Lemma health_check_failure_witness :
  (disconnects
     (performed Sample.by_plus Sample.connected (settled (Throw Sample.no_reply)))
   = 1%nat
   /\ interval_running
        (step Sample.by_plus Sample.connected (settled (Throw Sample.no_reply)))
      = false
   /\ forall inputs,
        probes (trace (run Sample.by_plus
                         (step Sample.by_plus Sample.connected
                            (settled (Throw Sample.no_reply))) inputs))
        = 0%nat)
  /\ (disconnects
        (performed Sample.by_plus Sample.connected
           (settled (Throw Sample.benign_error))) = 0%nat
      /\ interval_running
           (step Sample.by_plus Sample.connected
              (settled (Throw Sample.benign_error))) = true).
Proof.
  split.
  - destruct (health_check_failure Sample.by_plus Sample.connected
                Sample.no_reply 0 eq_refl eq_refl) as (_ & Hfatal & _).
    destruct (Hfatal JUndefined eq_refl eq_refl)
      as (Hone & _ & Hoff & _ & Hnever).
    split; [exact Hone |]. split; [exact Hoff |].
    intros inputs. now rewrite (Hnever eq_refl inputs).
  - destruct (health_check_failure Sample.by_plus Sample.connected
                Sample.benign_error 0 eq_refl eq_refl)
      as (_ & _ & Hbenign & _).
    destruct (Hbenign (JBool true) eq_refl eq_refl) as (Hnone & _ & Hon & _).
    split; assumption.
Defined.

(** C1, as stated, fails. A failure whose reply carries the number 42 has a
    body that does not contain the benign text, yet the test of the
    allowlist throws on it: no [disconnect] event is emitted, the timer
    keeps running and the next tick starts a health check. And on a client
    that was connected twice, a failure without a reply makes it emit
    [disconnect] and stop the timer it refers to, yet the next tick, of the
    timer it lost, starts a health check. *)
Lemma failure_without_teardown :
  (body_matches_allowlist Sample.numeric_error = false
   /\ disconnects
        (performed Sample.by_plus Sample.connected
           (settled (Throw Sample.numeric_error))) = 0%nat
   /\ interval_running
        (step Sample.by_plus Sample.connected
           (settled (Throw Sample.numeric_error))) = true
   /\ probes
        (performed Sample.by_plus
           (step Sample.by_plus Sample.connected
              (settled (Throw Sample.numeric_error))) tick) = 1%nat)
  /\ (body_matches_allowlist Sample.no_reply = false
      /\ disconnects
           (performed Sample.by_plus Sample.reconnected
              (settled (Throw Sample.no_reply))) = 1%nat
      /\ interval_running
           (step Sample.by_plus Sample.reconnected
              (settled (Throw Sample.no_reply))) = false
      /\ probes
           (performed Sample.by_plus
              (step Sample.by_plus Sample.reconnected
                 (settled (Throw Sample.no_reply))) tick) = 1%nat).
Proof. repeat split. Qed.

Lemma teardown_order_witness :
  performed Sample.by_plus Sample.connected
    (settled (Throw (Sample.dbus_error "Connection refused")))
  = [clearInterval; bus_disconnect; removeAllListeners;
     emit "disconnect" no_payload].
Proof.
  destruct (teardown_order Sample.by_plus Sample.connected
              (Sample.dbus_error "Connection refused") (JBool false) 0
              eq_refl eq_refl eq_refl eq_refl) as [Horder _].
  exact Horder.
Defined.

Lemma timestamp_narrowed_witness :
  exists p,
    delivered Sample.by_plus Sample.connected Sample.direct_signal = Some p
    /\ timestamp_of p = Some (JNum (Int 1700000000000)).
Proof.
  destruct (timestamp_narrowed Sample.by_plus Sample.connected
              Sample.direct_signal 1700000000000 eq_refl eq_refl eq_refl)
    as (p & Hp & Hts & _ & Hexact & _).
  exists p. split; [exact Hp |]. rewrite Hts, Hexact; reflexivity.
Defined.

Lemma conversation_resolution_witness :
  exists c,
    conversation_delivered Sample.by_plus Sample.connected Sample.group_signal
    = Some c
    /\ BaseConversation.id c = Buffer.toBase64 Sample.phone_like_group
    /\ BaseConversation.type c = Sample.by_plus (BaseConversation.id c).
Proof.
  destruct (conversation_resolution Sample.by_plus Sample.connected
              Sample.group_signal Sample.phone_like_group "+15557654321"
              eq_refl eq_refl eq_refl connected_consistent)
    as (c & Hc & _ & Hgroup & _ & Hmiss).
  exists c. split; [exact Hc |]. split; [apply Hgroup; discriminate |].
  apply Hmiss. reflexivity.
Defined.

(** C2, as stated, fails: with nothing cached, a direct message from
    [+15551234567] and a group message whose nine group identifier bytes
    read [+15551234567] in base64 resolve to the same identifier, so no
    factory gives the first a direct conversation and the second a group. *)
Lemma variant_not_decided_by_group_bytes :
  conversationID [] "+15551234567" = "+15551234567"
  /\ conversationID Sample.phone_like_group "+15557654321" = "+15551234567"
  /\ cache Sample.connected !! "+15551234567" = None
  /\ ~ exists classify,
         BaseConversation.type
           <$> conversation_delivered classify Sample.connected
                 Sample.direct_signal
         = Some (variant_by_spec [])
         /\ BaseConversation.type
              <$> conversation_delivered classify Sample.connected
                    Sample.group_signal
            = Some (variant_by_spec Sample.phone_like_group).
Proof.
  split; [reflexivity |]. split; [reflexivity |]. split; [reflexivity |].
  intros (classify & Hdirect & Hgroup).
  vm_compute in Hdirect, Hgroup. congruence.
Qed.


End Sessions.

(* --------------------------------------------------------------------- *)
(** *** Further properties of MessageV2 and UserConversation *)
(* --------------------------------------------------------------------- *)

Section Structures_further.
Import Js UserConversation.

(** X1. [new MessageV2(data)] throws exactly when [data] is [null]: reading
    [data.client] of null is a TypeError, while a missing argument is
    replaced by the empty object and every other value has its properties
    read (as undefined when it lacks them). *)
Theorem MessageV2_constructor_throws_iff_null (data : JsVal) :
  (MessageV2.constructor data = Throw CannotReadProperty <-> data = JNull)
  /\ ((exists m, MessageV2.constructor data = Normal m) <-> data <> JNull).
Proof.
  split; split.
  - intros H. destruct data; try discriminate H. reflexivity.
  - now intros ->.
  - intros [m Hm] ->. discriminate Hm.
  - intros H. eexists. now apply MessageV2_constructor_total.
Qed.

(** X2. Whatever a MessageV2 is constructed from, its [extras] are never
    falsy (so never null or undefined), and its [message] is the empty
    string or a truthy value. *)
Theorem MessageV2_getters_never_missing (data : JsVal) (m : MessageV2.t) :
  MessageV2.constructor data = Normal m ->
  truthy (MessageV2.extras m) = true
  /\ nullish (MessageV2.extras m) = false
  /\ nullish (MessageV2.message m) = false
  /\ (MessageV2.message m = JStr "" \/ truthy (MessageV2.message m) = true).
Proof.
  intros Hm.
  assert (Hdata : data <> JNull) by (intros ->; discriminate Hm).
  rewrite MessageV2_constructor_total in Hm by exact Hdata.
  injection Hm as <-.
  cbn [MessageV2.extras MessageV2.message MessageV2._extras MessageV2._message].
  unfold or_else.
  destruct (truthy (MessageV2.supplied data "extras")) eqn:He;
    destruct (truthy (MessageV2.supplied data "message")) eqn:Hmsg;
    repeat split; auto;
    try (destruct (MessageV2.supplied data "extras"); cbn in *; congruence);
    try (destruct (MessageV2.supplied data "message"); cbn in *; congruence).
Qed.

(** X3. How the three send operations fail. Before [connect] has set the
    interface proxy each of them throws the runtime's TypeError and calls
    nothing on the daemon. When the daemon rejects the call, each has made
    exactly one call and completes with the daemon's rejection itself,
    unchanged; [sendMessage] then returns no timestamp. *)
Theorem send_operations_failure (this : BaseConversation.t)
    (d : BusInterface) (content attachments stop reason : JsVal) :
  (sendMessage this None content attachments
   = ([], Throw (Native CannotReadProperty))
   /\ sendTyping this None stop = ([], Throw (Native CannotReadProperty))
   /\ resetSession this None = ([], Throw (Native CannotReadProperty)))
  /\ (sendMessage_reply d content (default_param attachments (JArr []))
        (JArr [JStr (BaseConversation.id this)]) = Throw reason ->
      snd (sendMessage this (Some d) content attachments)
      = Throw (Rejected reason)
      /\ length (fst (sendMessage this (Some d) content attachments)) = 1%nat)
  /\ (sendTyping_reply d (JStr (BaseConversation.id this))
        (default_param stop (JBool false)) = Throw reason ->
      snd (sendTyping this (Some d) stop) = Throw (Rejected reason)
      /\ length (fst (sendTyping this (Some d) stop)) = 1%nat)
  /\ (sendEndSessionMessage_reply d (JArr [JStr (BaseConversation.id this)])
      = Throw reason ->
      snd (resetSession this (Some d)) = Throw (Rejected reason)
      /\ length (fst (resetSession this (Some d))) = 1%nat).
Proof.
  split; [repeat split |].
  unfold sendMessage, sendTyping, resetSession. cbn [fst snd].
  repeat split; rewrite H; reflexivity.
Qed.

End Structures_further.

(* --------------------------------------------------------------------- *)
(** *** Further properties of the narrowing of timestamps *)
(* --------------------------------------------------------------------- *)

Section Narrowing_further.
Import Js.

Lemma round_to_double_parts (a : Z) :
  2 ^ 53 <= a ->
  let e := Z.log2 a - 52 in
  let q := a / 2 ^ e in
  let r := a mod 2 ^ e in
  let half := 2 ^ (e - 1) in
  1 <= e /\ 2 ^ e = 2 * half /\ 0 < half /\ a = 2 ^ e * q + r
  /\ 0 <= r < 2 ^ e /\ 2 ^ 52 <= q < 2 ^ 53
  /\ round_to_double a
     = (if r <? half then q
        else if half <? r then q + 1
        else if Z.even q then q else q + 1) * 2 ^ e.
Proof.
  intros Ha. cbv zeta.
  assert (Hpos : 0 < a) by lia.
  assert (Hlog : 53 <= Z.log2 a).
  { rewrite <- (Z.log2_pow2 53) by lia. apply Z.log2_le_mono. exact Ha. }
  destruct (Z.log2_spec a Hpos) as [Hlow Hup].
  set (e := Z.log2 a - 52) in *.
  assert (He : 1 <= e) by lia.
  assert (H2e : 2 ^ e = 2 * 2 ^ (e - 1)).
  { rewrite <- (Z.pow_succ_r 2 (e - 1)) by lia. f_equal. lia. }
  assert (Hhalf : 0 < 2 ^ (e - 1)) by (apply Z.pow_pos_nonneg; lia).
  assert (Hlow' : 2 ^ Z.log2 a = 2 ^ 52 * 2 ^ e).
  { rewrite <- Z.pow_add_r by lia. f_equal. lia. }
  assert (Hup' : 2 ^ Z.succ (Z.log2 a) = 2 ^ 53 * 2 ^ e).
  { rewrite <- Z.pow_add_r by lia. f_equal. lia. }
  split; [exact He |]. split; [exact H2e |]. split; [exact Hhalf |].
  split; [apply Z.div_mod; lia |].
  split; [apply Z.mod_pos_bound; lia |].
  split.
  { split.
    - apply Z.div_le_lower_bound; lia.
    - apply Z.div_lt_upper_bound; lia. }
  unfold round_to_double.
  destruct (Z.ltb_spec a (2 ^ 53)) as [Hlt | _]; [lia |].
  fold e.
  rewrite Z.shiftr_div_pow2, Z.land_ones, Z.shiftl_1_l, Z.shiftl_mul_pow2 by lia.
  reflexivity.
Qed.

(** Rounding moves a value by at most half of the spacing of doubles at its
    magnitude. *)
Lemma round_to_double_error (a : Z) :
  2 ^ 53 <= a -> Z.abs (round_to_double a - a) <= 2 ^ (Z.log2 a - 53).
Proof.
  intros Ha.
  destruct (round_to_double_parts a Ha)
    as (He & H2e & Hhalf & Hsplit & Hr & Hq & ->).
  replace (Z.log2 a - 53) with (Z.log2 a - 52 - 1) by lia.
  set (e := Z.log2 a - 52) in *. set (q := a / 2 ^ e) in *.
  set (r := a mod 2 ^ e) in *. set (half := 2 ^ (e - 1)) in *.
  destruct (Z.ltb_spec r half); [nia |].
  destruct (Z.ltb_spec half r); [nia |].
  destruct (Z.even q); nia.
Qed.

Lemma round_to_double_lower (a : Z) :
  2 ^ 53 <= a -> 2 ^ Z.log2 a <= round_to_double a.
Proof.
  intros Ha.
  destruct (round_to_double_parts a Ha)
    as (He & H2e & Hhalf & Hsplit & Hr & Hq & ->).
  set (e := Z.log2 a - 52) in *. set (q := a / 2 ^ e) in *.
  set (r := a mod 2 ^ e) in *. set (half := 2 ^ (e - 1)) in *.
  assert (Hlow : 2 ^ Z.log2 a = 2 ^ 52 * 2 ^ e).
  { rewrite <- Z.pow_add_r by lia. f_equal. lia. }
  rewrite Hlow.
  apply Z.mul_le_mono_nonneg_r; [lia |].
  destruct (Z.ltb_spec r half); [lia |].
  destruct (Z.ltb_spec half r); [lia |].
  destruct (Z.even q); lia.
Qed.

(** Rounding keeps the order. *)
Lemma round_to_double_monotone (a b : Z) :
  0 <= a <= b -> round_to_double a <= round_to_double b.
Proof.
  intros [Ha Hab].
  destruct (Z.lt_ge_cases b (2 ^ 53)) as [Hb | Hb].
  { rewrite !round_to_double_exact by lia. exact Hab. }
  destruct (Z.lt_ge_cases a (2 ^ 53)) as [Ha' | Ha'].
  { rewrite (round_to_double_exact a) by exact Ha'.
    pose proof (round_to_double_lower b Hb) as Hlow.
    assert (2 ^ 53 <= 2 ^ Z.log2 b); [| lia].
    apply Z.pow_le_mono_r; [lia |].
    rewrite <- (Z.log2_pow2 53) by lia. now apply Z.log2_le_mono. }
  destruct (Z.lt_ge_cases (Z.log2 a) (Z.log2 b)) as [Hlog | Hlog].
  { pose proof (round_to_double_bound a Ha') as Hup.
    pose proof (round_to_double_lower b Hb) as Hlow.
    assert (2 ^ (Z.log2 a + 1) <= 2 ^ Z.log2 b); [| lia].
    apply Z.pow_le_mono_r; lia. }
  assert (Hsame : Z.log2 a = Z.log2 b).
  { pose proof (Z.log2_le_mono a b Hab). lia. }
  destruct (round_to_double_parts a Ha')
    as (He & H2e & Hhalf & Hsplit & Hr & Hq & ->).
  destruct (round_to_double_parts b Hb)
    as (_ & _ & _ & Hsplit' & Hr' & Hq' & ->).
  rewrite <- Hsame in *.
  set (e := Z.log2 a - 52) in *.
  set (q := a / 2 ^ e) in *. set (r := a mod 2 ^ e) in *.
  set (q' := b / 2 ^ e) in *. set (r' := b mod 2 ^ e) in *.
  set (half := 2 ^ (e - 1)) in *.
  apply Z.mul_le_mono_nonneg_r; [lia |].
  assert (Hqq : q <= q') by (apply Z.div_le_mono; lia).
  destruct (Z.eq_dec q q') as [Heq | Hne].
  - assert (Hrr : r <= r') by nia. rewrite <- Heq.
    destruct (Z.ltb_spec r half), (Z.ltb_spec r' half),
      (Z.ltb_spec half r), (Z.ltb_spec half r'), (Z.even q); lia.
  - destruct (Z.ltb_spec r half), (Z.ltb_spec r' half),
      (Z.ltb_spec half r), (Z.ltb_spec half r'), (Z.even q), (Z.even q'); lia.
Qed.

(** For the timestamps the bus can carry (int64), [Number(raw)] is an
    integer no further than 512 from [raw], with the sign of [raw], and
    narrowing never inverts the order of two timestamps. *)
Lemma Number_of_BigInt_close_and_monotone (b b' : Z) :
  - 2 ^ 63 <= b <= b' ->
  b' < 2 ^ 63 ->
  exists z z',
    Number_of_BigInt b = Int z
    /\ Number_of_BigInt b' = Int z'
    /\ Z.abs (z - b) <= 512
    /\ Z.sgn z = Z.sgn b
    /\ z <= z'.
Proof.
  intros Hb Hb'.
  assert (Hbig : 2 ^ 63 < 2 ^ 1024) by (apply Z.pow_lt_mono_r; lia).
  assert (Hfinite : forall c, - 2 ^ 63 <= c < 2 ^ 63 ->
            Number_of_BigInt c = Int (Z.sgn c * round_to_double (Z.abs c))).
  { intros c Hc. destruct (Number_of_BigInt_int64 c Hc) as (z & Hz & Hrange).
    unfold Number_of_BigInt in *.
    destruct (2 ^ 1024 <=? round_to_double (Z.abs c)); [discriminate Hz |].
    reflexivity. }
  assert (Herror : forall c, 0 <= c <= 2 ^ 63 ->
            Z.abs (round_to_double c - c) <= 512 /\ (0 < c -> 0 < round_to_double c)).
  { intros c Hc. destruct (Z.lt_ge_cases c (2 ^ 53)) as [Hs | Hl].
    - rewrite round_to_double_exact by exact Hs. lia.
    - pose proof (round_to_double_lower c Hl) as Hlow.
      assert (0 < 2 ^ Z.log2 c) by (apply Z.pow_pos_nonneg; [lia | apply Z.log2_nonneg]).
      split; [| lia].
      destruct (Z.eq_dec c (2 ^ 63)) as [-> | Hne]; [vm_compute; discriminate |].
      etransitivity; [apply round_to_double_error; exact Hl |].
      change 512 with (2 ^ 9). apply Z.pow_le_mono_r; [lia |].
      assert (Z.log2 c < 63); [apply Z.log2_lt_pow2; lia | lia]. }
  rewrite (Hfinite b), (Hfinite b') by lia.
  do 2 eexists. split; [reflexivity |]. split; [reflexivity |].
  destruct (Herror (Z.abs b)) as [Hclose Hpos]; [lia |].
  destruct (Herror (Z.abs b')) as [_ Hpos']; [lia |].
  pose proof (round_to_double_nonneg (Z.abs b)) as Hnn.
  pose proof (round_to_double_nonneg (Z.abs b')) as Hnn'.
  split; [| split].
  - destruct (Z.sgn_spec b) as [[? ->] | [[? ->] | [? ->]]]; lia.
  - destruct (Z.sgn_spec b) as [[? Hs] | [[? Hs] | [? Hs]]]; rewrite Hs.
    + rewrite Z.mul_1_l. apply Z.sgn_pos. apply Hpos. lia.
    + subst b. reflexivity.
    + assert (0 < round_to_double (Z.abs b)) by (apply Hpos; lia).
      apply Z.sgn_neg. lia.
  - destruct (Z.sgn_spec b) as [[? Hs] | [[? Hs] | [? Hs]]];
      destruct (Z.sgn_spec b') as [[? Hs'] | [[? Hs'] | [? Hs']]];
      rewrite Hs, Hs'; try lia.
    + pose proof (round_to_double_monotone (Z.abs b) (Z.abs b')). lia.
    + pose proof (round_to_double_monotone (Z.abs b') (Z.abs b)). lia.
Qed.


End Narrowing_further.

(* --------------------------------------------------------------------- *)
(** *** Further properties of the health check *)
(* --------------------------------------------------------------------- *)

Section Health_check_further.
Import Js Client.
Variable classify : string -> BaseConversation.ConversationType.

Lemma prefix_spec (p s : string) :
  String.prefix p s = true <-> exists post, s = p ++ post.
Proof.
  revert s. induction p as [| a p IH]; intros s.
  - split; [intros _; now exists s | intros _; now destruct s].
  - destruct s as [| b s].
    + split; [discriminate | intros [post [=]]].
    + change (String.prefix (String a p) (String b s))
        with (if ascii_dec a b then String.prefix p s else false).
      destruct (ascii_dec a b) as [<- | Hne].
      * rewrite IH. split; intros [post Hpost]; exists post.
        -- cbn. now rewrite Hpost.
        -- now injection Hpost.
      * split; [discriminate | intros [post [= Hab _]]; congruence].
Qed.

(** [includes] is the substring test. *)
Lemma includes_spec (hay needle : string) :
  includes hay needle = true <-> exists pre post, hay = pre ++ needle ++ post.
Proof.
  induction hay as [| c hay IH].
  - cbn [includes]. rewrite orb_false_r, prefix_spec. split.
    + intros [post Hpost]. exists "", post. exact Hpost.
    + intros [pre [post Hpost]]. destruct pre; [| discriminate Hpost].
      now exists post.
  - cbn [includes]. rewrite orb_true_iff, prefix_spec, IH. split.
    + intros [[post Hpost] | [pre [post Hpost]]].
      * exists "", post. exact Hpost.
      * exists (String c pre), post. cbn. now rewrite Hpost.
    + intros [pre [post Hpost]]. destruct pre as [| c' pre].
      * left. now exists post.
      * right. injection Hpost as _ Hpost. now exists pre, post.
Qed.

(** X4. A failure whose reply body starts with a text is taken for the
    benign one exactly when that text contains the name of the exception
    somewhere: before it, after it and behind the first body element
    anything may stand. *)
Theorem allowlist_is_substring_of_first_text (fields reply_fields : list (string * JsVal))
    (text : string) (rest : list JsVal) :
  lookup_named (JObj fields) "reply" = JObj reply_fields ->
  lookup_named (JObj reply_fields) "body" = JArr (JStr text :: rest) ->
  exists b,
    allowlisted (JObj fields) = Normal (JBool b)
    /\ (b = true <->
        exists pre post,
          text = pre ++ UnauthenticatedQuoteException ++ post).
Proof.
  intros Hreply Hbody.
  exists (includes text UnauthenticatedQuoteException). split.
  - unfold allowlisted, get_named, get_index. cbn [nullish].
    cbv beta delta [mbind mret completion_bind completion_ret bind] iota.
    rewrite Hreply. cbn [nullish]. rewrite Hbody. reflexivity.
  - apply includes_spec.
Qed.

(** X5. Testing the error throws, instead of choosing a branch, exactly when
    the error is null or undefined, or has a reply whose body is null or
    undefined, or has a reply whose first body element is neither missing
    nor a string nor an array. The callback then ends there: no log, no
    teardown, no event; the timer keeps running. *)
Theorem malformed_error_ends_callback (st : t) (e : JsVal) (n : nat) :
  ((exists err, allowlisted e = Throw err)
   <-> nullish e = true
       \/ (nullish e = false
           /\ nullish (lookup_named e "reply") = false
           /\ (nullish (lookup_named (lookup_named e "reply") "body") = true
               \/ match lookup_index
                          (lookup_named (lookup_named e "reply") "body") 0 with
                  | JUndefined | JNull | JStr _ | JArr _ => False
                  | _ => True
                  end)))
  /\ (in_flight st = S n ->
      (exists err, allowlisted e = Throw err) ->
      step classify st (settled (Throw e)) = with_in_flight n st).
Proof.
  split.
  - unfold allowlisted, get_named, get_index.
    cbv beta delta [mbind mret completion_bind completion_ret bind] iota.
    destruct (nullish e) eqn:He.
    { split; [intros _; now left | intros _; now eexists]. }
    destruct (nullish (lookup_named e "reply")) eqn:Hr.
    { split; [intros [err [=]] | intros [[=] | (_ & [=] & _)]]. }
    destruct (nullish (lookup_named (lookup_named e "reply") "body")) eqn:Hb.
    { split; [intros _; right; auto | intros _; now eexists]. }
    destruct (lookup_index (lookup_named (lookup_named e "reply") "body") 0);
      cbn;
      (split;
       [ first [ intros [err Herr]; discriminate Herr
               | intros _; right; split; [reflexivity |];
                 split; [reflexivity |]; right; exact I ]
       | first [ intros _; now eexists
               | intros [[=] | (_ & _ & [[=] | []])] ] ]).
  - intros Hin [err Herr]. cbn [step]. rewrite Hin.
    unfold connectionCheck. exec. rewrite Herr. reflexivity.
Qed.

End Health_check_further.

(* --------------------------------------------------------------------- *)
(** *** Further properties of the event loop *)
(* --------------------------------------------------------------------- *)

Section Event_loop_further.
Import Js Client Events.
Variable classify : string -> BaseConversation.ConversationType.

Lemma emitted_app (a b : list effect) :
  emitted (a ++ b) = (emitted a ++ emitted b)%list.
Proof. unfold emitted. apply omap_app. Qed.

Lemma on_error_run (e : JsVal) (st : t) :
  nullish (settings st) = false ->
  on_error e st
  = (with_trace
       (fun tr => (tr ++ (if truthy (lookup_named (settings st) "debug")
                          then [debugLog (Error_line e)] else [])
                     ++ [emit "error" (error_payload e)])%list) st,
     Normal tt).
Proof.
  intros Hs. unfold on_error. exec. rewrite Hs. cbn.
  destruct (truthy (lookup_named (settings st) "debug")); cbn;
    f_equal; apply t_eq; fields; rewrite <- ?app_assoc; reflexivity.
Qed.

Lemma remembered_session (k : string) (st : t) :
  session_state (remembered classify k st) = session_state st.
Proof. unfold remembered. now destruct (cache st !! k). Qed.

Lemma session_state_heard (st st' : t) :
  session_state st' = session_state st ->
  heard st' = heard st /\ ticking st' = ticking st.
Proof.
  unfold session_state, heard, ticking.
  intros [= _ Hrun Hlisten _ Hintervals Hinterfaces _].
  now rewrite Hrun, Hlisten, Hintervals, Hinterfaces.
Qed.

(** A signal that reaches its listener adds log lines and one event, and
    leaves the session as it was. *)
Lemma step_signal (st : t) (i : input) :
  is_signal i = true ->
  heard st = true ->
  nullish (settings st) = false ->
  exists logs ev p,
    event_of i = Some ev
    /\ trace (step classify st i) = (trace st ++ logs ++ [emit ev p])%list
    /\ emitted logs = []
    /\ probes logs = 0%nat
    /\ (forall e, i = error e -> p = error_payload e)
    /\ session_state (step classify st i) = session_state st.
Proof.
  intros Hi Hl Hs.
  destruct i as [| r | ts a g c att | ts s g m x | e]; try discriminate Hi;
    cbn [step]; rewrite Hl.
  - rewrite on_MessageReceived_run by exact Hs. cbn [fst].
    match goal with
    | |- context [remembered classify ?k ?s] =>
        change (session_state (with_trace ?f (remembered classify k s)))
          with (session_state (remembered classify k s));
        rewrite (remembered_session k s);
        cbn [trace with_trace];
        destruct (remembered_frame classify k s) as (_ & _ & _ & ->)
    end.
    cbn [trace with_trace]. rewrite <- app_assoc.
    do 3 eexists. split; [reflexivity |]. split; [reflexivity |].
    destruct (truthy (lookup_named (settings st) "debug"));
      repeat split; discriminate.
  - rewrite on_MessageReceivedV2_run. cbn [fst].
    match goal with
    | |- context [remembered classify ?k ?s] =>
        change (session_state (with_trace ?f (remembered classify k s)))
          with (session_state (remembered classify k s));
        rewrite (remembered_session k s);
        cbn [trace with_trace];
        destruct (remembered_frame classify k s) as (_ & _ & _ & ->)
    end.
    cbn [trace with_trace]. rewrite <- app_assoc.
    do 3 eexists. split; [reflexivity |]. split; [reflexivity |].
    repeat split; discriminate.
  - rewrite on_error_run by exact Hs. cbn [fst trace with_trace].
    do 3 eexists. split; [reflexivity |]. split; [reflexivity |].
    destruct (truthy (lookup_named (settings st) "debug"));
      repeat split; try reflexivity; intros ? [= ->]; reflexivity.
Qed.

(** X6. The timestamps handed to the application keep the order of the raw
    ones: for two message signals, legacy or v2, that carry int64
    timestamps [raw <= raw'], the messages delivered carry integers
    [z <= z'], each no further than 512 from the raw timestamp and of its
    sign. *)
Theorem timestamps_keep_order (st st' : t) (i i' : input) (raw raw' : Z) :
  nullish (settings st) = false -> heard st = true ->
  nullish (settings st') = false -> heard st' = true ->
  raw_timestamp i = Some raw -> raw_timestamp i' = Some raw' ->
  - 2 ^ 63 <= raw <= raw' -> raw' < 2 ^ 63 ->
  exists p p' z z',
    delivered classify st i = Some p
    /\ delivered classify st' i' = Some p'
    /\ timestamp_of p = Some (JNum (Int z))
    /\ timestamp_of p' = Some (JNum (Int z'))
    /\ Z.abs (z - raw) <= 512
    /\ Z.sgn z = Z.sgn raw
    /\ Z.abs (z' - raw') <= 512
    /\ z <= z'.
Proof.
  intros Hs Hl Hs' Hl' Hraw Hraw' Hle Hlt.
  assert (Hi : forall j r, raw_timestamp j = Some r ->
            exists g s, addressing j = Some (g, s))
    by (intros j r Hj; destruct j; try discriminate Hj; cbn; eauto).
  destruct (Hi i raw Hraw) as (g & s & Ha).
  destruct (Hi i' raw' Hraw') as (g' & s' & Ha').
  destruct (step_message classify st i g s Ha Hl Hs)
    as (logs & ev & p & Hstep & _ & Hts).
  destruct (delivered_message classify st i logs ev p _ Hstep) as (Hp & _).
  destruct (step_message classify st' i' g' s' Ha' Hl' Hs')
    as (logs' & ev' & p' & Hstep' & _ & Hts').
  destruct (delivered_message classify st' i' logs' ev' p' _ Hstep')
    as (Hp' & _).
  destruct (Number_of_BigInt_close_and_monotone raw raw' Hle Hlt)
    as (z & z' & Hz & Hz' & Hclose & Hsgn & Horder).
  destruct (Number_of_BigInt_close_and_monotone raw' raw' ltac:(lia) Hlt)
    as (y & y' & Hy & _ & Hclose' & _).
  assert (y = z') as -> by congruence.
  exists p, p', z, z'.
  rewrite Hts, Hts', Hraw, Hraw'. cbn [fmap option_fmap option_map].
  rewrite Hz, Hz'. repeat split; assumption.
Qed.

(** X7. Signals are answered one by one and in order: a client with
    listeners attached that receives any sequence of bus signals emits
    exactly one event per signal, of the signal's kind and in the order of
    arrival, hands every bus error on unchanged, starts no health check and
    changes neither the timers, the buses, the listeners nor the checks
    under way. *)
Theorem signals_in_order (st : t) (inputs : list input) :
  nullish (settings st) = false ->
  heard st = true ->
  Forall (fun i => is_signal i = true) inputs ->
  exists added,
    trace (run classify st inputs) = (trace st ++ added)%list
    /\ Some <$> (fst <$> emitted added) = event_of <$> inputs
    /\ (forall e, In (error e) inputs ->
          In ("error", error_payload e) (emitted added))
    /\ probes added = 0%nat
    /\ session_state (run classify st inputs) = session_state st.
Proof.
  intros Hs Hl Hall. revert st Hs Hl.
  induction Hall as [| i inputs Hi _ IH]; intros st Hs Hl.
  - exists []. cbn. rewrite app_nil_r. repeat split; auto; contradiction.
  - destruct (step_signal st i Hi Hl Hs)
      as (logs & ev & p & Hev & Htrace & Hlogs & Hprobes & Herr & Hsame).
    destruct (IH (step classify st i)) as
      (added & Htrace' & Hnames & Herrors & Hprobes' & Hsame').
    { now rewrite step_settings. }
    { destruct (session_state_heard _ _ Hsame) as [-> _]. exact Hl. }
    exists (logs ++ [emit ev p] ++ added)%list.
    change (run classify st (i :: inputs))
      with (run classify (step classify st i) inputs).
    rewrite Htrace', Htrace, Hsame', Hsame.
    rewrite <- !app_assoc.
    split; [reflexivity |].
    assert (Hem : emitted (logs ++ [emit ev p] ++ added)
                  = ((ev, p) :: emitted added)%list)
      by (now rewrite !emitted_app, Hlogs).
    rewrite Hem. split; [| split; [| split]].
    + cbn [fmap list_fmap fst]. rewrite Hev. f_equal. exact Hnames.
    + intros e [-> | Hin].
      * left. cbn in Hev. injection Hev as <-. now rewrite (Herr e eq_refl).
      * right. now apply Herrors.
    + rewrite !probes_app, Hprobes, Hprobes'. reflexivity.
    + reflexivity.
Qed.

(** Without listeners, timers and checks under way, every input is
    ignored. *)
Lemma step_inert (st : t) (i : input) :
  heard st = false -> ticking st = false ->
  in_flight st = 0%nat -> step classify st i = st.
Proof.
  intros Hl Ht Hf. destruct i; cbn [step]; now rewrite ?Hl, ?Ht, ?Hf.
Qed.

Lemma run_inert (st : t) (inputs : list input) :
  heard st = false -> ticking st = false ->
  in_flight st = 0%nat -> run classify st inputs = st.
Proof.
  intros Hl Ht Hf. induction inputs as [| i inputs IH]; [reflexivity |].
  change (run classify st (i :: inputs))
    with (run classify (step classify st i) inputs).
  now rewrite step_inert.
Qed.

(** What a settled check does to the session and hands to the application:
    nothing, or the teardown and one [disconnect]. What the client has lost
    stays as it is. *)
Lemma connectionCheck_emits (r : completion JsVal JsVal) (st : t) :
  exists added,
    trace (fst (connectionCheck r st)) = (trace st ++ added)%list
    /\ ((emitted added = []
         /\ session_state (fst (connectionCheck r st)) = session_state st)
        \/ (emitted added = [("disconnect", no_payload)]
            /\ session_state (fst (connectionCheck r st))
               = (false, false, false,
                  (lost_buses st, lost_intervals st, lost_interfaces st),
                  in_flight st))).
Proof.
  destruct r as [v | e];
    [exists []; cbn; rewrite app_nil_r; auto |].
  unfold connectionCheck. exec.
  destruct (allowlisted e) as [v | err]; cbn;
    [| exists []; rewrite app_nil_r; auto].
  destruct (truthy v); destruct (nullish (settings st)); cbn;
    try (exists []; rewrite app_nil_r; auto; fail);
    destruct (truthy (lookup_named (settings st) "debug")); cbn;
    rewrite <- ?app_assoc;
    try (exists []; rewrite app_nil_r; auto; fail);
    eexists; (split; [reflexivity |]); cbn; auto.
Qed.

(** One turn of the loop never changes what the client has lost. *)
Lemma step_lost (st : t) (i : input) :
  lost_buses (step classify st i) = lost_buses st
  /\ lost_intervals (step classify st i) = lost_intervals st
  /\ lost_interfaces (step classify st i) = lost_interfaces st.
Proof.
  destruct i as [| r | ts a g c att | ts s g m x | e]; cbn [step].
  - now destruct (ticking st).
  - destruct (in_flight st) as [| n]; [auto |].
    destruct (connectionCheck_emits r (with_in_flight n st))
      as (added & _ & [[_ [= _ _ _ -> -> -> _]] | [_ [= _ _ _ -> -> -> _]]]);
      auto.
  - destruct (heard st) eqn:Hl; [| auto].
    destruct (nullish (settings st)) eqn:Hs.
    + now rewrite on_MessageReceived_throws.
    + destruct (step_signal st (MessageReceived ts a g c att) eq_refl Hl Hs)
        as (_ & _ & _ & _ & _ & _ & _ & _ & Hsame).
      cbn [step] in Hsame. rewrite Hl in Hsame.
      now injection Hsame as _ _ _ -> -> -> _.
  - destruct (heard st) eqn:Hl; [| auto].
    rewrite on_MessageReceivedV2_run. fields.
    match goal with
    | |- context [remembered classify ?k ?s] =>
        pose proof (remembered_session k s) as Hsame
    end.
    injection Hsame as _ _ _ H1 H2 H3 _. rewrite H1, H2, H3. auto.
  - destruct (heard st) eqn:Hl; [| auto].
    unfold on_error. exec.
    destruct (nullish (settings st)); cbn; [auto |].
    now destruct (truthy (lookup_named (settings st) "debug")).
Qed.

Lemma run_lost (st : t) (inputs : list input) :
  lost_buses (run classify st inputs) = lost_buses st
  /\ lost_intervals (run classify st inputs) = lost_intervals st
  /\ lost_interfaces (run classify st inputs) = lost_interfaces st.
Proof.
  revert st. induction inputs as [| i inputs IH]; intros st; [auto |].
  change (run classify st (i :: inputs))
    with (run classify (step classify st i) inputs).
  destruct (IH (step classify st i)) as (-> & -> & ->). apply step_lost.
Qed.

(** X8. After the teardown of a client that has lost nothing, nothing but a
    further [disconnect] can reach the application, and no health check is
    started, whatever arrives; when no other check was under way, the
    client ignores every input from then on: it has to be connected
    again. *)
Theorem silent_after_teardown (st : t) (inputs : list input) :
  heard st = false ->
  ticking st = false ->
  (exists added,
     trace (run classify st inputs) = (trace st ++ added)%list
     /\ (forall ev p, In (ev, p) (emitted added) ->
           ev = "disconnect" /\ p = no_payload)
     /\ probes added = 0%nat
     /\ heard (run classify st inputs) = false
     /\ ticking (run classify st inputs) = false)
  /\ (in_flight st = 0%nat -> run classify st inputs = st).
Proof.
  intros Hl Ht. split; [| now apply run_inert].
  revert st Hl Ht. induction inputs as [| i inputs IH]; intros st Hl Ht.
  - exists []. cbn. rewrite app_nil_r. repeat split; auto; contradiction.
  - assert (Hstep : exists added,
              trace (step classify st i) = (trace st ++ added)%list
              /\ (emitted added = [] \/ emitted added = [("disconnect", no_payload)])
              /\ probes added = 0%nat
              /\ heard (step classify st i) = false
              /\ ticking (step classify st i) = false).
    { destruct (step_stopped classify st i Ht) as [Ht' Hprobes].
      destruct i as [| r | ts a g c att | ts s g m x | e]; cbn [step] in *;
        rewrite ?Hl, ?Ht in *;
        try (exists []; rewrite app_nil_r; auto; fail).
      destruct (in_flight st) as [| n];
        [exists []; rewrite app_nil_r; auto |].
      destruct (connectionCheck_emits r (with_in_flight n st))
        as (added & Htrace & Hem).
      exists added. rewrite Htrace in *.
      rewrite probes_app in Hprobes. cbn [trace with_in_flight] in *.
      split; [reflexivity |].
      split; [destruct Hem as [[-> _] | [-> _]]; auto |].
      split; [lia |]. split; [| exact Ht'].
      unfold heard in *. apply orb_false_iff in Hl as [Hl Hnone].
      destruct Hem as [[_ [= _ _ -> _ _ -> _]] | [_ [= _ _ -> _ _ -> _]]];
        cbn [listening lost_interfaces with_in_flight];
        rewrite ?Hl; exact Hnone. }
    destruct Hstep as (added & Htrace & Hem & Hprobes & Hl' & Ht').
    destruct (IH (step classify st i) Hl' Ht')
      as (added' & Htrace' & Hem' & Hprobes' & Hl'' & Ht'').
    exists (added ++ added')%list.
    change (run classify st (i :: inputs))
      with (run classify (step classify st i) inputs).
    rewrite Htrace', Htrace, <- app_assoc, emitted_app, probes_app.
    split; [reflexivity |]. split; [| repeat split; auto; lia].
    intros ev p Hin. apply in_app_or in Hin as [Hin | Hin];
      [| now apply Hem'].
    destruct Hem as [Hem | Hem]; rewrite Hem in Hin; cbn in Hin;
      [contradiction |].
    destruct Hin as [[= <- <-] | []]. now split.
Qed.

Lemma step_tick (st : t) :
  ticking st = true ->
  step classify st tick
  = with_in_flight (S (in_flight st))
      (with_trace (fun tr => (tr ++ [getRegistrationStatus])%list) st).
Proof. intros Ht. cbn [step]. rewrite Ht. reflexivity. Qed.

Lemma run_ticks (st : t) (n : nat) :
  ticking st = true ->
  in_flight (run classify st (repeat tick n)) = (in_flight st + n)%nat
  /\ probes (trace (run classify st (repeat tick n)))
     = (probes (trace st) + n)%nat
  /\ ticking (run classify st (repeat tick n)) = true.
Proof.
  revert st. induction n as [| n IH]; intros st Ht.
  - cbn. repeat split; auto; lia.
  - change (run classify st (repeat tick (S n)))
      with (run classify (step classify st tick) (repeat tick n)).
    rewrite step_tick by exact Ht.
    destruct (IH (with_in_flight (S (in_flight st))
                    (with_trace (fun tr => (tr ++ [getRegistrationStatus])%list)
                       st)) Ht) as (-> & -> & ->).
    fields. rewrite probes_app. cbn. repeat split; lia.
Qed.

(** X9. The timer does not wait for the check before: [n] ticks with no
    answer in between start [n] checks that are all under way at once. And
    each check that then fails on its own tears the session down again: two
    failures under way give two [disconnect] events. *)
Theorem checks_overlap (st : t) (n m : nat) (e1 e2 v1 v2 : JsVal) :
  nullish (settings st) = false ->
  (ticking st = true ->
   in_flight (run classify st (repeat tick n)) = (in_flight st + n)%nat
   /\ probes (trace (run classify st (repeat tick n)))
      = (probes (trace st) + n)%nat)
  /\ (in_flight st = S (S m) ->
      allowlisted e1 = Normal v1 -> truthy v1 = false ->
      allowlisted e2 = Normal v2 -> truthy v2 = false ->
      disconnects
        (trace (run classify st [settled (Throw e1); settled (Throw e2)]))
      = (disconnects (trace st) + 2)%nat).
Proof.
  intros Hs. split.
  - intros Ht. destruct (run_ticks st n Ht) as (H1 & H2 & _). now split.
  - intros Hin H1 Hv1 H2 Hv2. cbn [run fold_left step]. rewrite Hin.
    rewrite (connectionCheck_disconnects _ e1 v1) by assumption.
    fields.
    rewrite (connectionCheck_disconnects _ e2 v2) by assumption.
    fields. rewrite !disconnects_app.
    destruct (truthy (lookup_named (settings st) "debug")); cbn; lia.
Qed.

(** X10. A timer the client has lost is never stopped: whatever the client
    handles, a teardown included, what it has lost stays lost and running,
    each tick starts a health check, and each check that fails with no
    match tears the session down and emits [disconnect] once more. *)
Theorem lost_timer_keeps_probing (st : t) (inputs : list input) :
  lost_intervals st <> 0%nat ->
  lost_intervals (run classify st inputs) = lost_intervals st
  /\ ticking (run classify st inputs) = true
  /\ probes (trace (step classify (run classify st inputs) tick))
     = S (probes (trace (run classify st inputs)))
  /\ in_flight (step classify (run classify st inputs) tick)
     = S (in_flight (run classify st inputs))
  /\ (forall e v,
        nullish (settings st) = false ->
        allowlisted e = Normal v -> truthy v = false ->
        disconnects
          (trace (run classify (run classify st inputs)
                    [tick; settled (Throw e)]))
        = S (disconnects (trace (run classify st inputs)))).
Proof.
  intros Hlost.
  destruct (run_lost st inputs) as (_ & Hkeep & _).
  assert (Ht : ticking (run classify st inputs) = true).
  { unfold ticking. rewrite Hkeep.
    destruct (lost_intervals st); [contradiction |]. apply orb_true_r. }
  split; [exact Hkeep |]. split; [exact Ht |].
  split; [| split].
  { rewrite step_tick by exact Ht. fields. rewrite probes_app. cbn. lia. }
  { rewrite step_tick by exact Ht. reflexivity. }
  intros e v Hs Hv Hfalsy.
  change (run classify (run classify st inputs) [tick; settled (Throw e)])
    with (step classify (step classify (run classify st inputs) tick)
            (settled (Throw e))).
  rewrite step_tick by exact Ht. cbn [step in_flight with_in_flight].
  rewrite (connectionCheck_disconnects _ e v);
    [| fields; now rewrite run_settings | exact Hv | exact Hfalsy].
  fields. rewrite !disconnects_app.
  destruct (truthy (lookup_named (settings (run classify st inputs)) "debug"));
    cbn; lia.
Qed.

End Event_loop_further.

(* --------------------------------------------------------------------- *)
(** *** Further properties of the constructor and of [connect] *)
(* --------------------------------------------------------------------- *)

Section Connect_further.
Import Js Client Events.
Variable deepMerge : JsVal -> JsVal -> JsVal.
Variable defaultClientSettings : JsVal.
Variable classify : string -> BaseConversation.ConversationType.

Local Abbreviation merged := (Client.merged deepMerge defaultClientSettings).
Local Abbreviation constructor :=
  (Client.constructor deepMerge defaultClientSettings).
Local Abbreviation session := (Client.session deepMerge defaultClientSettings).

(** X11. The constructor reports the first check that fails, in the order
    interval, destination, bus type, phone number: a later fault is not
    looked at. Settings without a [dbus] object are refused for their
    interval (the optional chaining yields undefined), and the error for an
    unknown bus type shows the destination, as the one for a bad destination
    does. *)
Theorem constructor_reports_first_failure (settings : JsVal) :
  nullish (merged settings) = false ->
  (typeof (setting_interval (merged settings)) <> "number" ->
   constructor settings
   = Throw (TypeError (Bad_connectionCheckInterval
                         (setting_interval (merged settings)))))
  /\ (nullish (lookup_named (merged settings) "dbus") = true ->
      constructor settings
      = Throw (TypeError (Bad_connectionCheckInterval JUndefined)))
  /\ (typeof (setting_interval (merged settings)) = "number" ->
      (typeof (setting_destination (merged settings)) <> "string" ->
       constructor settings
       = Throw (TypeError (Bad_destination
                             (setting_destination (merged settings)))))
      /\ (typeof (setting_destination (merged settings)) = "string" ->
          (setting_type (merged settings) <> JStr "system" ->
           setting_type (merged settings) <> JStr "session" ->
           constructor settings
           = Throw (TypeError (Bad_type
                                 (setting_destination (merged settings)))))
          /\ (setting_type (merged settings) = JStr "system"
              \/ setting_type (merged settings) = JStr "session" ->
              (nullish (setting_phoneNumber (merged settings)) = true ->
               constructor settings
               = Throw (TypeError (Bad_phoneNumber_missing
                                     (setting_phoneNumber (merged settings)))))
              /\ (leading_plus (setting_phoneNumber (merged settings)) ->
                  constructor settings
                  = Throw (TypeError Bad_phoneNumber_plus))))).
Proof.
  intros Hs. rewrite (constructor_unfold _ _ _ Hs). cbv zeta.
  assert (Hno : forall v name, typeof v <> name ->
            negb (String.eqb (typeof v) name) = true)
    by (intros; now apply typeof_test).
  assert (Hyes : forall v name, typeof v = name ->
            negb (String.eqb (typeof v) name) = false)
    by (intros v name Hv; apply negb_false_iff, String.eqb_eq, Hv).
  split; [intros H; now rewrite (Hno _ _ H) |].
  split.
  { intros Hd. unfold setting_interval, opt_named. rewrite Hd. reflexivity. }
  intros Hi. rewrite (Hyes _ _ Hi).
  split; [intros H; now rewrite (Hno _ _ H) |].
  intros Hdest. rewrite (Hyes _ _ Hdest).
  split.
  { intros H1 H2.
    now rewrite (proj2 (known_type_test (setting_type (merged settings)))). }
  intros Htype.
  assert (Hknown : negb (existsb (fun known => is_str known
                                      (setting_type (merged settings)))
                           ["system"; "session"]) = false).
  { apply not_true_is_false. intros H. apply known_type_test in H.
    destruct H, Htype; contradiction. }
  rewrite Hknown.
  split; [intros H; now rewrite H |].
  intros Hplus.
  assert (Hnn : nullish (setting_phoneNumber (merged settings)) = false)
    by (destruct Hplus as [rest ->]; reflexivity).
  rewrite Hnn. now rewrite (proj2 (leading_plus_test _) Hplus).
Qed.

(** What the constructor returns when it returns. *)
Lemma constructor_returns (settings : JsVal) (this : t) :
  constructor settings = Normal this ->
  this = created (merged settings)
  /\ nullish (merged settings) = false
  /\ nullish (lookup_named (merged settings) "dbus") = false
  /\ ~ refused_by_constructor (merged settings).
Proof.
  intros Hthis.
  destruct (nullish (merged settings)) eqn:Hs.
  { rewrite constructor_nullish in Hthis by exact Hs. discriminate Hthis. }
  rewrite (constructor_unfold _ _ _ Hs) in Hthis. cbv zeta in Hthis.
  destruct (negb (String.eqb (typeof (setting_interval (merged settings)))
                    "number")) eqn:H1; [discriminate Hthis |].
  destruct (negb (String.eqb (typeof (setting_destination (merged settings)))
                    "string")) eqn:H2; [discriminate Hthis |].
  destruct (negb (existsb (fun known => is_str known
                              (setting_type (merged settings)))
                    ["system"; "session"])) eqn:H3; [discriminate Hthis |].
  destruct (nullish (setting_phoneNumber (merged settings))) eqn:H4;
    [discriminate Hthis |].
  match type of Hthis with
  | (if ?b then _ else _) = _ => destruct b eqn:H5; [discriminate Hthis |]
  end.
  injection Hthis as <-. split; [reflexivity |]. split; [reflexivity |].
  split.
  - apply negb_false_iff, String.eqb_eq in H1.
    unfold setting_interval, opt_named in H1.
    destruct (nullish (lookup_named (merged settings) "dbus"));
      [discriminate H1 | reflexivity].
  - intros [H | [H | [H | [H | H]]]].
    + apply typeof_test in H. congruence.
    + apply typeof_test in H. congruence.
    + apply known_type_test in H. congruence.
    + congruence.
    + apply leading_plus_test in H. congruence.
Qed.

Lemma constructor_accepts (settings : JsVal) :
  nullish (merged settings) = false ->
  ~ refused_by_constructor (merged settings) ->
  exists this, constructor settings = Normal this.
Proof.
  intros Hs Hok. rewrite (constructor_unfold _ _ _ Hs). cbv zeta.
  repeat match goal with
         | |- context [if ?b then Throw _ else _] =>
             destruct b eqn:?; [exfalso; apply Hok |]
         end; [.. | eauto].
  - left. now apply typeof_test.
  - right; left. now apply typeof_test.
  - right; right; left. now apply known_type_test.
  - right; right; right; left. assumption.
  - right; right; right; right. now apply leading_plus_test.
Qed.

Lemma connect_run (proxy : completion JsVal unit) (st : t) :
  nullish (settings st) = false ->
  nullish (lookup_named (settings st) "dbus") = false ->
  connect proxy st
  = match proxy with
    | Normal _ =>
        (with_trace
           (fun tr => (tr ++ connecting (settings st)
                          ++ attaching (settings st))%list)
           (with_session true true true
              (with_lost (Nat.b2n (bus_connected st) + lost_buses st)
                 (Nat.b2n (interval_running st) + lost_intervals st)
                 (Nat.b2n (listening st) + lost_interfaces st) st)),
         Normal tt)
    | Throw reason =>
        (with_trace (fun tr => (tr ++ connecting (settings st))%list)
           (with_session true (interval_running st) (listening st)
              (with_lost (Nat.b2n (bus_connected st) + lost_buses st)
                 (lost_intervals st) (lost_interfaces st) st)),
         Throw (Rejected reason))
    end.
Proof.
  intros Hs Hd.
  unfold connecting, attaching, setting_type, setting_destination,
    setting_interval, setting_phoneNumber, opt_named. rewrite Hd.
  unfold connect.
  destruct proxy as [[] | reason]; exec; rewrite Hs; cbn; rewrite Hd; cbn;
    f_equal; apply t_eq; fields; rewrite <- ?app_assoc; reflexivity.
Qed.

(** X12. Creating a client and connecting it gives a session exactly when
    the constructor accepts the settings and the transport resolves the
    proxy. The session then has done, in this order and nothing else: open
    the session bus when [dbus.type] is ["session"] and the system bus
    otherwise, ask for the proxy of the destination at the path of the
    phone number, take the interface, start the timer with the configured
    interval, attach the listeners for [error], [MessageReceivedV2] and
    [MessageReceived], and patch the signature of [sendMessage]; nothing is
    cached and no check is under way. *)
Theorem session_established (settings : JsVal)
    (proxy : completion JsVal unit) :
  ((exists st, session settings proxy = Some st)
   <-> nullish (merged settings) = false
       /\ ~ refused_by_constructor (merged settings)
       /\ exists u, proxy = Normal u)
  /\ (forall st,
        session settings proxy = Some st ->
        st = with_trace
               (fun _ => (connecting (merged settings)
                          ++ attaching (merged settings))%list)
               (with_session true true true (created (merged settings)))
        /\ trace st
           = [if is_str "session" (setting_type (merged settings))
              then sessionBus else systemBus;
              getProxyObject (setting_destination (merged settings))
                (setting_phoneNumber (merged settings));
              getInterface "org.asamk.Signal";
              setInterval (setting_interval (merged settings));
              on "error"; on "MessageReceivedV2"; on "MessageReceived";
              set_inSignature "sendMessage" "sasas"]
        /\ (is_str "session" (setting_type (merged settings)) = false
            <-> setting_type (merged settings) = JStr "system")).
Proof.
  unfold Client.session. split; [split |].
  - intros [st Hst].
    destruct (constructor settings) as [this | err] eqn:Hthis;
      [| discriminate Hst].
    destruct (constructor_returns settings this Hthis) as (-> & Hs & Hd & Hok).
    rewrite connect_run in Hst by assumption.
    destruct proxy as [u | reason]; [| discriminate Hst]. eauto.
  - intros (Hs & Hok & u & ->).
    destruct (constructor_accepts settings Hs Hok) as [this Hthis].
    rewrite Hthis.
    destruct (constructor_returns settings this Hthis) as (-> & _ & Hd & _).
    rewrite connect_run by assumption. eauto.
  - intros st Hst.
    destruct (constructor settings) as [this | err] eqn:Hthis;
      [| discriminate Hst].
    destruct (constructor_returns settings this Hthis) as (-> & Hs & Hd & Hok).
    rewrite connect_run in Hst by assumption.
    destruct proxy as [u | reason]; [| discriminate Hst].
    injection Hst as <-. split; [reflexivity |]. split; [reflexivity |].
    cbn [Client.settings created].
    split.
    + intros Hnot.
      destruct (is_str "system" (setting_type (merged settings))) eqn:Hsys;
        [now apply is_str_spec |].
      exfalso. apply Hok. right; right; left.
      split; intros Heq; apply is_str_spec in Heq; congruence.
    + intros ->. reflexivity.
Qed.

(** X13. When the transport rejects the request for the proxy, [connect]
    rejects with the transport's reason. By then the bus has been opened,
    and it is not closed again; no timer is started and no listener is
    attached, so the client ignores every input. *)
Theorem connect_rejected (settings : JsVal) (this : t) (reason : JsVal)
    (inputs : list input) :
  constructor settings = Normal this ->
  snd (connect (Throw reason) this) = Throw (Rejected reason)
  /\ trace (fst (connect (Throw reason) this))
     = [if is_str "session" (setting_type (merged settings))
        then sessionBus else systemBus;
        getProxyObject (setting_destination (merged settings))
          (setting_phoneNumber (merged settings))]
  /\ bus_connected (fst (connect (Throw reason) this)) = true
  /\ ticking (fst (connect (Throw reason) this)) = false
  /\ heard (fst (connect (Throw reason) this)) = false
  /\ run classify (fst (connect (Throw reason) this)) inputs
     = fst (connect (Throw reason) this).
Proof.
  intros Hthis.
  destruct (constructor_returns settings this Hthis) as (-> & Hs & Hd & _).
  rewrite connect_run by assumption. cbn [fst snd].
  repeat split. now apply run_inert.
Qed.

(** X14. Connecting a client once more assigns a new bus, a new interface
    and a new timer over the ones it referred to, which are lost in the
    state they are in. After a teardown they are closed, detached and
    stopped, and nothing is lost: the client is connected as before. While
    the timer runs it is lost running, and from then on some timer of the
    client runs whatever the client handles. *)
Theorem reconnect_loses_what_was_held (st : t) (u : unit)
    (inputs : list input) :
  nullish (settings st) = false ->
  nullish (lookup_named (settings st) "dbus") = false ->
  (bus_connected (fst (connect (Normal u) st)) = true
   /\ interval_running (fst (connect (Normal u) st)) = true
   /\ listening (fst (connect (Normal u) st)) = true)
  /\ (lost_buses (fst (connect (Normal u) st))
      = (Nat.b2n (bus_connected st) + lost_buses st)%nat
      /\ lost_intervals (fst (connect (Normal u) st))
         = (Nat.b2n (interval_running st) + lost_intervals st)%nat
      /\ lost_interfaces (fst (connect (Normal u) st))
         = (Nat.b2n (listening st) + lost_interfaces st)%nat)
  /\ (bus_connected st = false -> interval_running st = false ->
      listening st = false ->
      fst (connect (Normal u) st)
      = with_trace (fun tr => (tr ++ connecting (settings st)
                                  ++ attaching (settings st))%list)
          (with_session true true true st))
  /\ (interval_running st = true ->
      ticking (run classify (fst (connect (Normal u) st)) inputs) = true).
Proof.
  intros Hs Hd. rewrite connect_run by assumption. fields.
  split; [repeat split |]. split; [repeat split |]. split.
  - intros -> -> ->. apply t_eq; reflexivity.
  - intros Hrun. unfold ticking.
    destruct (run_lost classify
                (with_trace (fun tr => (tr ++ connecting (settings st)
                                           ++ attaching (settings st))%list)
                   (with_session true true true
                      (with_lost (Nat.b2n (bus_connected st) + lost_buses st)
                         (Nat.b2n (interval_running st) + lost_intervals st)
                         (Nat.b2n (listening st) + lost_interfaces st) st)))
                inputs) as (_ & -> & _).
    fields. rewrite Hrun. apply orb_true_r.
Qed.

End Connect_further.

(* --------------------------------------------------------------------- *)
(** *** Further properties of the conversation cache *)
(* --------------------------------------------------------------------- *)

Section Cache_further.
Import Js Client Events.
Variable deepMerge : JsVal -> JsVal -> JsVal.
Variable defaultClientSettings : JsVal.
Variable classify : string -> BaseConversation.ConversationType.

Lemma remembered_manager (k : string) (f : list effect -> list effect)
    (st : t) :
  cache (remembered classify k (with_trace f st))
  = cache (remembered classify k st)
  /\ objects (remembered classify k (with_trace f st))
     = objects (remembered classify k st).
Proof.
  unfold remembered. cbn [cache objects with_trace].
  destruct (cache st !! k); split; reflexivity.
Qed.

(** One turn of the loop leaves the manager alone, or looks up (and creates
    if need be) the conversation of the message it handles. *)
Lemma step_manager (st : t) (i : input) :
  (cache (step classify st i) = cache st
   /\ objects (step classify st i) = objects st)
  \/ exists k,
       identifiers [i] = [k]
       /\ cache (step classify st i) = cache (remembered classify k st)
       /\ objects (step classify st i) = objects (remembered classify k st).
Proof.
  destruct i as [| r | ts a g c att | ts s g m x | e]; cbn [step].
  - left. now destruct (ticking st).
  - left. destruct (in_flight st) as [| n]; [auto |].
    destruct (connectionCheck_frame r (with_in_flight n st))
      as (_ & -> & -> & _). auto.
  - destruct (heard st); [| auto].
    destruct (nullish (settings st)) eqn:Hs.
    + left. now rewrite on_MessageReceived_throws.
    + right. exists (conversationID g a). split; [reflexivity |].
      rewrite on_MessageReceived_run by exact Hs. fields.
      apply remembered_manager.
  - destruct (heard st); [| auto].
    right. exists (conversationID g s). split; [reflexivity |].
    rewrite on_MessageReceivedV2_run. fields. apply remembered_manager.
  - left. destruct (heard st); [| auto].
    destruct (on_error_frame e st) as (_ & -> & -> & _). auto.
Qed.

Lemma remembered_objects (k : string) (st : t) :
  objects (remembered classify k st) = objects st
  \/ (cache st !! k = None
      /\ objects (remembered classify k st)
         = (objects st ++ [fresh classify k])%list).
Proof.
  unfold remembered. destruct (cache st !! k); [left | right]; auto.
Qed.

Lemma remembered_dom (k : string) (st : t) :
  dom (cache (remembered classify k st)) = {[k]} ∪ dom (cache st).
Proof.
  unfold remembered. destruct (cache st !! k) eqn:Hk; cbn [cache with_manager].
  - assert (Hin : k ∈ dom (cache st)) by (apply elem_of_dom; eauto).
    apply set_eq. intros x. rewrite elem_of_union, elem_of_singleton.
    split; [auto | intros [-> | Hx]; assumption].
  - apply dom_insert_L.
Qed.

Lemma identifiers_cons (i : input) (inputs : list input) :
  identifiers (i :: inputs) = (identifiers [i] ++ identifiers inputs)%list.
Proof. unfold identifiers. cbn. now destruct (addressing i) as [[g s] |]. Qed.

(** X15. Conversations are never dropped: whatever the client handles, a
    teardown included, the conversations it holds stay what and where they
    are, new ones are only added behind them, and an identifier once cached
    stays mapped to the same conversation. *)
Theorem conversations_never_dropped (st : t) (inputs : list input) :
  (exists more,
     objects (run classify st inputs) = (objects st ++ more)%list
     /\ (length more <= length (identifiers inputs))%nat)
  /\ (forall n c, objects st !! n = Some c ->
        objects (run classify st inputs) !! n = Some c)
  /\ (forall k n, cache st !! k = Some n ->
        cache (run classify st inputs) !! k = Some n).
Proof.
  assert (Hgrow : exists more,
             objects (run classify st inputs) = (objects st ++ more)%list
             /\ (length more <= length (identifiers inputs))%nat).
  { revert st. induction inputs as [| i inputs IH]; intros st.
    - exists []. cbn. now rewrite app_nil_r.
    - change (run classify st (i :: inputs))
        with (run classify (step classify st i) inputs).
      destruct (IH (step classify st i)) as (more & -> & Hlen).
      rewrite identifiers_cons, length_app.
      destruct (step_manager st i) as [[_ ->] | (k & -> & _ & ->)].
      + exists more. split; [reflexivity | lia].
      + destruct (remembered_objects k st) as [-> | [_ ->]].
        * exists more. split; [reflexivity | cbn; lia].
        * exists (fresh classify k :: more). rewrite <- app_assoc.
          split; [reflexivity | cbn; lia]. }
  split; [exact Hgrow |]. split.
  - intros n c Hn. destruct Hgrow as (more & -> & _).
    now apply lookup_app_l_Some.
  - intros k n Hk. now apply run_cache_keeps.
Qed.

Lemma step_made_by_factory (st : t) (i : input) :
  made_by_factory classify st -> made_by_factory classify (step classify st i).
Proof.
  intros [Hfresh Hsize]. unfold made_by_factory.
  destruct (step_manager st i) as [[-> ->] | (k & _ & -> & ->)];
    [now split |].
  unfold remembered. destruct (cache st !! k) eqn:Hk; [now split |].
  cbn [cache objects with_manager]. split.
  - intros n c Hc. apply lookup_app_Some in Hc as [Hc | [_ Hc]];
      [exact (Hfresh n c Hc) |].
    destruct (n - length (objects st))%nat; [| discriminate Hc].
    now injection Hc as <-.
  - rewrite map_size_insert_None by exact Hk.
    rewrite length_app. cbn. lia.
Qed.


Lemma run_made_by_factory (inputs : list input) (st : t) :
  made_by_factory classify st ->
  made_by_factory classify (run classify st inputs).
Proof.
  revert st. induction inputs as [| i inputs IH]; intros st Hst; [exact Hst |].
  change (run classify st (i :: inputs))
    with (run classify (step classify st i) inputs).
  apply IH. apply step_made_by_factory. exact Hst.
Qed.

(** X16. In every state a created and connected client can reach, the cache
    and the conversations agree (each identifier is mapped to a conversation
    that bears it, each conversation is the one its identifier is mapped
    to), every conversation is as the factory made it for its identifier,
    there are as many conversations as cached identifiers, and the settings
    are those of the constructor. *)
Theorem session_keeps_cache_consistent (settings : JsVal)
    (proxy : completion JsVal unit) (st0 : t) (inputs : list input) :
  session deepMerge defaultClientSettings settings proxy = Some st0 ->
  cache_consistent (run classify st0 inputs)
  /\ made_by_factory classify (run classify st0 inputs)
  /\ Client.settings (run classify st0 inputs)
     = merged deepMerge defaultClientSettings settings
  /\ nullish (Client.settings (run classify st0 inputs)) = false.
Proof.
  intros Hst0.
  destruct (session_invariant _ _ _ _ _ Hst0) as (Hs & Hcons & _).
  assert (Hst : cache st0 = ∅ /\ objects st0 = []
                /\ Client.settings st0
                   = merged deepMerge defaultClientSettings settings).
  { unfold session in Hst0.
    destruct (constructor deepMerge defaultClientSettings settings)
      as [this | err] eqn:Hthis; [| discriminate Hst0].
    destruct (constructor_returns _ _ settings this Hthis)
      as (-> & Hs0 & Hd & _).
    rewrite connect_run in Hst0 by assumption.
    destruct proxy as [u | reason]; [| discriminate Hst0].
    injection Hst0 as <-. repeat split. }
  destruct Hst as (Hcache & Hobjects & Hsettings).
  split; [now apply run_consistent |].
  split.
  - apply run_made_by_factory. split.
    + intros n c Hc. rewrite Hobjects in Hc. discriminate Hc.
    + now rewrite Hcache, Hobjects.
  - rewrite run_settings. split; [exact Hsettings | exact Hs].
Qed.

Lemma run_dom_upper (inputs : list input) (st : t) :
  dom (cache (run classify st inputs))
  ⊆ dom (cache st) ∪ list_to_set (identifiers inputs).
Proof.
  revert st. induction inputs as [| i inputs IH]; intros st.
  - cbn. apply union_subseteq_l.
  - change (run classify st (i :: inputs))
      with (run classify (step classify st i) inputs).
    etransitivity; [apply IH |].
    rewrite identifiers_cons, list_to_set_app_L.
    destruct (step_manager st i) as [[-> _] | (k & -> & -> & _)].
    + intros x. rewrite !elem_of_union. tauto.
    + rewrite remembered_dom. cbn. intros x.
      rewrite !elem_of_union, elem_of_empty. tauto.
Qed.

(** X17. A conversation is cached only for the identifier of a message that
    arrived: after any inputs the cached identifiers are among those cached
    before and those of the message signals; and while the client listens
    (its settings being an object) every message signal's identifier is
    cached, so after bus signals only the cached identifiers are exactly
    those. *)
Theorem cached_identifiers (st : t) (inputs : list input) :
  dom (cache (run classify st inputs))
  ⊆ dom (cache st) ∪ list_to_set (identifiers inputs)
  /\ (nullish (Client.settings st) = false ->
      heard st = true ->
      Forall (fun i => is_signal i = true) inputs ->
      dom (cache (run classify st inputs))
      = dom (cache st) ∪ list_to_set (identifiers inputs)).
Proof.
  split; [apply run_dom_upper |].
  intros Hs Hl Hall. revert st Hs Hl.
  induction Hall as [| i inputs Hi _ IH]; intros st Hs Hl.
  - cbn. apply set_eq. intros x. rewrite elem_of_union, elem_of_empty. tauto.
  - change (run classify st (i :: inputs))
      with (run classify (step classify st i) inputs).
    destruct (step_signal classify st i Hi Hl Hs)
      as (_ & _ & _ & _ & _ & _ & _ & _ & Hsame).
    destruct (session_state_heard _ _ Hsame) as [Hl' _].
    rewrite IH; [| now rewrite step_settings | now rewrite Hl'].
    rewrite identifiers_cons, list_to_set_app_L.
    destruct i as [| r | ts a g c att | ts s g m x | e]; try discriminate Hi;
      cbn [step]; rewrite Hl.
    + rewrite on_MessageReceived_run by exact Hs. fields.
      match goal with
      | |- context [remembered classify ?k (with_trace ?f st)] =>
          destruct (remembered_manager k f st) as [-> _]
      end.
      rewrite remembered_dom. cbn. apply set_eq. intros y.
      rewrite !elem_of_union, elem_of_empty. tauto.
    + rewrite on_MessageReceivedV2_run. fields.
      match goal with
      | |- context [remembered classify ?k (with_trace ?f st)] =>
          destruct (remembered_manager k f st) as [-> _]
      end.
      rewrite remembered_dom. cbn. apply set_eq. intros y.
      rewrite !elem_of_union, elem_of_empty. tauto.
    + destruct (on_error_frame e st) as (_ & -> & _).
      cbn. apply set_eq. intros y. rewrite !elem_of_union, elem_of_empty. tauto.
Qed.

(** X18. Signals with different conversation identifiers are handed
    different conversation objects, whatever was handled between them. *)
Theorem different_identifier_different_conversation (st : t)
    (i1 i2 : input) (inputs : list input) (g1 g2 : Buffer.t) (s1 s2 : string)
    (p1 p2 : payload) :
  nullish (Client.settings st) = false ->
  cache_consistent st ->
  addressing i1 = Some (g1, s1) ->
  addressing i2 = Some (g2, s2) ->
  conversationID g1 s1 <> conversationID g2 s2 ->
  delivered classify st i1 = Some p1 ->
  delivered classify (run classify (step classify st i1) inputs) i2 = Some p2 ->
  conversation_of p1 <> conversation_of p2.
Proof.
  intros Hs Hst Hi1 Hi2 Hdiff Hp1 Hp2.
  assert (Hl1 : heard st = true).
  { destruct (heard st) eqn:Hl; [reflexivity |].
    rewrite delivered_unchanged in Hp1 by (eapply step_unheard; eauto).
    discriminate Hp1. }
  destruct (step_message classify st i1 g1 s1 Hi1 Hl1 Hs)
    as (logs1 & ev1 & q1 & Hstep1 & Hconv1 & _).
  destruct (delivered_message classify st i1 logs1 ev1 q1 _ Hstep1)
    as (Hq1 & _ & Hk1 & _).
  assert (q1 = p1) as -> by congruence.
  set (st2 := run classify (step classify st i1) inputs) in *.
  assert (Hs2 : nullish (Client.settings st2) = false)
    by (unfold st2; now rewrite run_settings, step_settings).
  assert (Hst2 : cache_consistent st2)
    by (unfold st2; now apply run_consistent, step_consistent).
  assert (Hl2 : heard st2 = true).
  { destruct (heard st2) eqn:Hl; [reflexivity |].
    rewrite delivered_unchanged in Hp2 by (eapply step_unheard; eauto).
    discriminate Hp2. }
  destruct (step_message classify st2 i2 g2 s2 Hi2 Hl2 Hs2)
    as (logs2 & ev2 & q2 & Hstep2 & Hconv2 & _).
  destruct (delivered_message classify st2 i2 logs2 ev2 q2 _ Hstep2)
    as (Hq2 & _).
  assert (q2 = p2) as -> by congruence.
  pose proof (run_cache_keeps classify inputs _ _ _ Hk1) as Hk2.
  fold st2 in Hk2.
  rewrite Hconv1, Hconv2. intros [= Hsame].
  destruct Hst2 as [Hcache _].
  destruct (Hcache _ _ Hk2) as (c1 & Hc1 & Hid1).
  unfold resolved at 2 in Hsame.
  destruct (cache st2 !! conversationID g2 s2) as [n2 |] eqn:Hn2.
  - destruct (Hcache _ _ Hn2) as (c2 & Hc2 & Hid2).
    rewrite Hsame in Hc1. congruence.
  - apply lookup_lt_Some in Hc1. lia.
Qed.

End Cache_further.

(* --------------------------------------------------------------------- *)
(** *** Further properties of the base64 text and of the identifiers *)
(* --------------------------------------------------------------------- *)

Section Base64_further.
Import Js Client Buffer Base64.

(** Induction over a buffer three octets at a time, as [toBase64] reads it. *)
Lemma by_threes (P : list byte -> Prop) :
  P [] -> (forall a, P [a]) -> (forall a b, P [a; b]) ->
  (forall a b c rest, P rest -> P (a :: b :: c :: rest)) ->
  forall bs, P bs.
Proof.
  intros H0 H1 H2 H3.
  assert (H : forall bs, P bs /\ (forall a, P (a :: bs))
                         /\ (forall a b, P (a :: b :: bs))).
  { induction bs as [| c bs (IH0 & IH1 & IH2)]; [auto |].
    split; [apply IH1 |]. split; [intros a; apply IH2 |].
    intros a b. apply H3, IH0. }
  intros bs. apply H.
Qed.

Lemma octet_range (b : byte) : 0 <= octet b < 256.
Proof.
  unfold octet. pose proof (Byte.to_N_bounded b). lia.
Qed.

Lemma octet_inj (a b : byte) : octet a = octet b -> a = b.
Proof.
  unfold octet. intros H. apply N2Z.inj in H.
  pose proof (Byte.of_to_N a) as Ha. rewrite H, Byte.of_to_N in Ha.
  congruence.
Qed.

(** The four sextets of three octets, in arithmetic. *)
Lemma lor_low (a b : Z) :
  0 <= a < 4 -> 0 <= b < 16 -> Z.lor (Z.shiftl a 4) b = 16 * a + b.
Proof.
  intros Ha Hb.
  assert (Ha' : a = 0 \/ a = 1 \/ a = 2 \/ a = 3) by lia.
  assert (Hb' : b = 0 \/ b = 1 \/ b = 2 \/ b = 3 \/ b = 4 \/ b = 5 \/ b = 6
                \/ b = 7 \/ b = 8 \/ b = 9 \/ b = 10 \/ b = 11 \/ b = 12
                \/ b = 13 \/ b = 14 \/ b = 15) by lia.
  repeat (destruct Ha' as [-> | Ha']); try subst a;
    repeat (destruct Hb' as [-> | Hb']); try subst b; reflexivity.
Qed.

Lemma lor_high (a b : Z) :
  0 <= a < 16 -> 0 <= b < 4 -> Z.lor (Z.shiftl a 2) b = 4 * a + b.
Proof.
  intros Ha Hb.
  assert (Hb' : b = 0 \/ b = 1 \/ b = 2 \/ b = 3) by lia.
  assert (Ha' : a = 0 \/ a = 1 \/ a = 2 \/ a = 3 \/ a = 4 \/ a = 5 \/ a = 6
                \/ a = 7 \/ a = 8 \/ a = 9 \/ a = 10 \/ a = 11 \/ a = 12
                \/ a = 13 \/ a = 14 \/ a = 15) by lia.
  repeat (destruct Ha' as [-> | Ha']); try subst a;
    repeat (destruct Hb' as [-> | Hb']); try subst b; reflexivity.
Qed.

Lemma sextets (x y z : Z) :
  0 <= x < 256 -> 0 <= y < 256 -> 0 <= z < 256 ->
  Z.shiftr x 2 = x / 4
  /\ Z.lor (Z.shiftl (Z.land x 3) 4) (Z.shiftr y 4) = 16 * (x mod 4) + y / 16
  /\ Z.lor (Z.shiftl (Z.land y 15) 2) (Z.shiftr z 6) = 4 * (y mod 16) + z / 64
  /\ Z.land z 63 = z mod 64
  /\ Z.shiftl (Z.land x 3) 4 = 16 * (x mod 4)
  /\ Z.shiftl (Z.land y 15) 2 = 4 * (y mod 16).
Proof.
  intros Hx Hy Hz.
  change 3 with (Z.ones 2). change 15 with (Z.ones 4).
  change 63 with (Z.ones 6).
  rewrite !Z.land_ones, !Z.shiftr_div_pow2 by lia.
  change (2 ^ 2) with 4. change (2 ^ 4) with 16. change (2 ^ 6) with 64.
  pose proof (Z.mod_pos_bound x 4). pose proof (Z.mod_pos_bound y 16).
  assert (0 <= y / 16 < 16)
    by (split; [apply Z.div_pos | apply Z.div_lt_upper_bound]; lia).
  assert (0 <= z / 64 < 4)
    by (split; [apply Z.div_pos | apply Z.div_lt_upper_bound]; lia).
  rewrite lor_low, lor_high by lia.
  rewrite !Z.shiftl_mul_pow2 by lia.
  change (2 ^ 2) with 4. change (2 ^ 4) with 16.
  repeat split; lia.
Qed.

Lemma digit_nth (k : nat) :
  (k < 64)%nat -> digit (Z.of_nat k) = nth k chars "="%char.
Proof.
  intros Hk.
  do 64 (destruct k as [| k]; [reflexivity |]). lia.
Qed.

Lemma chars_NoDup : NoDup chars.
Proof. apply (bool_decide_unpack (NoDup chars)). vm_compute. reflexivity. Qed.

Lemma digit_inj (n m : Z) :
  0 <= n < 64 -> 0 <= m < 64 -> digit n = digit m -> n = m.
Proof.
  intros Hn Hm H.
  rewrite <- (Z2Nat.id n), <- (Z2Nat.id m) in H by lia.
  rewrite !digit_nth in H by lia.
  destruct (lookup_lt_is_Some_2 chars (Z.to_nat n)) as [x Hx]; [cbn; lia |].
  destruct (lookup_lt_is_Some_2 chars (Z.to_nat m)) as [y Hy]; [cbn; lia |].
  rewrite (nth_lookup_Some _ _ _ _ Hx), (nth_lookup_Some _ _ _ _ Hy) in H.
  subst y.
  pose proof (proj1 (NoDup_alt chars) chars_NoDup _ _ _ Hx Hy). lia.
Qed.

Lemma digit_in_alphabet (n : Z) :
  0 <= n < 64 -> In (digit n) chars /\ digit n <> "="%char.
Proof.
  intros Hn. rewrite <- (Z2Nat.id n) by lia.
  assert (Hk : (Z.to_nat n < 64)%nat) by lia.
  rewrite digit_nth by exact Hk. split.
  - apply nth_In. cbn. lia.
  - revert Hk. generalize (Z.to_nat n). intros k Hk.
    do 64 (destruct k as [| k]; [discriminate |]). lia.
Qed.


(** The digits of a group of octets are digits, and tell the octets. *)
Lemma group_digits (a b c : byte) :
  0 <= Z.shiftr (octet a) 2 < 64
  /\ 0 <= Z.lor (Z.shiftl (Z.land (octet a) 3) 4) (Z.shiftr (octet b) 4) < 64
  /\ 0 <= Z.lor (Z.shiftl (Z.land (octet b) 15) 2) (Z.shiftr (octet c) 6) < 64
  /\ 0 <= Z.land (octet c) 63 < 64
  /\ 0 <= Z.shiftl (Z.land (octet a) 3) 4 < 64
  /\ 0 <= Z.shiftl (Z.land (octet b) 15) 2 < 64.
Proof.
  pose proof (octet_range a). pose proof (octet_range b).
  pose proof (octet_range c).
  destruct (sextets (octet a) (octet b) (octet c))
    as (-> & -> & -> & -> & -> & ->); try assumption.
  repeat split; Z.div_mod_to_equations; lia.
Qed.

Lemma group3_inj (a b c a' b' c' : byte) :
  digit (Z.shiftr (octet a) 2) = digit (Z.shiftr (octet a') 2) ->
  digit (Z.lor (Z.shiftl (Z.land (octet a) 3) 4) (Z.shiftr (octet b) 4))
  = digit (Z.lor (Z.shiftl (Z.land (octet a') 3) 4) (Z.shiftr (octet b') 4)) ->
  digit (Z.lor (Z.shiftl (Z.land (octet b) 15) 2) (Z.shiftr (octet c) 6))
  = digit (Z.lor (Z.shiftl (Z.land (octet b') 15) 2) (Z.shiftr (octet c') 6)) ->
  digit (Z.land (octet c) 63) = digit (Z.land (octet c') 63) ->
  a = a' /\ b = b' /\ c = c'.
Proof.
  intros H1 H2 H3 H4.
  destruct (group_digits a b c) as (R1 & R2 & R3 & R4 & _).
  destruct (group_digits a' b' c') as (R1' & R2' & R3' & R4' & _).
  apply digit_inj in H1, H2, H3, H4; try assumption.
  pose proof (octet_range a). pose proof (octet_range b).
  pose proof (octet_range c). pose proof (octet_range a').
  pose proof (octet_range b'). pose proof (octet_range c').
  destruct (sextets (octet a) (octet b) (octet c))
    as (E1 & E2 & E3 & E4 & _); try assumption.
  destruct (sextets (octet a') (octet b') (octet c'))
    as (E1' & E2' & E3' & E4' & _); try assumption.
  rewrite E1, E1' in H1. rewrite E2, E2' in H2. rewrite E3, E3' in H3.
  rewrite E4, E4' in H4.
  repeat split; apply octet_inj; Z.div_mod_to_equations; lia.
Qed.

Lemma group2_inj (a b a' b' : byte) :
  digit (Z.shiftr (octet a) 2) = digit (Z.shiftr (octet a') 2) ->
  digit (Z.lor (Z.shiftl (Z.land (octet a) 3) 4) (Z.shiftr (octet b) 4))
  = digit (Z.lor (Z.shiftl (Z.land (octet a') 3) 4) (Z.shiftr (octet b') 4)) ->
  digit (Z.shiftl (Z.land (octet b) 15) 2)
  = digit (Z.shiftl (Z.land (octet b') 15) 2) ->
  a = a' /\ b = b'.
Proof.
  intros H1 H2 H3.
  destruct (group_digits a b b) as (R1 & R2 & _ & _ & _ & R6).
  destruct (group_digits a' b' b') as (R1' & R2' & _ & _ & _ & R6').
  apply digit_inj in H1, H2, H3; try assumption.
  pose proof (octet_range a). pose proof (octet_range b).
  pose proof (octet_range a'). pose proof (octet_range b').
  destruct (sextets (octet a) (octet b) (octet b))
    as (E1 & E2 & _ & _ & _ & E6); try assumption.
  destruct (sextets (octet a') (octet b') (octet b'))
    as (E1' & E2' & _ & _ & _ & E6'); try assumption.
  rewrite E1, E1' in H1. rewrite E2, E2' in H2. rewrite E6, E6' in H3.
  repeat split; apply octet_inj; Z.div_mod_to_equations; lia.
Qed.

Lemma group1_inj (a a' : byte) :
  digit (Z.shiftr (octet a) 2) = digit (Z.shiftr (octet a') 2) ->
  digit (Z.shiftl (Z.land (octet a) 3) 4)
  = digit (Z.shiftl (Z.land (octet a') 3) 4) ->
  a = a'.
Proof.
  intros H1 H2.
  destruct (group_digits a a a) as (R1 & _ & _ & _ & R5 & _).
  destruct (group_digits a' a' a') as (R1' & _ & _ & _ & R5' & _).
  apply digit_inj in H1, H2; try assumption.
  pose proof (octet_range a). pose proof (octet_range a').
  destruct (sextets (octet a) (octet a) (octet a))
    as (E1 & _ & _ & _ & E5 & _); try assumption.
  destruct (sextets (octet a') (octet a') (octet a'))
    as (E1' & _ & _ & _ & E5' & _); try assumption.
  rewrite E1, E1' in H1. rewrite E5, E5' in H2.
  apply octet_inj; Z.div_mod_to_equations; lia.
Qed.

Lemma digit_not_pad (n : Z) : 0 <= n < 64 -> digit n <> "="%char.
Proof. intros Hn. now apply digit_in_alphabet. Qed.

Lemma digit_range_1 (a : byte) : 0 <= Z.shiftr (octet a) 2 < 64.
Proof. apply (group_digits a a a). Qed.

Lemma digit_range_2 (a b : byte) :
  0 <= Z.lor (Z.shiftl (Z.land (octet a) 3) 4) (Z.shiftr (octet b) 4) < 64.
Proof. apply (group_digits a b b). Qed.

Lemma digit_range_3 (b c : byte) :
  0 <= Z.lor (Z.shiftl (Z.land (octet b) 15) 2) (Z.shiftr (octet c) 6) < 64.
Proof. apply (group_digits b b c). Qed.

Lemma digit_range_4 (c : byte) : 0 <= Z.land (octet c) 63 < 64.
Proof. apply (group_digits c c c). Qed.

Lemma digit_range_5 (a : byte) : 0 <= Z.shiftl (Z.land (octet a) 3) 4 < 64.
Proof. apply (group_digits a a a). Qed.

Lemma digit_range_6 (b : byte) : 0 <= Z.shiftl (Z.land (octet b) 15) 2 < 64.
Proof. apply (group_digits b b b). Qed.

Ltac digit_range :=
  first [ apply digit_range_1 | apply digit_range_2 | apply digit_range_3
        | apply digit_range_4 | apply digit_range_5 | apply digit_range_6 ].

Ltac pad_is_no_digit :=
  match goal with
  | H : digit _ = "="%char |- _ =>
      exfalso; revert H; apply digit_not_pad; digit_range
  | H : "="%char = digit _ |- _ =>
      exfalso; symmetry in H; revert H; apply digit_not_pad; digit_range
  end.

(** Different buffers have different base64 texts. *)
Lemma toBase64_inj (bs bs' : list byte) :
  toBase64 bs = toBase64 bs' -> bs = bs'.
Proof.
  revert bs'. induction bs as [| a | a b | a b c rest IH] using by_threes;
    intros [| a' [| b' [| c' rest']]] H; cbn [toBase64] in H;
    try discriminate H; try reflexivity;
    inversion H; try pad_is_no_digit.
  - f_equal. now apply group1_inj.
  - destruct (group2_inj a b a' b') as [-> ->]; auto.
  - destruct (group3_inj a b c a' b' c') as (-> & -> & ->); auto.
    do 3 f_equal. now apply IH.
Qed.

(** The text has four characters for every three octets, the last group
    rounded up, and every character is a digit or the padding. *)
Lemma toBase64_shape (bs : list byte) :
  String.length (toBase64 bs) = (4 * ((List.length bs + 2) / 3))%nat
  /\ Forall (fun c => In c chars \/ c = "="%char)
       (list_ascii_of_string (toBase64 bs)).
Proof.
  assert (Hdigit : forall n, 0 <= n < 64 ->
            In (digit n) chars \/ digit n = "="%char)
    by (intros n Hn; left; now apply digit_in_alphabet).
  assert (Hpad : In "="%char chars \/ "="%char = "="%char) by now right.
  induction bs as [| a | a b | a b c rest [IHl IHc]] using by_threes.
  - split; [reflexivity | apply Forall_nil_2].
  - split; [reflexivity |].
    cbn [toBase64 list_ascii_of_string].
    apply Forall_cons_2; [apply Hdigit; digit_range |].
    apply Forall_cons_2; [apply Hdigit; digit_range |].
    apply Forall_cons_2; [exact Hpad |].
    apply Forall_cons_2; [exact Hpad |]. apply Forall_nil_2.
  - split; [reflexivity |].
    cbn [toBase64 list_ascii_of_string].
    apply Forall_cons_2; [apply Hdigit; digit_range |].
    apply Forall_cons_2; [apply Hdigit; digit_range |].
    apply Forall_cons_2; [apply Hdigit; digit_range |].
    apply Forall_cons_2; [exact Hpad |]. apply Forall_nil_2.
  - split.
    + cbn [toBase64 String.length List.length]. rewrite IHl.
      replace (S (S (S (List.length rest))) + 2)%nat
        with (List.length rest + 2 + 1 * 3)%nat by lia.
      rewrite Nat.div_add by discriminate. lia.
    + cbn [toBase64 list_ascii_of_string].
      apply Forall_cons_2; [apply Hdigit; digit_range |].
      apply Forall_cons_2; [apply Hdigit; digit_range |].
      apply Forall_cons_2; [apply Hdigit; digit_range |].
      apply Forall_cons_2; [apply Hdigit; digit_range |].
      exact IHc.
Qed.

Lemma toBase64_empty (bs : list byte) : toBase64 bs = "" -> bs = [].
Proof. intros H. apply toBase64_inj. exact H. Qed.

(** X19. Messages of two groups resolve to the same conversation identifier
    exactly when the groups have the same identifier bytes, whoever sent
    them; and the identifier of a group message is never empty. *)
Theorem group_identifier_tells_group (g1 g2 : Buffer.t) (s1 s2 : string) :
  g1 <> [] -> g2 <> [] ->
  (conversationID g1 s1 = conversationID g2 s2 <-> g1 = g2)
  /\ conversationID g1 s1 <> "".
Proof.
  intros H1 H2. unfold conversationID.
  destruct g1 as [| a1 g1]; [contradiction |].
  destruct g2 as [| a2 g2]; [contradiction |].
  cbn [List.length]. split; [split |].
  - apply toBase64_inj.
  - now intros ->.
  - intros H. apply toBase64_empty in H. discriminate H.
Qed.

(** X20. A group message and a direct message resolve to the same
    conversation identifier exactly when the sender of the direct message
    is the base64 text of the group's bytes; such a sender has a length
    that is a positive multiple of four and only characters of the base64
    alphabet and the padding. *)
Theorem direct_group_collision (g : Buffer.t) (s1 s2 : string) :
  g <> [] ->
  (conversationID g s1 = conversationID [] s2 <-> s2 = toBase64 g)
  /\ (conversationID g s1 = conversationID [] s2 ->
      String.length s2 = (4 * ((List.length g + 2) / 3))%nat
      /\ (4 <= String.length s2)%nat
      /\ Forall (fun c => In c chars \/ c = "="%char)
           (list_ascii_of_string s2)).
Proof.
  intros Hg.
  assert (Hid : conversationID g s1 = toBase64 g)
    by (destruct g; [contradiction | reflexivity]).
  rewrite Hid. cbn [conversationID List.length].
  split; [split; congruence |].
  intros <-. destruct (toBase64_shape g) as [Hlen Hchars].
  split; [exact Hlen |]. split; [| exact Hchars].
  rewrite Hlen. destruct g as [| a g]; [contradiction |].
  cbn [List.length].
  replace (S (List.length g) + 2)%nat with (List.length g + 1 * 3)%nat by lia.
  rewrite Nat.div_add by discriminate. lia.
Qed.

End Base64_further.

(* --------------------------------------------------------------------- *)
(** *** The further properties on a concrete session *)
(* --------------------------------------------------------------------- *)

Section Further_on_concrete_session.
Import Js Client Events.

Lemma MessageV2_getters_never_missing_witness :
  exists m,
    MessageV2.constructor JUndefined = Normal m
    /\ MessageV2.extras m = JArr []
    /\ MessageV2.message m = JStr ""
    /\ truthy (MessageV2.extras m) = true.
Proof.
  eexists. split; [reflexivity |]. split; [reflexivity |].
  split; [reflexivity |].
  apply (MessageV2_getters_never_missing JUndefined). reflexivity.
Defined.

Lemma allowlist_is_substring_of_first_text_witness :
  exists b,
    allowlisted (Sample.dbus_error "Connection refused") = Normal (JBool b)
    /\ (b = true <->
        exists pre post,
          "Connection refused" = pre ++ UnauthenticatedQuoteException ++ post).
Proof.
  eapply allowlist_is_substring_of_first_text; reflexivity.
Defined.

Lemma malformed_error_ends_callback_witness :
  step Sample.by_plus Sample.connected (settled (Throw Sample.numeric_error))
  = with_in_flight 0 Sample.connected.
Proof.
  destruct (malformed_error_ends_callback Sample.by_plus Sample.connected
              Sample.numeric_error 0) as [_ Hends].
  apply Hends; [reflexivity | now eexists].
Defined.

Lemma timestamps_keep_order_witness :
  exists p p' z z',
    delivered Sample.by_plus Sample.connected Sample.direct_signal = Some p
    /\ delivered Sample.by_plus Sample.connected Sample.group_signal = Some p'
    /\ timestamp_of p = Some (JNum (Int z))
    /\ timestamp_of p' = Some (JNum (Int z'))
    /\ Z.abs (z - 1700000000000) <= 512
    /\ Z.sgn z = Z.sgn 1700000000000
    /\ Z.abs (z' - 1700000000001) <= 512
    /\ z <= z'.
Proof.
  apply (timestamps_keep_order Sample.by_plus Sample.connected Sample.connected
           Sample.direct_signal Sample.group_signal);
    try reflexivity; split; discriminate.
Defined.

Lemma signals_in_order_witness :
  exists added,
    trace (run Sample.by_plus Sample.connected
             [Sample.direct_signal; error JNull])
    = (trace Sample.connected ++ added)%list
    /\ Some <$> (fst <$> emitted added)
       = event_of <$> [Sample.direct_signal; error JNull]
    /\ (forall e, In (error e) [Sample.direct_signal; error JNull] ->
          In ("error", error_payload e) (emitted added))
    /\ probes added = 0%nat
    /\ session_state (run Sample.by_plus Sample.connected
                        [Sample.direct_signal; error JNull])
       = session_state Sample.connected.
Proof.
  apply (signals_in_order Sample.by_plus Sample.connected); try reflexivity.
  apply Forall_cons_2; [reflexivity |].
  apply Forall_cons_2; [reflexivity |]. apply Forall_nil_2.
Defined.

Lemma silent_after_teardown_witness :
  run Sample.by_plus
    (step Sample.by_plus Sample.connected (settled (Throw Sample.no_reply)))
    [tick; Sample.direct_signal; error JNull]
  = step Sample.by_plus Sample.connected (settled (Throw Sample.no_reply)).
Proof.
  apply (silent_after_teardown Sample.by_plus
           (step Sample.by_plus Sample.connected
              (settled (Throw Sample.no_reply)))
           [tick; Sample.direct_signal; error JNull]); reflexivity.
Defined.

Lemma checks_overlap_witness :
  in_flight (run Sample.by_plus Sample.connected (repeat tick 3)) = 4%nat
  /\ disconnects
       (trace (run Sample.by_plus
                 (run Sample.by_plus Sample.connected (repeat tick 3))
                 [settled (Throw Sample.no_reply);
                  settled (Throw Sample.no_reply)]))
     = 2%nat.
Proof.
  split.
  - destruct (checks_overlap Sample.by_plus Sample.connected 3 0
                Sample.no_reply Sample.no_reply JUndefined JUndefined eq_refl)
      as [Hticks _].
    destruct (Hticks eq_refl) as [Hflight _]. exact Hflight.
  - destruct (checks_overlap Sample.by_plus
                (run Sample.by_plus Sample.connected (repeat tick 3)) 0 2
                Sample.no_reply Sample.no_reply JUndefined JUndefined eq_refl)
      as [_ Htwice].
    apply Htwice; reflexivity.
Defined.

Lemma lost_timer_keeps_probing_witness :
  ticking (run Sample.by_plus Sample.reconnected
             [settled (Throw Sample.no_reply)]) = true
  /\ interval_running (run Sample.by_plus Sample.reconnected
                         [settled (Throw Sample.no_reply)]) = false.
Proof.
  split; [| reflexivity].
  destruct (lost_timer_keeps_probing Sample.by_plus Sample.reconnected
              [settled (Throw Sample.no_reply)]) as (_ & Hticking & _);
    [discriminate | exact Hticking].
Defined.

Lemma constructor_reports_first_failure_witness :
  Client.constructor Util.deepMerge Constants.defaultClientSettings
    (Sample.settings_of (JStr "5000") (JStr "+15550001111"))
  = Throw (TypeError (Bad_connectionCheckInterval (JStr "5000"))).
Proof.
  destruct (constructor_reports_first_failure Util.deepMerge
              Constants.defaultClientSettings
              (Sample.settings_of (JStr "5000") (JStr "+15550001111")) eq_refl)
    as [Hfirst _].
  apply Hfirst. discriminate.
Defined.

Lemma connect_rejected_witness :
  snd (connect (Throw JNull)
         (created (Util.deepMerge Sample.settings
                     Constants.defaultClientSettings)))
  = Throw (Rejected JNull)
  /\ run Sample.by_plus
       (fst (connect (Throw JNull)
               (created (Util.deepMerge Sample.settings
                           Constants.defaultClientSettings))))
       [tick; Sample.direct_signal]
     = fst (connect (Throw JNull)
              (created (Util.deepMerge Sample.settings
                          Constants.defaultClientSettings))).
Proof.
  destruct (connect_rejected Util.deepMerge Constants.defaultClientSettings
              Sample.by_plus Sample.settings
              (created (Util.deepMerge Sample.settings
                          Constants.defaultClientSettings))
              JNull [tick; Sample.direct_signal] eq_refl)
    as (Hrejected & _ & _ & _ & _ & Hinert).
  split; assumption.
Defined.

Lemma reconnect_loses_what_was_held_witness :
  lost_intervals (fst (connect (Normal tt) Sample.connected)) = 1%nat
  /\ ticking (run Sample.by_plus (fst (connect (Normal tt) Sample.connected))
                [settled (Throw Sample.no_reply)]) = true.
Proof.
  destruct (reconnect_loses_what_was_held Sample.by_plus Sample.connected tt
              [settled (Throw Sample.no_reply)] eq_refl eq_refl)
    as (_ & (_ & Hlost & _) & _ & Hticking).
  split; [exact Hlost | apply Hticking; reflexivity].
Defined.

Lemma session_keeps_cache_consistent_witness :
  cache_consistent
    (run Sample.by_plus
       (with_trace
          (fun _ =>
             (connecting (Util.deepMerge Sample.settings
                            Constants.defaultClientSettings)
              ++ attaching (Util.deepMerge Sample.settings
                              Constants.defaultClientSettings))%list)
          (with_session true true true
             (created (Util.deepMerge Sample.settings
                         Constants.defaultClientSettings))))
       [Sample.direct_signal; Sample.group_signal]).
Proof.
  destruct (session_keeps_cache_consistent Util.deepMerge
              Constants.defaultClientSettings Sample.by_plus Sample.settings
              (Normal tt)
              (with_trace
                 (fun _ =>
                    (connecting (Util.deepMerge Sample.settings
                                   Constants.defaultClientSettings)
                     ++ attaching (Util.deepMerge Sample.settings
                                     Constants.defaultClientSettings))%list)
                 (with_session true true true
                    (created (Util.deepMerge Sample.settings
                                Constants.defaultClientSettings))))
              [Sample.direct_signal; Sample.group_signal] eq_refl)
    as [Hconsistent _].
  exact Hconsistent.
Defined.

Lemma different_identifier_different_conversation_witness :
  exists p1 p2,
    delivered Sample.by_plus Sample.connected Sample.direct_signal = Some p1
    /\ delivered Sample.by_plus
         (run Sample.by_plus
            (step Sample.by_plus Sample.connected Sample.direct_signal) [tick])
         (MessageReceived 1700000000002 "+15557654321" [] (JStr "hi")
            (JArr [])) = Some p2
    /\ conversation_of p1 <> conversation_of p2.
Proof.
  do 2 eexists. split; [reflexivity |]. split; [reflexivity |].
  apply (different_identifier_different_conversation Sample.by_plus
           Sample.connected Sample.direct_signal
           (MessageReceived 1700000000002 "+15557654321" [] (JStr "hi")
              (JArr []))
           [tick] [] [] "+15551234567" "+15557654321");
    try reflexivity; [exact connected_consistent | discriminate].
Defined.

Lemma group_identifier_tells_group_witness :
  (conversationID Sample.phone_like_group "+15557654321"
   = conversationID [x4d; x61; x6e]%byte "+15557654321"
   <-> Sample.phone_like_group = [x4d; x61; x6e]%byte)
  /\ conversationID Sample.phone_like_group "+15557654321" <> "".
Proof.
  apply group_identifier_tells_group; discriminate.
Defined.

Lemma direct_group_collision_witness :
  (conversationID Sample.phone_like_group "+15557654321"
   = conversationID [] "+15551234567"
   <-> "+15551234567" = Buffer.toBase64 Sample.phone_like_group)
  /\ (conversationID Sample.phone_like_group "+15557654321"
      = conversationID [] "+15551234567" ->
      String.length "+15551234567"
      = (4 * ((List.length Sample.phone_like_group + 2) / 3))%nat
      /\ (4 <= String.length "+15551234567")%nat
      /\ Forall (fun c => In c Base64.chars \/ c = "="%char)
           (list_ascii_of_string "+15551234567")).
Proof.
  apply direct_group_collision. discriminate.
Defined.

End Further_on_concrete_session.
